(** * PDF text extraction: validator, text, per-page and metadata pipeline

    A shallow embedding of [src/pdf_extractor.py] and [src/config.py].

    - Python [str] values are [string]s. Characters are ASCII code points;
      the methods [lower], [title], [split] and [replace] are modelled on
      that alphabet, and a byte above 127 is neither cased nor whitespace.
    - A Python exception is a class together with the text [str(e)] gives.
    - A call runs in the monad [Py]: it threads the list of observable
      actions of the process (logger calls and calls to the PDF reader) and
      ends in [Return v] or [Raise e].
    - The filesystem and the third-party PDF reader are a read-only [World]:
      what [os.path.exists], [os.path.getsize], [PdfReader(path)] and the
      reader's attributes answer while the files are left unmodified. *)

From stdpp Require Import gmap strings list.
From Stdlib Require Import QArith DecimalString Ascii.

Open Scope string_scope.
Open Scope Z_scope.

(** ** Python [str] methods *)

Module PyStr.

Definition code (c : ascii) : nat := nat_of_ascii c.

(** [c.isspace()] for an ASCII character: TAB, LF, VT, FF, CR, the four
    separators FS, GS, RS, US, and the blank. *)
Definition isspace (c : ascii) : bool :=
  let n := code c in
  ((9 <=? n) && (n <=? 13) || (28 <=? n) && (n <=? 32))%nat.

Definition isupper (c : ascii) : bool :=
  let n := code c in ((65 <=? n) && (n <=? 90))%nat.

Definition islower (c : ascii) : bool :=
  let n := code c in ((97 <=? n) && (n <=? 122))%nat.

Definition iscased (c : ascii) : bool := isupper c || islower c.

Definition lower_char (c : ascii) : ascii :=
  if isupper c then ascii_of_nat (code c + 32) else c.

Definition upper_char (c : ascii) : ascii :=
  if islower c then ascii_of_nat (code c - 32) else c.

(** [s.lower()] *)
Fixpoint lower (s : string) : string :=
  match s with
  | EmptyString => EmptyString
  | String c s' => String (lower_char c) (lower s')
  end.

(** [s.title()]: a cased character is upper-cased when the one before it is
    not cased, and lower-cased otherwise. *)
Fixpoint title_from (previous_is_cased : bool) (s : string) : string :=
  match s with
  | EmptyString => EmptyString
  | String c s' =>
      String (if previous_is_cased then lower_char c else upper_char c)
             (title_from (iscased c) s')
  end.

Definition title (s : string) : string := title_from false s.

(** [s.replace(old, new)] for a pattern [old] of one character. *)
Fixpoint replace (old : ascii) (new : string) (s : string) : string :=
  match s with
  | EmptyString => EmptyString
  | String c s' =>
      if Ascii.eqb c old then new +:+ replace old new s'
      else String c (replace old new s')
  end.

(** [s.split()] with no separator: the maximal runs of characters that are
    not whitespace. [word] is the run being read, if one has started. *)
Fixpoint split_from (word : option string) (s : string) : list string :=
  match s with
  | EmptyString =>
      match word with Some w => [w] | None => [] end
  | String c s' =>
      if isspace c then
        match word with
        | Some w => w :: split_from None s'
        | None => split_from None s'
        end
      else
        split_from (Some (default EmptyString word +:+ String c EmptyString)) s'
  end.

Definition split (s : string) : list string := split_from None s.

(** [sep.join(parts)] *)
Definition join (sep : string) (parts : list string) : string :=
  String.concat sep parts.

(** [s.rfind(c)]: the highest index of [c] in [s], or [-1]. *)
Fixpoint rfind_from (i : Z) (found : Z) (c : ascii) (s : string) : Z :=
  match s with
  | EmptyString => found
  | String d s' => rfind_from (i + 1) (if Ascii.eqb d c then i else found) c s'
  end.

Definition rfind (c : ascii) (s : string) : Z := rfind_from 0 (-1) c s.

(** The slices [s[:i]], [s[i:]] and [s[i:j]] for indices that are not
    negative. *)
Definition upto (i : Z) (s : string) : string :=
  String.substring 0 (Z.to_nat i) s.

Definition from (i : Z) (s : string) : string :=
  String.substring (Z.to_nat i) (String.length s - Z.to_nat i) s.

Definition slice (i j : Z) (s : string) : string :=
  String.substring (Z.to_nat i) (Z.to_nat j - Z.to_nat i) s.

(** [str(n)] for integers *)
Definition of_nat (n : nat) : string := NilZero.string_of_uint (Nat.to_uint n).
Definition of_Z (z : Z) : string := NilZero.string_of_int (Z.to_int z).

(** [len(s)] *)
Definition len (s : string) : nat := String.length s.

End PyStr.

(** ** [os.path] on POSIX *)

Module OsPath.

(** [genericpath._splitext]: the loop that skips the leading dots of the
    last component, run over the characters between the separator and the
    last dot. It answers whether a character other than a dot was met. *)
Fixpoint has_non_dot (between : string) : bool :=
  match between with
  | EmptyString => false
  | String c rest => if Ascii.eqb c "." then has_non_dot rest else true
  end.

(** [os.path.splitext(p)] *)
Definition splitext (p : string) : string * string :=
  let sepIndex := PyStr.rfind "/" p in
  let dotIndex := PyStr.rfind "." p in
  if (sepIndex <? dotIndex) && has_non_dot (PyStr.slice (sepIndex + 1) dotIndex p)
  then (PyStr.upto dotIndex p, PyStr.from dotIndex p)
  else (p, EmptyString).

(** [os.path.basename(p)]: what follows the last separator. *)
Definition basename (p : string) : string :=
  PyStr.from (PyStr.rfind "/" p + 1) p.

End OsPath.

(** ** Numbers as Python prints and rounds them

    A float is the rational it stands for: a size in bytes divided by
    [1024 * 1024] is exact in binary floating point for every size below
    [2^53], and both [round(x, 2)] and the format [.2f] round that exact
    value to the nearest hundredth, ties to the even one. *)

Module PyNum.

Definition round_half_even (q : Q) : Z :=
  let n := Qnum q in
  let d := Zpos (Qden q) in
  let fl := n / d in
  let r2 := 2 * (n mod d) in
  if r2 <? d then fl
  else if d <? r2 then fl + 1
  else if Z.even fl then fl else fl + 1.

Definition hundredths (q : Q) : Z := round_half_even (q * inject_Z 100).

(** [round(x, 2)] *)
Definition round2 (q : Q) : Q := Qmake (hundredths q) 100.

Definition two_digits (n : Z) : string :=
  (if n <? 10 then "0" else "") +:+ PyStr.of_Z n.

(** [f"{x:.2f}"] for [x >= 0] *)
Definition format_2f (q : Q) : string :=
  let h := hundredths q in
  PyStr.of_Z (h / 100) +:+ "." +:+ two_digits (h mod 100).

(** [str(x)] for a float [x >= 0] that [round(_, 2)] returned *)
Definition str_round2 (q : Q) : string :=
  let h := hundredths q in
  PyStr.of_Z (h / 100) +:+ "." +:+
  (if h mod 10 =? 0 then PyStr.of_Z (h mod 100 / 10) else two_digits (h mod 100)).

End PyNum.

(** ** Exceptions *)

Inductive PyExcClass :=
  | BaseException
  | KeyboardInterrupt
  | Exception
  | OSError
  | FileNotFoundError
  | PermissionError
  | ValueError
  | UnicodeDecodeError
  | KeyError
  | PdfReadError.

#[global] Instance PyExcClass_eq_dec : EqDecision PyExcClass.
Proof. solve_decision. Defined.

(** The base class of each class ([PdfReadError] is PyPDF2's, a direct
    subclass of [Exception] for this purpose). *)
Definition base (c : PyExcClass) : option PyExcClass :=
  match c with
  | BaseException => None
  | KeyboardInterrupt => Some BaseException
  | Exception => Some BaseException
  | OSError => Some Exception
  | FileNotFoundError => Some OSError
  | PermissionError => Some OSError
  | ValueError => Some Exception
  | UnicodeDecodeError => Some ValueError
  | KeyError => Some Exception
  | PdfReadError => Some Exception
  end.

Fixpoint mro (depth : nat) (c : PyExcClass) : list PyExcClass :=
  c :: match depth, base c with
       | S d, Some b => mro d b
       | _, _ => []
       end.

Definition issubclass (c d : PyExcClass) : bool := bool_decide (d ∈ mro 4 c).

(** An exception object: its class and what [str(e)] returns. *)
Record PyExc := mkExc { exc_class : PyExcClass; exc_str : string }.

#[global] Instance PyExc_eq_dec : EqDecision PyExc.
Proof. solve_decision. Defined.

Definition isinstance (e : PyExc) (c : PyExcClass) : bool :=
  issubclass (exc_class e) c.

(** ** The monad of a call *)

Inductive LogLevel := DEBUG | INFO | WARNING | ERROR.

(** What the code asks of the PDF reader. *)
Inductive ReaderOp :=
  | Open (file_path : string)       (* PdfReader(file_path) *)
  | IsEncrypted                     (* reader.is_encrypted *)
  | Pages                           (* reader.pages *)
  | ExtractText (page_num : nat)    (* page.extract_text() *)
  | Metadata.                       (* reader.metadata *)

Inductive Action :=
  | LoggerCall (level : LogLevel) (msg : string)
  | ReaderCall (op : ReaderOp).

#[global] Instance LogLevel_eq_dec : EqDecision LogLevel.
Proof. solve_decision. Defined.
#[global] Instance ReaderOp_eq_dec : EqDecision ReaderOp.
Proof. solve_decision. Defined.
#[global] Instance Action_eq_dec : EqDecision Action.
Proof. solve_decision. Defined.

Inductive Outcome (A : Type) :=
  | Return (a : A)
  | Raise (e : PyExc).
Arguments Return {A} a.
Arguments Raise {A} e.

(** The state of the process is the list of actions performed so far. *)
Definition Py (A : Type) : Type := list Action -> Outcome A * list Action.

#[global] Instance Py_ret : MRet Py := fun A a s => (Return a, s).

#[global] Instance Py_bind : MBind Py := fun A B k m s =>
  match m s with
  | (Return a, s') => k a s'
  | (Raise e, s') => (Raise e, s')
  end.

Definition raise {A} (e : PyExc) : Py A := fun s => (Raise e, s).

Definition perform (a : Action) : Py unit := fun s => (Return tt, (s ++ [a])%list).

Definition lift {A} (o : Outcome A) : Py A := fun s => (o, s).

(** [try: body  except (c1, c2, ...) as e: handler  except ...]: the first
    clause one of whose classes the exception is an instance of handles it;
    with no such clause the exception propagates. *)
Definition ExceptClause (A : Type) : Type := list PyExcClass * (PyExc -> Py A).

Definition try_except {A} (body : Py A) (clauses : list (ExceptClause A)) : Py A :=
  fun s =>
    match body s with
    | (Return a, s') => (Return a, s')
    | (Raise e, s') =>
        match List.find (fun cl : ExceptClause A => existsb (isinstance e) cl.1) clauses with
        | Some cl => cl.2 e s'
        | None => (Raise e, s')
        end
    end.

Definition logger (level : LogLevel) (msg : string) : Py unit :=
  perform (LoggerCall level msg).

(** ** Configuration ([src/config.py]) *)

Record Config := {
  SUPPORTED_EXTENSIONS : list string;
  MAX_FILE_SIZE_MB : Z;
  TEXT_ENCODING : string;
  ERROR_HANDLING : string;
  PRESERVE_LINE_BREAKS : bool;
  REMOVE_EXTRA_WHITESPACE : bool;
  LOG_LEVEL : string;
  LOG_FORMAT : string;
  METADATA_FIELDS : list string
}.

Definition config : Config := {|
  SUPPORTED_EXTENSIONS := [".pdf"];
  MAX_FILE_SIZE_MB := 50;
  TEXT_ENCODING := "utf-8";
  ERROR_HANDLING := "replace";
  PRESERVE_LINE_BREAKS := true;
  REMOVE_EXTRA_WHITESPACE := true;
  LOG_LEVEL := "INFO";
  LOG_FORMAT := "%(asctime)s - %(name)s - %(levelname)s - %(message)s";
  METADATA_FIELDS :=
    ["title"; "author"; "subject"; "creator"; "producer";
     "creation_date"; "modification_date"]
|}.

(** ** The filesystem and the PDF reader *)

(** A page object: what [page.extract_text()] does. *)
Record PdfPage := { extract_text : Outcome string }.

(** A reader object: [is_encrypted], and what reading [pages] and
    [metadata] does. [metadata] is [None] or the document-info dictionary. *)
Record PdfReaderObj := {
  is_encrypted : bool;
  pages : Outcome (list PdfPage);
  metadata : Outcome (option (gmap string string))
}.

Record World := {
  (** the size in bytes of what a path names, when it names something *)
  stat : string -> option N;
  (** [os.path.abspath], which depends on the working directory *)
  abspath : string -> string;
  (** [PdfReader(path)] *)
  PdfReader : string -> Outcome PdfReaderObj
}.

(** ** Values of the metadata dictionary *)

Inductive PyValue :=
  | VNone
  | VBool (b : bool)
  | VInt (n : Z)
  | VFloat (q : Q)
  | VStr (s : string).

Definition str_value (v : PyValue) : string :=
  match v with
  | VNone => "None"
  | VBool b => if b then "True" else "False"
  | VInt n => PyStr.of_Z n
  | VFloat q => PyNum.str_round2 q
  | VStr s => s
  end.

(** A record of [extract_text_by_pages]. *)
Record PageData := {
  page_number : nat;
  text : string;
  char_count : nat
}.

(** ** The module [src/pdf_extractor.py] *)

Section pdf_extractor.

Context (cfg : Config) (w : World).

Definition os_path_exists (p : string) : bool :=
  bool_decide (is_Some (stat w p)).

Definition os_path_getsize (p : string) : Py N :=
  match stat w p with
  | Some n => mret n
  | None =>
      raise (mkExc FileNotFoundError
               ("[Errno 2] No such file or directory: '" +:+ p +:+ "'"))
  end.

(** [size / (1024 * 1024)] *)
Definition megabytes (size : N) : Q :=
  (inject_Z (Z.of_N size) / inject_Z (1024 * 1024))%Q.

Definition validate_pdf_file (file_path : string) : Py bool :=
  (* Check if file exists *)
  if negb (os_path_exists file_path) then
    raise (mkExc FileNotFoundError ("File not found: " +:+ file_path))
  else
  (* Check file extension *)
  let file_ext := PyStr.lower (OsPath.splitext file_path).2 in
  if negb (bool_decide (file_ext ∈ SUPPORTED_EXTENSIONS cfg)) then
    raise (mkExc ValueError
             ("Unsupported file type: " +:+ file_ext +:+ ". Expected PDF file."))
  else
  (* Check file size *)
  size ← os_path_getsize file_path;
  let file_size_mb := megabytes size in
  if negb (Qle_bool file_size_mb (inject_Z (MAX_FILE_SIZE_MB cfg))) then
    raise (mkExc ValueError
             ("File size (" +:+ PyNum.format_2f file_size_mb
              +:+ "MB) exceeds maximum allowed size ("
              +:+ PyStr.of_Z (MAX_FILE_SIZE_MB cfg) +:+ "MB)"))
  else
  logger INFO ("File validation passed: " +:+ file_path);;
  mret true.

(** Calls to the reader *)
Definition open_reader (file_path : string) : Py PdfReaderObj :=
  perform (ReaderCall (Open file_path));; lift (PdfReader w file_path).

Definition reader_is_encrypted (reader : PdfReaderObj) : Py bool :=
  perform (ReaderCall IsEncrypted);; mret (is_encrypted reader).

Definition reader_pages (reader : PdfReaderObj) : Py (list PdfPage) :=
  perform (ReaderCall Pages);; lift (pages reader).

Definition page_extract_text (page_num : nat) (page : PdfPage) : Py string :=
  perform (ReaderCall (ExtractText page_num));; lift (extract_text page).

Definition reader_metadata (reader : PdfReaderObj) : Py (option (gmap string string)) :=
  perform (ReaderCall Metadata);; lift (metadata reader).

Definition encrypted_error : PyExc :=
  mkExc ValueError "Cannot extract text from encrypted PDF. Please decrypt first.".

(** The text processing applied to the text of one page *)
Definition process_text (page_text : string) : string :=
  if REMOVE_EXTRA_WHITESPACE cfg then PyStr.join " " (PyStr.split page_text)
  else page_text.

(** [separator = '\n\n' if PRESERVE_LINE_BREAKS else ' '] *)
Definition separator : string :=
  if PRESERVE_LINE_BREAKS cfg
  then String (ascii_of_nat 10) (String (ascii_of_nat 10) EmptyString)
  else " ".

(** The loop [for page_num, page in enumerate(reader.pages, start=1)] of
    [extract_text_from_pdf], from [page_num] on, with [all_text] so far. *)
Fixpoint text_loop (num_pages page_num : nat) (rest : list PdfPage)
    (all_text : list string) : Py (list string) :=
  match rest with
  | [] => mret all_text
  | page :: rest' =>
      logger DEBUG ("Extracting text from page " +:+ PyStr.of_nat page_num
                    +:+ "/" +:+ PyStr.of_nat num_pages);;
      page_text ← page_extract_text page_num page;
      let page_text := process_text page_text in
      text_loop num_pages (S page_num) rest' (all_text ++ [page_text])%list
  end.

Definition extract_text_from_pdf_body (file_path : string) : Py string :=
  (* Validate the file first *)
  validate_pdf_file file_path;;
  (* Open and read the PDF *)
  logger INFO ("Opening PDF file: " +:+ file_path);;
  reader ← open_reader file_path;
  (* Check if PDF is encrypted *)
  encrypted ← reader_is_encrypted reader;
  if encrypted : bool then
    logger WARNING ("PDF is encrypted: " +:+ file_path);;
    raise encrypted_error
  else
  (* Extract text from all pages *)
  ps ← reader_pages reader;
  let num_pages := length ps in
  logger INFO ("PDF has " +:+ PyStr.of_nat num_pages +:+ " pages");;
  ps ← reader_pages reader;
  all_text ← text_loop num_pages 1 ps [];
  (* Join all pages with line break or space *)
  let combined_text := PyStr.join separator all_text in
  logger INFO ("Successfully extracted " +:+ PyStr.of_nat (PyStr.len combined_text)
               +:+ " characters from " +:+ PyStr.of_nat num_pages +:+ " pages");;
  mret combined_text.

Definition extract_text_from_pdf (file_path : string) : Py string :=
  try_except (extract_text_from_pdf_body file_path)
    [ ([FileNotFoundError], fun e =>
         logger ERROR ("File not found: " +:+ exc_str e);; raise e);
      ([ValueError], fun e =>
         logger ERROR ("Validation error: " +:+ exc_str e);; raise e);
      ([Exception], fun e =>
         logger ERROR ("Error extracting text from PDF: " +:+ exc_str e);;
         raise (mkExc Exception ("Failed to extract text: " +:+ exc_str e))) ].

(** The loop of [extract_text_by_pages] *)
Fixpoint pages_loop (num_pages page_num : nat) (rest : list PdfPage)
    (pages_data : list PageData) : Py (list PageData) :=
  match rest with
  | [] => mret pages_data
  | page :: rest' =>
      logger DEBUG ("Processing page " +:+ PyStr.of_nat page_num
                    +:+ "/" +:+ PyStr.of_nat num_pages);;
      (* Extract text from current page *)
      page_text ← page_extract_text page_num page;
      (* Apply text processing *)
      let page_text := process_text page_text in
      (* Create page data dictionary *)
      let page_data := {| page_number := page_num;
                          text := page_text;
                          char_count := PyStr.len page_text |} in
      pages_loop num_pages (S page_num) rest' (pages_data ++ [page_data])%list
  end.

Definition extract_text_by_pages_body (file_path : string) : Py (list PageData) :=
  validate_pdf_file file_path;;
  logger INFO ("Opening PDF file for page-by-page extraction: " +:+ file_path);;
  reader ← open_reader file_path;
  encrypted ← reader_is_encrypted reader;
  if encrypted : bool then
    logger WARNING ("PDF is encrypted: " +:+ file_path);;
    raise encrypted_error
  else
  ps ← reader_pages reader;
  let num_pages := length ps in
  ps ← reader_pages reader;
  pages_data ← pages_loop num_pages 1 ps [];
  logger INFO ("Successfully extracted text from " +:+ PyStr.of_nat num_pages
               +:+ " pages");;
  mret pages_data.

Definition extract_text_by_pages (file_path : string) : Py (list PageData) :=
  try_except (extract_text_by_pages_body file_path)
    [ ([FileNotFoundError; ValueError], fun e =>
         logger ERROR ("Error: " +:+ exc_str e);; raise e);
      ([Exception], fun e =>
         logger ERROR ("Error extracting text by pages: " +:+ exc_str e);;
         raise (mkExc Exception ("Failed to extract text by pages: " +:+ exc_str e))) ].

(** [f'/{field.title().replace("_", "")}'] *)
Definition field_key (field : string) : string :=
  "/" +:+ PyStr.replace "_" "" (PyStr.title field).

(** One turn of [for field in METADATA_FIELDS] *)
Definition set_field (pdf_metadata : gmap string string)
    (metadata : gmap string PyValue) (field : string) : gmap string PyValue :=
  match pdf_metadata !! field_key field with
  | Some v => <[field := VStr v]> metadata
  | None => <[field := VNone]> metadata
  end.

(** [if pdf_metadata:] is false for [None] and for an empty dictionary. *)
Definition truthy (pdf_metadata : option (gmap string string)) : bool :=
  match pdf_metadata with
  | None => false
  | Some info => negb (bool_decide (info = ∅))
  end.

(** [metadata[key]] *)
Definition subscript (metadata : gmap string PyValue) (key : string) : Py PyValue :=
  match metadata !! key with
  | Some v => mret v
  | None => raise (mkExc KeyError ("'" +:+ key +:+ "'"))
  end.

Definition get_pdf_metadata_body (file_path : string) : Py (gmap string PyValue) :=
  validate_pdf_file file_path;;
  logger INFO ("Extracting metadata from: " +:+ file_path);;
  reader ← open_reader file_path;
  (* Get basic file information *)
  size ← os_path_getsize file_path;
  ps ← reader_pages reader;
  encrypted ← reader_is_encrypted reader;
  let metadata : gmap string PyValue :=
    <["is_encrypted" := VBool encrypted]>
    (<["page_count" := VInt (Z.of_nat (length ps))]>
    (<["file_size_mb" := VFloat (PyNum.round2 (megabytes size))]>
    (<["file_path" := VStr (abspath w file_path)]>
    (<["file_name" := VStr (OsPath.basename file_path)]> ∅)))) in
  (* Extract PDF metadata if available *)
  pdf_metadata ← reader_metadata reader;
  let metadata :=
    if truthy pdf_metadata
    then foldl (set_field (default ∅ pdf_metadata)) metadata (METADATA_FIELDS cfg)
    else metadata in
  page_count ← subscript metadata "page_count";
  logger INFO ("Successfully extracted metadata: " +:+ str_value page_count
               +:+ " pages");;
  mret metadata.

Definition get_pdf_metadata (file_path : string) : Py (gmap string PyValue) :=
  try_except (get_pdf_metadata_body file_path)
    [ ([FileNotFoundError; ValueError], fun e =>
         logger ERROR ("Error: " +:+ exc_str e);; raise e);
      ([Exception], fun e =>
         logger ERROR ("Error extracting metadata: " +:+ exc_str e);;
         raise (mkExc Exception ("Failed to extract metadata: " +:+ exc_str e))) ].

End pdf_extractor.

(** ** The vocabulary of the specification *)

Module Spec.

(** Follows the specification's words (4.2): runs of whitespace are
    collapsed to single spaces, then leading and trailing whitespace is
    trimmed. [in_run] tells that the character before was whitespace. *)
Fixpoint collapse_runs (in_run : bool) (s : string) : string :=
  match s with
  | EmptyString => EmptyString
  | String c s' =>
      if PyStr.isspace c then
        if in_run then collapse_runs true s'
        else String " " (collapse_runs true s')
      else String c (collapse_runs false s')
  end.

Fixpoint trim_leading (s : string) : string :=
  match s with
  | EmptyString => EmptyString
  | String c s' => if PyStr.isspace c then trim_leading s' else s
  end.

Fixpoint trim_trailing (s : string) : string :=
  match s with
  | EmptyString => EmptyString
  | String c s' =>
      match trim_trailing s' with
      | EmptyString => if PyStr.isspace c then EmptyString else String c EmptyString
      | t => String c t
      end
  end.

Definition normalize_whitespace (s : string) : string :=
  trim_trailing (trim_leading (collapse_runs false s)).

(** The extension of a path is supported when it equals a configured one
    up to the case of letters. *)
Definition supported_extension (cfg : Config) (ext : string) : Prop :=
  ∃ e, e ∈ SUPPORTED_EXTENSIONS cfg ∧ PyStr.lower e = PyStr.lower ext.

(** The configured extensions are written in lower case, as in
    [src/config.py]. *)
Definition lowercase_extensions (cfg : Config) : Prop :=
  ∀ e, e ∈ SUPPORTED_EXTENSIONS cfg → PyStr.lower e = e.

(** The size of a file is within the configured maximum. *)
Definition size_allowed (cfg : Config) (size : N) : Prop :=
  (megabytes size <= inject_Z (MAX_FILE_SIZE_MB cfg))%Q.

(** The kinds of failure of section 7 *)
Definition NotFound (e : PyExc) : Prop := exc_class e = FileNotFoundError.
Definition InvalidInput (e : PyExc) : Prop := exc_class e = ValueError.
Definition EncryptedDocument (e : PyExc) : Prop := e = encrypted_error.
Definition ExtractionFailed (e : PyExc) : Prop := exc_class e = Exception.

End Spec.

(** ** Files the operations accept *)

(** The validator's three checks hold of [file_path], of size [size]. *)
Definition passes_validation (cfg : Config) (w : World) (file_path : string)
    (size : N) : Prop :=
  stat w file_path = Some size
  ∧ PyStr.lower (OsPath.splitext file_path).2 ∈ SUPPORTED_EXTENSIONS cfg
  ∧ Spec.size_allowed cfg size.

(** Every page of [ps] gives its text: [raw] lists the texts. *)
Definition page_texts (ps : list PdfPage) (raw : list string) : Prop :=
  extract_text <$> ps = Return <$> raw.

(** A valid PDF that is not encrypted: the file passes validation and the
    reader opens it, says it is not encrypted, and gives its pages and
    their texts [raw]. *)
Definition valid_plain_pdf (cfg : Config) (w : World) (file_path : string)
    (raw : list string) : Prop :=
  ∃ size reader ps,
    passes_validation cfg w file_path size
    ∧ PdfReader w file_path = Return reader
    ∧ is_encrypted reader = false
    ∧ pages reader = Return ps
    ∧ page_texts ps raw.

(** The reader gives the document-info dictionary [info] of the file (or
    [None] when the document has none). *)
Definition has_info (w : World) (file_path : string)
    (info : option (gmap string string)) : Prop :=
  ∃ reader, PdfReader w file_path = Return reader ∧ metadata reader = Return info.

(** The reader calls among the actions of a run *)
Definition reader_calls (actions : list Action) : list ReaderOp :=
  omap (fun a => match a with ReaderCall op => Some op | _ => None end) actions.

(** The number of [logger.error] calls among the actions of a run *)
Definition is_error_log (a : Action) : bool :=
  match a with LoggerCall ERROR _ => true | _ => false end.

Definition error_logs (actions : list Action) : nat :=
  length (List.filter is_error_log actions).

(** The action of a validation that passed *)
Definition validation_passed (file_path : string) : Action :=
  LoggerCall INFO ("File validation passed: " +:+ file_path).

(** The records [extract_text_by_pages] builds from the raw texts [raw] of
    the pages numbered from [page_num] on. *)
Fixpoint records_from (cfg : Config) (page_num : nat) (raw : list string)
    : list PageData :=
  match raw with
  | [] => []
  | t :: raw' =>
      {| page_number := page_num;
         text := process_text cfg t;
         char_count := PyStr.len (process_text cfg t) |}
      :: records_from cfg (S page_num) raw'
  end.

(** ** Effects of a run

    [emits P m]: whatever the actions [s] performed before, the run of [m]
    ends the same way and leaves [s] followed by the same new actions,
    which satisfy [P]. *)
Definition emits (P : list Action → Prop) {A} (m : Py A) : Prop :=
  P (m []).2 ∧ ∀ s, m s = ((m []).1, (s ++ (m []).2)%list).

(** No [logger.error] call *)
Definition calm (t : list Action) : Prop := error_logs t = 0%nat.

Definition any_actions (t : list Action) : Prop := True.

(** ** The metadata record

    The five entries [get_pdf_metadata] always sets, and the record after
    the loop over the configured fields. *)
Definition file_information (w : World) (file_path : string) (size : N)
    (page_count : nat) (encrypted : bool) : gmap string PyValue :=
  <["is_encrypted" := VBool encrypted]>
  (<["page_count" := VInt (Z.of_nat page_count)]>
  (<["file_size_mb" := VFloat (PyNum.round2 (megabytes size))]>
  (<["file_path" := VStr (abspath w file_path)]>
  (<["file_name" := VStr (OsPath.basename file_path)]> ∅)))).

Definition with_document_information (cfg : Config)
    (pdf_metadata : option (gmap string string))
    (metadata : gmap string PyValue) : gmap string PyValue :=
  if truthy pdf_metadata
  then foldl (set_field (default ∅ pdf_metadata)) metadata (METADATA_FIELDS cfg)
  else metadata.

(** What a configured field holds after its turn of the loop: the value of
    the document, or the marker [None]. *)
Definition field_value (info : gmap string string) (field : string) : PyValue :=
  match info !! field_key field with
  | Some v => VStr v
  | None => VNone
  end.

(** The keys of the five entries set from the file and the reader *)
Definition basic_keys : list string :=
  ["file_name"; "file_path"; "file_size_mb"; "page_count"; "is_encrypted"].

(** A valid PDF as [get_pdf_metadata] needs it: the file passes validation
    and the reader opens it and gives its pages, whether it is encrypted and
    its document information. *)
Definition valid_pdf_info (cfg : Config) (w : World) (file_path : string)
    (size : N) (page_count : nat) (encrypted : bool)
    (info : option (gmap string string)) : Prop :=
  ∃ reader ps,
    passes_validation cfg w file_path size
    ∧ PdfReader w file_path = Return reader
    ∧ pages reader = Return ps
    ∧ length ps = page_count
    ∧ is_encrypted reader = encrypted
    ∧ metadata reader = Return info.

(** ** Failures of the reader

    The reader raises [e] while text is extracted: when the file is
    opened, when the pages of a document that is not encrypted are read, or
    when the text of one page is extracted after the pages [before] it gave
    theirs. *)
Inductive text_reader_failure (w : World) (file_path : string) (e : PyExc) : Prop :=
  | open_fails :
      PdfReader w file_path = Raise e →
      text_reader_failure w file_path e
  | pages_fail reader :
      PdfReader w file_path = Return reader →
      is_encrypted reader = false →
      pages reader = Raise e →
      text_reader_failure w file_path e
  | page_fails reader before page after raw :
      PdfReader w file_path = Return reader →
      is_encrypted reader = false →
      pages reader = Return (before ++ page :: after)%list →
      page_texts before raw →
      extract_text page = Raise e →
      text_reader_failure w file_path e.

(** The reader raises [e] while metadata is extracted: when the file is
    opened, when the pages are read, or when the document information is
    read. *)
Inductive metadata_reader_failure (w : World) (file_path : string) (e : PyExc) : Prop :=
  | info_open_fails :
      PdfReader w file_path = Raise e →
      metadata_reader_failure w file_path e
  | info_pages_fail reader :
      PdfReader w file_path = Return reader →
      pages reader = Raise e →
      metadata_reader_failure w file_path e
  | info_metadata_fails reader ps :
      PdfReader w file_path = Return reader →
      pages reader = Return ps →
      metadata reader = Raise e →
      metadata_reader_failure w file_path e.

(** The failures the last [except Exception] clause receives: instances of
    [Exception] that the clauses before it do not take. *)
Definition reaches_generic_clause (e : PyExc) : Prop :=
  isinstance e Exception = true
  ∧ isinstance e FileNotFoundError = false
  ∧ isinstance e ValueError = false.

(** The error each operation raises from the generic clause *)
Definition failed (context : string) (e : PyExc) : PyExc :=
  mkExc Exception (context +:+ exc_str e).

Definition double_newline : string := String "010" (String "010" "").

(** The page objects of a document whose pages give the texts [raw] *)
Definition pages_of (raw : list string) : list PdfPage :=
  (fun t => {| extract_text := Return t |}) <$> raw.

(** ** Sample files

    A working directory with three files; the reader answers [opened] for
    each path. *)
Module Sample.

Definition files (p : string) : option N :=
  if String.eqb p "docs/report.PDF" then Some 131072%N
  else if String.eqb p "notes.txt" then Some 5%N
  else if String.eqb p "huge.pdf" then Some 52428801%N
  else None.

Definition world (opened : Outcome PdfReaderObj) : World := {|
  stat := files;
  abspath := fun p => "/home/user/" +:+ p;
  PdfReader := fun _ => opened
|}.

Definition raw_texts : list string :=
  ["  Annual   report "; String "009" "Chapter 1" +:+ String "010" "Overview"].

Definition document_info : gmap string string :=
  <["/Title" := "Annual report"]> (<["/CreationDate" := "D:20240101"]> ∅).

Definition plain (info : option (gmap string string)) : PdfReaderObj := {|
  is_encrypted := false;
  pages := Return (pages_of raw_texts);
  metadata := Return info
|}.

Definition not_decrypted : PyExc := mkExc PdfReadError "File has not been decrypted".

Definition encrypted : PdfReaderObj := {|
  is_encrypted := true;
  pages := Return [ {| extract_text := Raise not_decrypted |};
                    {| extract_text := Raise not_decrypted |} ];
  metadata := Return (Some document_info)
|}.

Definition report : string := "docs/report.PDF".

(** The configuration of [config.py] with the extension in upper case *)
Definition upper_config : Config := {|
  SUPPORTED_EXTENSIONS := [".PDF"];
  MAX_FILE_SIZE_MB := MAX_FILE_SIZE_MB config;
  TEXT_ENCODING := TEXT_ENCODING config;
  ERROR_HANDLING := ERROR_HANDLING config;
  PRESERVE_LINE_BREAKS := PRESERVE_LINE_BREAKS config;
  REMOVE_EXTRA_WHITESPACE := REMOVE_EXTRA_WHITESPACE config;
  LOG_LEVEL := LOG_LEVEL config;
  LOG_FORMAT := LOG_FORMAT config;
  METADATA_FIELDS := METADATA_FIELDS config
|}.

Definition bad_xref : PyExc := mkExc ValueError "invalid literal for int() with base 10: b'xref'".

Definition eof_marker : PyExc := mkExc PdfReadError "EOF marker not found".

End Sample.

(** ** Vocabulary for the properties of the text processing *)

Module Text.

(** Every character of [s] satisfies [p]. *)
Fixpoint all_chars (p : ascii → bool) (s : string) : bool :=
  match s with
  | EmptyString => true
  | String c s' => p c && all_chars p s'
  end.

(** A word: not empty, and without whitespace. *)
Definition no_space (s : string) : Prop :=
  all_chars (fun c => negb (PyStr.isspace c)) s = true.

Definition word (s : string) : Prop := s ≠ "" ∧ no_space s.

(** The characters of [s] that are not whitespace, in order. *)
Fixpoint visible (s : string) : string :=
  match s with
  | EmptyString => EmptyString
  | String c s' => if PyStr.isspace c then visible s' else String c (visible s')
  end.

(** A word of lower-case letters with its first letter in upper case. *)
Definition capitalized (s : string) : string :=
  match s with
  | EmptyString => EmptyString
  | String c s' => String (PyStr.upper_char c) s'
  end.

Definition lower_letters (s : string) : Prop := all_chars PyStr.islower s = true.

End Text.

(** No call to [page.extract_text()] among the actions *)
Definition no_text_call (t : list Action) : Prop :=
  ∀ page_num, ReaderCall (ExtractText page_num) ∉ t.


(** The number of [logger.error] calls an outcome goes with: one for an
    exception that is an instance of [Exception], none otherwise. *)
Definition expected_error_logs {A} (o : Outcome A) : nat :=
  match o with
  | Return _ => 0
  | Raise e => if isinstance e Exception then 1 else 0
  end.

(** A document whose second page cannot be read *)
Module Damaged.

Definition unreadable : PyExc := mkExc KeyError "'/Contents'".

Definition reader : PdfReaderObj := {|
  is_encrypted := false;
  pages := Return [ {| extract_text := Return "Cover " |};
                    {| extract_text := Raise unreadable |};
                    {| extract_text := Return "Appendix" |} ];
  metadata := Return None
|}.

Definition world : World := Sample.world (Return reader).

End Damaged.


(** The character [c] does not occur in [s]. *)
Definition lacks (c : ascii) (s : string) : Prop :=
  Text.all_chars (fun d => negb (Ascii.eqb d c)) s = true.


(** ** The callers: [tests/test_extraction.py] and [examples/basic_usage.py]

    A script also prints: its process has the lines given to [print] beside
    the actions of the module. *)

Module Script.

Record Process := { stdout : list string; actions : list Action }.

Definition Script (A : Type) : Type := Process → Outcome A * Process.

#[global] Instance Script_ret : MRet Script := fun A a p => (Return a, p).

#[global] Instance Script_bind : MBind Script := fun A B k m p =>
  match m p with
  | (Return a, p') => k a p'
  | (Raise e, p') => (Raise e, p')
  end.

(** [print(line)] *)
Definition print (line : string) : Script unit :=
  fun p => (Return tt, {| stdout := (stdout p ++ [line])%list; actions := actions p |}).

(** A call into the module *)
Definition call {A} (m : Py A) : Script A :=
  fun p => ((m (actions p)).1, {| stdout := stdout p; actions := (m (actions p)).2 |}).

Definition ExceptClause (A : Type) : Type := list PyExcClass * (PyExc → Script A).

Definition try_except {A} (body : Script A) (clauses : list (ExceptClause A)) : Script A :=
  fun p =>
    match body p with
    | (Return a, p') => (Return a, p')
    | (Raise e, p') =>
        match List.find (fun cl : ExceptClause A => existsb (isinstance e) cl.1) clauses with
        | Some cl => cl.2 e p'
        | None => (Raise e, p')
        end
    end.

(** [s * n] *)
Fixpoint times (s : string) (n : nat) : string :=
  match n with
  | O => EmptyString
  | S n' => s +:+ times s n'
  end.

Definition newline : string := String "010" "".

End Script.

Section callers.

Context (cfg : Config) (w : World).

(** [tests/test_extraction.py] *)
Definition print_header (title : string) : Script.Script unit :=
  Script.print (Script.newline +:+ Script.times "=" 70);;
  Script.print ("  " +:+ title);;
  Script.print (Script.times "=" 70).

Definition test_error_handling : Script.Script bool :=
  print_header "TEST 4: Error Handling";;
  Script.print (Script.newline +:+ "🧪 Testing error handling with invalid file...");;
  Script.try_except
    ((* Test with non-existent file *)
     Script.call (extract_text_from_pdf cfg w "nonexistent.pdf");;
     Script.print "❌ Should have raised FileNotFoundError";;
     mret false)
    [ ([FileNotFoundError], fun _ =>
         Script.print "✅ Correctly raised FileNotFoundError for missing file";;
         mret true);
      ([Exception], fun e =>
         Script.print ("❌ Unexpected error: " +:+ exc_str e);;
         mret false) ].

(** [examples/basic_usage.py] *)
Fixpoint print_pages (pages : list PageData) : Script.Script unit :=
  match pages with
  | [] => mret tt
  | page :: rest =>
      Script.print ("Page " +:+ PyStr.of_nat (page_number page) +:+ ": "
                    +:+ PyStr.of_nat (char_count page) +:+ " characters");;
      print_pages rest
  end.

Definition main : Script.Script unit :=
  (* Example PDF file *)
  let pdf_file := "data/sample_pdfs/sample1.pdf" in
  Script.print (Script.times "=" 70);;
  Script.print "PDF EXTRACTION MODULE - EXAMPLES";;
  Script.print (Script.times "=" 70);;
  (* Example 1: Get metadata *)
  Script.print (Script.newline +:+ "📊 EXAMPLE 1: Get PDF Metadata");;
  Script.print (Script.times "-" 70);;
  metadata ← Script.call (get_pdf_metadata cfg w pdf_file);
  file_name ← Script.call (subscript metadata "file_name");
  Script.print ("File: " +:+ str_value file_name);;
  page_count ← Script.call (subscript metadata "page_count");
  Script.print ("Pages: " +:+ str_value page_count);;
  file_size_mb ← Script.call (subscript metadata "file_size_mb");
  Script.print ("Size: " +:+ str_value file_size_mb +:+ " MB");;
  (* Example 2: Extract all text *)
  Script.print (Script.newline +:+ "📄 EXAMPLE 2: Extract All Text");;
  Script.print (Script.times "-" 70);;
  full_text ← Script.call (extract_text_from_pdf cfg w pdf_file);
  Script.print ("Total characters: " +:+ PyStr.of_nat (PyStr.len full_text));;
  Script.print ("Total words: " +:+ PyStr.of_nat (length (PyStr.split full_text)));;
  Script.print (Script.newline +:+ "First 300 characters:" +:+ Script.newline
                +:+ PyStr.upto 300 full_text +:+ "...");;
  (* Example 3: Extract by pages *)
  Script.print (Script.newline +:+ "📚 EXAMPLE 3: Extract Text by Pages");;
  Script.print (Script.times "-" 70);;
  pages ← Script.call (extract_text_by_pages cfg w pdf_file);
  print_pages pages;;
  Script.print (Script.newline +:+ Script.times "=" 70);;
  Script.print "✅ All examples completed successfully!";;
  Script.print (Script.times "=" 70).

End callers.

(** The reader was asked [n] times to open a file. *)
Definition opens (t : list Action) : nat :=
  length (List.filter (fun op => match op with Open _ => true | _ => false end)
            (reader_calls t)).


(** An encrypted document whose pages the reader refuses to give *)
Module Locked.

Definition reader : PdfReaderObj := {|
  is_encrypted := true;
  pages := Raise Sample.not_decrypted;
  metadata := Return (Some Sample.document_info)
|}.

Definition world : World := Sample.world (Return reader).

End Locked.

(** The three calls of [main], each from the actions the one before left *)
Definition main_metadata (cfg : Config) (w : World) (p : Script.Process)
    : Outcome (gmap string PyValue) * list Action :=
  get_pdf_metadata cfg w "data/sample_pdfs/sample1.pdf" (Script.actions p).

Definition main_full_text (cfg : Config) (w : World) (p : Script.Process)
    : Outcome string * list Action :=
  extract_text_from_pdf cfg w "data/sample_pdfs/sample1.pdf" (main_metadata cfg w p).2.

Definition main_pages (cfg : Config) (w : World) (p : Script.Process)
    : Outcome (list PageData) * list Action :=
  extract_text_by_pages cfg w "data/sample_pdfs/sample1.pdf" (main_full_text cfg w p).2.


(** * Proofs *)

(** ** The library functions on examples *)

Example split_ex :
  PyStr.split ("  Hello,   world" +:+ String "010" (String "009" "again "))
  = ["Hello,"; "world"; "again"].
Proof. reflexivity. Qed.

Example normalize_ex :
  Spec.normalize_whitespace ("  Hello,   world" +:+ String "010" (String "009" "again "))
  = "Hello, world again"
  ∧ Spec.normalize_whitespace (String "010" " ") = "".
Proof. split; reflexivity. Qed.

Example title_ex : PyStr.title "creation_date" = "Creation_Date".
Proof. reflexivity. Qed.

Example field_key_ex :
  field_key "title" = "/Title"
  ∧ field_key "creation_date" = "/CreationDate"
  ∧ field_key "modification_date" = "/ModificationDate".
Proof. repeat split; reflexivity. Qed.

Example splitext_ex :
  OsPath.splitext "data/v1.2/Report.PDF" = ("data/v1.2/Report", ".PDF")
  ∧ OsPath.splitext "dir.d/.hidden" = ("dir.d/.hidden", "")
  ∧ OsPath.splitext "archive.tar.gz" = ("archive.tar", ".gz")
  ∧ OsPath.splitext "..pdf" = ("..pdf", "").
Proof. repeat split; reflexivity. Qed.

Example basename_ex :
  OsPath.basename "data/sample_pdfs/sample1.pdf" = "sample1.pdf".
Proof. reflexivity. Qed.

Example format_2f_ex :
  PyNum.format_2f (megabytes 52428801) = "50.00"
  ∧ PyNum.format_2f (megabytes 131072) = "0.12"
  ∧ PyNum.format_2f (megabytes 66060288) = "63.00"
  ∧ PyNum.str_round2 (megabytes 1572864) = "1.5".
Proof. repeat split; reflexivity. Qed.

Example isinstance_ex :
  isinstance (mkExc UnicodeDecodeError "") ValueError = true
  ∧ isinstance (mkExc FileNotFoundError "") Exception = true
  ∧ isinstance (mkExc PdfReadError "") ValueError = false
  ∧ isinstance (mkExc KeyboardInterrupt "") Exception = false.
Proof. repeat split; reflexivity. Qed.

(** ** Strings *)

Lemma lower_char_idem c : PyStr.lower_char (PyStr.lower_char c) = PyStr.lower_char c.
Proof. destruct c as [[] [] [] [] [] [] [] []]; reflexivity. Qed.

Lemma lower_idem s : PyStr.lower (PyStr.lower s) = PyStr.lower s.
Proof.
  induction s as [|c s IH]; simpl; [reflexivity|].
  by rewrite lower_char_idem, IH.
Qed.

(** With the configured extensions in lower case, the membership test of the
    validator is the comparison up to case. *)
Lemma supported_extension_test cfg ext :
  Spec.lowercase_extensions cfg →
  PyStr.lower ext ∈ SUPPORTED_EXTENSIONS cfg ↔ Spec.supported_extension cfg ext.
Proof.
  intros Hlow. split.
  - intros Hin. exists (PyStr.lower ext). split; [done | apply lower_idem].
  - intros (e & Hin & Heq). rewrite <- Heq, (Hlow e Hin). done.
Qed.

(** ** Running the validator *)

Section validator.

Context (cfg : Config) (w : World).

Lemma validate_pdf_file_missing file_path s :
  stat w file_path = None →
  validate_pdf_file cfg w file_path s =
    (Raise (mkExc FileNotFoundError ("File not found: " +:+ file_path)), s).
Proof.
  intros Hstat. unfold validate_pdf_file, os_path_exists.
  rewrite Hstat. rewrite bool_decide_eq_false_2; [reflexivity|].
  intros [? ?]; discriminate.
Qed.

Lemma validate_pdf_file_extension file_path size s :
  stat w file_path = Some size →
  PyStr.lower (OsPath.splitext file_path).2 ∉ SUPPORTED_EXTENSIONS cfg →
  validate_pdf_file cfg w file_path s =
    (Raise (mkExc ValueError
              ("Unsupported file type: " +:+ PyStr.lower (OsPath.splitext file_path).2
               +:+ ". Expected PDF file.")), s).
Proof.
  intros Hstat Hext. unfold validate_pdf_file, os_path_exists.
  rewrite Hstat. rewrite bool_decide_eq_true_2 by eauto. simpl.
  rewrite bool_decide_eq_false_2 by done. reflexivity.
Qed.

Lemma validate_pdf_file_size file_path size s :
  stat w file_path = Some size →
  PyStr.lower (OsPath.splitext file_path).2 ∈ SUPPORTED_EXTENSIONS cfg →
  ¬ Spec.size_allowed cfg size →
  validate_pdf_file cfg w file_path s =
    (Raise (mkExc ValueError
              ("File size (" +:+ PyNum.format_2f (megabytes size)
               +:+ "MB) exceeds maximum allowed size ("
               +:+ PyStr.of_Z (MAX_FILE_SIZE_MB cfg) +:+ "MB)")), s).
Proof.
  intros Hstat Hext Hsize. unfold validate_pdf_file, os_path_exists, os_path_getsize.
  rewrite Hstat. rewrite bool_decide_eq_true_2 by eauto. simpl.
  rewrite bool_decide_eq_true_2 by done. simpl.
  unfold mbind, Py_bind, mret, Py_ret.
  destruct (Qle_bool _ _) eqn:Hle; [|reflexivity].
  exfalso. apply Hsize. by apply Qle_bool_iff.
Qed.

Lemma validate_pdf_file_passes file_path size s :
  passes_validation cfg w file_path size →
  validate_pdf_file cfg w file_path s =
    (Return true, (s ++ [validation_passed file_path])%list).
Proof.
  intros (Hstat & Hext & Hsize).
  unfold validate_pdf_file, os_path_exists, os_path_getsize.
  rewrite Hstat. rewrite bool_decide_eq_true_2 by eauto. simpl.
  rewrite bool_decide_eq_true_2 by done. simpl.
  unfold mbind, Py_bind, mret, Py_ret.
  destruct (Qle_bool _ _) eqn:Hle; [reflexivity|].
  exfalso. apply Qle_bool_iff in Hsize. unfold Spec.size_allowed in *. congruence.
Qed.

(** The validator returns only where all three checks hold. *)
Lemma validate_pdf_file_returns file_path s b s' :
  validate_pdf_file cfg w file_path s = (Return b, s') →
  ∃ size, passes_validation cfg w file_path size.
Proof.
  intros Hrun.
  destruct (stat w file_path) as [size|] eqn:Hstat.
  2: { rewrite validate_pdf_file_missing in Hrun by done. discriminate. }
  destruct (decide (PyStr.lower (OsPath.splitext file_path).2 ∈ SUPPORTED_EXTENSIONS cfg))
    as [Hext|Hext].
  2: { rewrite (validate_pdf_file_extension _ size) in Hrun by done. discriminate. }
  destruct (Qle_bool (megabytes size) (inject_Z (MAX_FILE_SIZE_MB cfg))) eqn:Hle.
  - exists size. repeat split; try done. by apply Qle_bool_iff.
  - rewrite (validate_pdf_file_size _ size) in Hrun; [discriminate|done..|].
    intros Hok. apply Qle_bool_iff in Hok. congruence.
Qed.

End validator.

(** ** Runs only append to the actions of the process *)

Lemma bind_run {A B} (m : Py A) (k : A → Py B) s :
  (m ≫= k) s =
    match m s with
    | (Return a, s') => k a s'
    | (Raise e, s') => (Raise e, s')
    end.
Proof. reflexivity. Qed.

Section effects.

Context (P : list Action → Prop).
Hypothesis P_nil : P [].
Hypothesis P_app : ∀ t1 t2, P t1 → P t2 → P (t1 ++ t2)%list.

Lemma emits_ret {A} (a : A) : emits P (mret a).
Proof. split; [exact P_nil|]. intros s. cbn. by rewrite app_nil_r. Qed.

Lemma emits_raise {A} e : emits P (@raise A e).
Proof. split; [exact P_nil|]. intros s. cbn. by rewrite app_nil_r. Qed.

Lemma emits_lift {A} (o : Outcome A) : emits P (lift o).
Proof. split; [exact P_nil|]. intros s. cbn. by rewrite app_nil_r. Qed.

Lemma emits_perform a : P [a] → emits P (perform a).
Proof. intros Ha. split; [exact Ha|]. intros s. reflexivity. Qed.

Lemma emits_bind {A B} (m : Py A) (k : A → Py B) :
  emits P m → (∀ a, emits P (k a)) → emits P (m ≫= k).
Proof.
  intros [Pm Hm] Hk. unfold emits.
  assert (Hnil : (m ≫= k) [] =
                 match (m []).1 with
                 | Return a => ((k a []).1, ((m []).2 ++ (k a []).2)%list)
                 | Raise e => (Raise e, (m []).2)
                 end).
  { rewrite bind_run. destruct (m []) as [[a|e] t]; simpl; [|reflexivity].
    destruct (Hk a) as [_ Hka]. rewrite (Hka t). reflexivity. }
  split.
  - rewrite Hnil. destruct (m []) as [[a|e] t]; simpl in *; [|done].
    apply P_app; [done|]. apply (Hk a).
  - intros s. rewrite Hnil, bind_run, (Hm s).
    destruct (m []) as [[a|e] t]; simpl; [|reflexivity].
    destruct (Hk a) as [_ Hka]. rewrite (Hka (s ++ t)%list).
    by rewrite app_assoc.
Qed.

Lemma emits_try_except {A} (body : Py A) clauses :
  emits P body →
  (∀ cl e, cl ∈ clauses → emits P (cl.2 e)) →
  emits P (try_except body clauses).
Proof.
  intros [Pb Hb] Hcl. unfold emits.
  assert (Hrun : ∀ s, try_except body clauses s =
            match (body []).1 with
            | Return a => (Return a, (s ++ (body []).2)%list)
            | Raise e =>
                match List.find (fun cl : ExceptClause A =>
                                   existsb (isinstance e) cl.1) clauses with
                | Some cl => ((cl.2 e []).1, (s ++ (body []).2 ++ (cl.2 e []).2)%list)
                | None => (Raise e, (s ++ (body []).2)%list)
                end
            end).
  { intros s. unfold try_except. rewrite (Hb s).
    destruct (body []) as [[a|e] t]; simpl; [reflexivity|].
    destruct (List.find _ clauses) as [cl|] eqn:Hfind; [|reflexivity].
    apply find_some in Hfind as [Hin _]. apply list_elem_of_In in Hin.
    destruct (Hcl cl e Hin) as [_ Hh]. rewrite (Hh (s ++ t)%list).
    by rewrite app_assoc. }
  split.
  - rewrite (Hrun []). destruct (body []) as [[a|e] t]; simpl in *; [done|].
    destruct (List.find _ clauses) as [cl|] eqn:Hfind; simpl; [|done].
    apply find_some in Hfind as [Hin _]. apply list_elem_of_In in Hin.
    apply P_app; [done|]. apply (Hcl cl e Hin).
  - intros s. rewrite (Hrun s), (Hrun []).
    destruct (body []) as [[a|e] t]; simpl; [reflexivity|].
    destruct (List.find _ clauses) as [cl|]; reflexivity.
Qed.

End effects.

Lemma emits_weaken (P Q : list Action → Prop) {A} (m : Py A) :
  (∀ t, P t → Q t) → emits P m → emits Q m.
Proof. intros HPQ [HP Hm]. split; [by apply HPQ | exact Hm]. Qed.

Lemma calm_nil : calm [].
Proof. reflexivity. Qed.

Lemma error_logs_app t1 t2 : error_logs (t1 ++ t2) = (error_logs t1 + error_logs t2)%nat.
Proof. unfold error_logs. by rewrite List.filter_app, length_app. Qed.

Lemma calm_app t1 t2 : calm t1 → calm t2 → calm (t1 ++ t2)%list.
Proof. unfold calm. rewrite error_logs_app. lia. Qed.

(** ** The bodies are calm: no [logger.error] before a handler runs *)

Ltac emits_calm :=
  repeat first
    [ apply (emits_ret calm calm_nil)
    | apply (emits_raise calm calm_nil)
    | apply (emits_lift calm calm_nil)
    | apply (emits_perform calm); reflexivity
    | apply (emits_bind calm calm_app); [|intros ?]
    | progress unfold logger, os_path_getsize, open_reader, reader_is_encrypted,
        reader_pages, page_extract_text, reader_metadata, subscript
    | case_match ].

Section calm_bodies.

Context (cfg : Config) (w : World).

Lemma validate_pdf_file_calm file_path : emits calm (validate_pdf_file cfg w file_path).
Proof. unfold validate_pdf_file. emits_calm. Qed.

Lemma text_loop_calm num_pages ps : ∀ page_num all_text,
  emits calm (text_loop cfg num_pages page_num ps all_text).
Proof.
  induction ps as [|page ps IH]; intros page_num all_text; simpl.
  - emits_calm.
  - emits_calm. apply IH.
Qed.

Lemma pages_loop_calm num_pages ps : ∀ page_num pages_data,
  emits calm (pages_loop cfg num_pages page_num ps pages_data).
Proof.
  induction ps as [|page ps IH]; intros page_num pages_data; simpl.
  - emits_calm.
  - emits_calm. apply IH.
Qed.

Lemma extract_text_from_pdf_body_calm file_path :
  emits calm (extract_text_from_pdf_body cfg w file_path).
Proof.
  unfold extract_text_from_pdf_body.
  apply (emits_bind calm calm_app); [apply validate_pdf_file_calm | intros _].
  emits_calm. apply text_loop_calm.
Qed.

Lemma extract_text_by_pages_body_calm file_path :
  emits calm (extract_text_by_pages_body cfg w file_path).
Proof.
  unfold extract_text_by_pages_body.
  apply (emits_bind calm calm_app); [apply validate_pdf_file_calm | intros _].
  emits_calm. apply pages_loop_calm.
Qed.

Lemma get_pdf_metadata_body_calm file_path :
  emits calm (get_pdf_metadata_body cfg w file_path).
Proof.
  unfold get_pdf_metadata_body.
  apply (emits_bind calm calm_app); [apply validate_pdf_file_calm | intros _].
  emits_calm.
Qed.

End calm_bodies.

(** ** The operations only append actions, whatever was done before *)

Ltac emits_any :=
  repeat first
    [ apply (emits_raise any_actions I)
    | apply (emits_perform any_actions); exact I
    | apply (emits_bind any_actions (fun _ _ _ _ => I)); [|intros ?]
    | progress unfold logger ].

Section frames.

Context (cfg : Config) (w : World).

Lemma body_any {A} (m : Py A) : emits calm m → emits any_actions m.
Proof. apply emits_weaken. intros; exact I. Qed.

Lemma extract_text_from_pdf_frames file_path :
  emits any_actions (extract_text_from_pdf cfg w file_path).
Proof.
  apply (emits_try_except any_actions (fun _ _ _ _ => I)).
  - apply body_any, extract_text_from_pdf_body_calm.
  - intros cl e Hcl. repeat (apply elem_of_cons in Hcl as [->|Hcl]); simpl;
      [emits_any.. | by apply elem_of_nil in Hcl].
Qed.

Lemma extract_text_by_pages_frames file_path :
  emits any_actions (extract_text_by_pages cfg w file_path).
Proof.
  apply (emits_try_except any_actions (fun _ _ _ _ => I)).
  - apply body_any, extract_text_by_pages_body_calm.
  - intros cl e Hcl. repeat (apply elem_of_cons in Hcl as [->|Hcl]); simpl;
      [emits_any.. | by apply elem_of_nil in Hcl].
Qed.

Lemma get_pdf_metadata_frames file_path :
  emits any_actions (get_pdf_metadata cfg w file_path).
Proof.
  apply (emits_try_except any_actions (fun _ _ _ _ => I)).
  - apply body_any, get_pdf_metadata_body_calm.
  - intros cl e Hcl. repeat (apply elem_of_cons in Hcl as [->|Hcl]); simpl;
      [emits_any.. | by apply elem_of_nil in Hcl].
Qed.

End frames.

(** ** Runs on a valid PDF *)

Lemma page_texts_cons page ps raw :
  page_texts (page :: ps) raw →
  ∃ t raw', raw = t :: raw' ∧ extract_text page = Return t ∧ page_texts ps raw'.
Proof.
  unfold page_texts. destruct raw as [|t raw']; simpl; intros H; [discriminate|].
  injection H as Ht Hrest. eauto.
Qed.

Lemma page_texts_length ps raw : page_texts ps raw → length raw = length ps.
Proof.
  unfold page_texts. intros H.
  rewrite <- (length_fmap Return raw), <- H. apply length_fmap.
Qed.

Section runs.

Context (cfg : Config) (w : World).

Lemma text_loop_returns num_pages ps : ∀ raw page_num all_text s,
  page_texts ps raw →
  (text_loop cfg num_pages page_num ps all_text s).1 =
    Return (all_text ++ (process_text cfg <$> raw))%list.
Proof.
  induction ps as [|page ps IH]; intros raw page_num all_text s Hraw.
  - destruct raw; [|discriminate]. simpl. by rewrite app_nil_r.
  - apply page_texts_cons in Hraw as (t & raw' & -> & Ht & Hraw').
    simpl. unfold page_extract_text, logger, perform, lift.
    rewrite !bind_run, Ht. simpl.
    rewrite (IH raw') by done. by rewrite <- app_assoc.
Qed.

Lemma pages_loop_returns num_pages ps : ∀ raw page_num pages_data s,
  page_texts ps raw →
  (pages_loop cfg num_pages page_num ps pages_data s).1 =
    Return (pages_data ++ records_from cfg page_num raw)%list.
Proof.
  induction ps as [|page ps IH]; intros raw page_num pages_data s Hraw.
  - destruct raw; [|discriminate]. simpl. by rewrite app_nil_r.
  - apply page_texts_cons in Hraw as (t & raw' & -> & Ht & Hraw').
    simpl. unfold page_extract_text, logger, perform, lift.
    rewrite !bind_run, Ht. simpl.
    rewrite (IH raw') by done. by rewrite <- app_assoc.
Qed.

(** A run whose outcome is known: the actions it leaves do not matter for
    what follows. *)
Lemma run_outcome {A} (m : Py A) s o :
  (m s).1 = o → ∃ s', m s = (o, s').
Proof. intros <-. exists (m s).2. by destruct (m s). Qed.

Lemma extract_text_from_pdf_returns file_path raw s :
  valid_plain_pdf cfg w file_path raw →
  (extract_text_from_pdf cfg w file_path s).1 =
    Return (PyStr.join (separator cfg) (process_text cfg <$> raw)).
Proof.
  intros (size & reader & ps & Hvalid & Hopen & Henc & Hpages & Hraw).
  unfold extract_text_from_pdf, try_except, extract_text_from_pdf_body.
  rewrite bind_run, (validate_pdf_file_passes cfg w _ size) by done.
  unfold open_reader, reader_is_encrypted, reader_pages, logger, perform, lift.
  rewrite !bind_run, Hopen. simpl. rewrite Henc, !bind_run, Hpages. simpl.
  rewrite !bind_run.
  match goal with
  | |- context [text_loop cfg ?n ?k ps ?acc ?st] =>
      destruct (run_outcome (text_loop cfg n k ps acc) st _
                  (text_loop_returns n ps raw k acc st Hraw)) as [s' ->]
  end.
  reflexivity.
Qed.

Lemma extract_text_by_pages_returns file_path raw s :
  valid_plain_pdf cfg w file_path raw →
  (extract_text_by_pages cfg w file_path s).1 = Return (records_from cfg 1 raw).
Proof.
  intros (size & reader & ps & Hvalid & Hopen & Henc & Hpages & Hraw).
  unfold extract_text_by_pages, try_except, extract_text_by_pages_body.
  rewrite bind_run, (validate_pdf_file_passes cfg w _ size) by done.
  unfold open_reader, reader_is_encrypted, reader_pages, logger, perform, lift.
  rewrite !bind_run, Hopen. simpl. rewrite Henc, !bind_run, Hpages. simpl.
  rewrite !bind_run.
  match goal with
  | |- context [pages_loop cfg ?n ?k ps ?acc ?st] =>
      destruct (run_outcome (pages_loop cfg n k ps acc) st _
                  (pages_loop_returns n ps raw k acc st Hraw)) as [s' ->]
  end.
  reflexivity.
Qed.

End runs.

(** ** The metadata record *)

Lemma set_field_lookup info md field k :
  set_field info md field !! k =
    if decide (field = k) then Some (field_value info field) else md !! k.
Proof.
  unfold set_field, field_value.
  destruct (info !! field_key field); rewrite lookup_insert; by case_decide.
Qed.

Lemma foldl_set_field_other info fields : ∀ md k,
  k ∉ fields → foldl (set_field info) md fields !! k = md !! k.
Proof.
  induction fields as [|f fields IH]; intros md k Hk; simpl; [done|].
  apply not_elem_of_cons in Hk as [Hne Hk].
  rewrite IH by done. rewrite set_field_lookup. by case_decide.
Qed.

Lemma foldl_set_field_field info fields : ∀ md k,
  k ∈ fields → foldl (set_field info) md fields !! k = Some (field_value info k).
Proof.
  induction fields as [|f fields IH]; intros md k Hk; simpl.
  - by apply elem_of_nil in Hk.
  - destruct (decide (k ∈ fields)) as [Hin|Hout]; [by apply IH|].
    apply elem_of_cons in Hk as [->|Hk]; [|done].
    rewrite foldl_set_field_other by done.
    rewrite set_field_lookup. by case_decide.
Qed.

Lemma foldl_set_field_is_Some info fields md k :
  is_Some (md !! k) → is_Some (foldl (set_field info) md fields !! k).
Proof.
  intros Hk. destruct (decide (k ∈ fields)).
  - rewrite foldl_set_field_field by done. eauto.
  - by rewrite foldl_set_field_other.
Qed.

Lemma file_information_lookup w file_path size n enc k :
  k ∉ basic_keys → file_information w file_path size n enc !! k = None.
Proof.
  unfold basic_keys, file_information. intros Hk.
  rewrite !not_elem_of_cons in Hk. destruct Hk as (?&?&?&?&?&_).
  by rewrite !lookup_insert_ne.
Qed.

Section metadata_runs.

Context (cfg : Config) (w : World).

Lemma get_pdf_metadata_returns file_path size n enc info s :
  valid_pdf_info cfg w file_path size n enc info →
  (get_pdf_metadata cfg w file_path s).1 =
    Return (with_document_information cfg info
              (file_information w file_path size n enc)).
Proof.
  intros (reader & ps & Hvalid & Hopen & Hpages & Hlen & Henc & Hinfo).
  pose proof Hvalid as (Hstat & _ & _).
  unfold get_pdf_metadata, try_except, get_pdf_metadata_body.
  rewrite bind_run, (validate_pdf_file_passes cfg w _ size) by done.
  unfold open_reader, reader_is_encrypted, reader_pages, reader_metadata,
    os_path_getsize, logger, perform, lift.
  rewrite !bind_run, Hopen. simpl. rewrite Hstat, !bind_run. simpl.
  rewrite Hpages, !bind_run. simpl. rewrite Hinfo, !bind_run, Hlen, Henc.
  fold (file_information w file_path size n enc).
  fold (with_document_information cfg info (file_information w file_path size n enc)).
  unfold subscript.
  assert (Hcount : is_Some (with_document_information cfg info
                              (file_information w file_path size n enc) !! "page_count")).
  { unfold with_document_information. destruct (truthy info).
    - apply foldl_set_field_is_Some. unfold file_information.
      rewrite lookup_insert_ne, lookup_insert_eq by done. eauto.
    - unfold file_information.
      rewrite lookup_insert_ne, lookup_insert_eq by done. eauto. }
  destruct Hcount as [v ->]. reflexivity.
Qed.

End metadata_runs.

(** ** [' '.join(s.split())] collapses and trims *)

Lemma append_cons c s t : String c s +:+ t = String c (s +:+ t).
Proof. reflexivity. Qed.

Lemma append_empty_l s : "" +:+ s = s.
Proof. reflexivity. Qed.

Lemma append_empty_r s : s +:+ "" = s.
Proof. induction s as [|c s IH]; [done|]. by rewrite append_cons, IH. Qed.

Lemma append_assoc' s t u : (s +:+ t) +:+ u = s +:+ (t +:+ u).
Proof. induction s as [|c s IH]; [done|]. by rewrite !append_cons, IH. Qed.

(** The word being read only prefixes the first word of the answer. *)
Lemma split_from_word s : ∀ word,
  PyStr.split_from (Some word) s =
    match PyStr.split_from (Some "") s with
    | first :: rest => (word +:+ first) :: rest
    | [] => [word]
    end.
Proof.
  induction s as [|c s IH]; intros word; simpl.
  - by rewrite append_empty_r.
  - destruct (PyStr.isspace c); simpl.
    + by rewrite append_empty_r.
    + rewrite (IH (word +:+ String c "")), (IH ("" +:+ String c "")).
      destruct (PyStr.split_from (Some "") s); [done|].
      by rewrite append_assoc'.
Qed.

(** A character that is not whitespace starts or extends the first word. *)
Lemma split_from_cons c s word :
  PyStr.isspace c = false →
  PyStr.split_from word (String c s) =
    match PyStr.split_from (Some "") s with
    | first :: rest => (default "" word +:+ String c first) :: rest
    | [] => [default "" word +:+ String c ""]
    end.
Proof.
  intros Hc. simpl. rewrite Hc, split_from_word.
  destruct (PyStr.split_from (Some "") s); [done|].
  by rewrite append_assoc'.
Qed.

Lemma split_from_space c s word :
  PyStr.isspace c = true →
  PyStr.split_from word (String c s) =
    match word with
    | Some w => w :: PyStr.split_from None s
    | None => PyStr.split_from None s
    end.
Proof. intros Hc. simpl. by rewrite Hc. Qed.

(** After the first word, and everywhere when no word has started, the
    words are not empty. *)
Lemma split_words_nonempty s :
  Forall (fun word => word ≠ "") (PyStr.split_from None s)
  ∧ Forall (fun word => word ≠ "") (tail (PyStr.split_from (Some "") s)).
Proof.
  induction s as [|c s [IH1 IH2]].
  - split; constructor.
  - destruct (PyStr.isspace c) eqn:Hc.
    + rewrite !split_from_space by done. by split.
    + rewrite !split_from_cons by done.
      destruct (PyStr.split_from (Some "") s) as [|first rest]; simpl in *.
      * split; repeat constructor; done.
      * split; [constructor|]; done.
Qed.

Lemma join_cons_char sep c first rest :
  PyStr.join sep (String c first :: rest) = String c (PyStr.join sep (first :: rest)).
Proof. unfold PyStr.join. simpl. by destruct rest. Qed.

Lemma join_nonempty sep words :
  Forall (fun word => word ≠ "") words → words ≠ [] → PyStr.join sep words ≠ "".
Proof.
  intros Hwords Hne. destruct words as [|[|c word] rest]; [done| |].
  - by inversion Hwords.
  - by rewrite join_cons_char.
Qed.

Lemma trim_trailing_cons c s :
  PyStr.isspace c = false →
  Spec.trim_trailing (String c s) = String c (Spec.trim_trailing s).
Proof. intros Hc. simpl. rewrite Hc. by destruct (Spec.trim_trailing s). Qed.

(** Collapsing then trimming at the end, against the two states of the
    split: no word started (as after whitespace), and a word started. *)
Lemma trim_collapse_split s :
  Spec.trim_trailing (Spec.collapse_runs true s) = PyStr.join " " (PyStr.split_from None s)
  ∧ Spec.trim_trailing (Spec.collapse_runs false s) =
      PyStr.join " " (PyStr.split_from (Some "") s).
Proof.
  induction s as [|c s [IH1 IH2]]; [done|].
  destruct (PyStr.isspace c) eqn:Hc.
  - rewrite !split_from_space by done. simpl. rewrite Hc. split; [done|].
    simpl. rewrite IH1.
    destruct (PyStr.split_from None s) as [|word rest] eqn:Hs; [done|].
    pose proof (proj1 (split_words_nonempty s)) as Hwords. rewrite Hs in Hwords.
    pose proof (join_nonempty " " (word :: rest) Hwords) as Hne.
    change (PyStr.join " " ("" :: word :: rest))
      with (String " " (PyStr.join " " (word :: rest))).
    destruct (PyStr.join " " (word :: rest)); [by destruct Hne | done].
  - rewrite !split_from_cons by done.
    assert (Hword : Spec.trim_trailing (String c (Spec.collapse_runs false s)) =
                    PyStr.join " "
                      match PyStr.split_from (Some "") s with
                      | [] => [String c ""]
                      | first :: rest => String c first :: rest
                      end).
    { rewrite trim_trailing_cons, IH2 by done.
      destruct (PyStr.split_from (Some "") s) as [|first rest]; [done|].
      by rewrite join_cons_char. }
    simpl Spec.collapse_runs. rewrite Hc. by split.
Qed.

Lemma trim_leading_collapsed s :
  Spec.trim_leading (Spec.collapse_runs true s) = Spec.collapse_runs true s.
Proof.
  induction s as [|c s IH]; [done|]. simpl.
  destruct (PyStr.isspace c) eqn:Hc; [done|]. simpl. by rewrite Hc.
Qed.

Lemma trim_leading_collapse s :
  Spec.trim_leading (Spec.collapse_runs false s) = Spec.collapse_runs true s.
Proof.
  destruct s as [|c s]; [done|]. simpl.
  destruct (PyStr.isspace c) eqn:Hc; simpl.
  - apply trim_leading_collapsed.
  - by rewrite Hc.
Qed.

(** The text processing of the code is the normalization the
    specification describes. *)
Lemma join_split_normalizes s :
  PyStr.join " " (PyStr.split s) = Spec.normalize_whitespace s.
Proof.
  unfold Spec.normalize_whitespace, PyStr.split.
  rewrite trim_leading_collapse. symmetry. apply trim_collapse_split.
Qed.

(** ** Runs in which the reader fails *)

Section failures.

Context (cfg : Config) (w : World).

Lemma text_loop_raises num_pages e page after before : ∀ raw page_num all_text s,
  page_texts before raw →
  extract_text page = Raise e →
  (text_loop cfg num_pages page_num (before ++ page :: after) all_text s).1 = Raise e.
Proof.
  induction before as [|p before IH]; intros raw page_num all_text s Hraw He.
  - simpl. unfold page_extract_text, logger, perform, lift.
    by rewrite !bind_run, He.
  - apply page_texts_cons in Hraw as (t & raw' & -> & Ht & Hraw').
    simpl. unfold page_extract_text, logger, perform, lift.
    rewrite !bind_run, Ht. simpl. by apply (IH raw').
Qed.

Lemma pages_loop_raises num_pages e page after before : ∀ raw page_num pages_data s,
  page_texts before raw →
  extract_text page = Raise e →
  (pages_loop cfg num_pages page_num (before ++ page :: after) pages_data s).1 = Raise e.
Proof.
  induction before as [|p before IH]; intros raw page_num pages_data s Hraw He.
  - simpl. unfold page_extract_text, logger, perform, lift.
    by rewrite !bind_run, He.
  - apply page_texts_cons in Hraw as (t & raw' & -> & Ht & Hraw').
    simpl. unfold page_extract_text, logger, perform, lift.
    rewrite !bind_run, Ht. simpl. by apply (IH raw').
Qed.

Lemma extract_text_from_pdf_body_raises file_path size e s :
  passes_validation cfg w file_path size →
  text_reader_failure w file_path e →
  (extract_text_from_pdf_body cfg w file_path s).1 = Raise e.
Proof.
  intros Hvalid Hfail. unfold extract_text_from_pdf_body.
  rewrite bind_run, (validate_pdf_file_passes cfg w _ size) by done.
  unfold open_reader, reader_is_encrypted, reader_pages, logger, perform, lift.
  destruct Hfail as [Hopen | reader Hopen Henc Hpages
                     | reader before page after raw Hopen Henc Hpages Hraw He].
  - by rewrite !bind_run, Hopen.
  - rewrite !bind_run, Hopen. simpl. by rewrite Henc, !bind_run, Hpages.
  - rewrite !bind_run, Hopen. simpl. rewrite Henc, !bind_run, Hpages. simpl.
    rewrite !bind_run.
    match goal with
    | |- context [text_loop cfg ?n ?k ?ps ?acc ?st] =>
        destruct (run_outcome (text_loop cfg n k ps acc) st _
                    (text_loop_raises n e page after before raw k acc st Hraw He))
          as [s' ->]
    end.
    reflexivity.
Qed.

Lemma extract_text_by_pages_body_raises file_path size e s :
  passes_validation cfg w file_path size →
  text_reader_failure w file_path e →
  (extract_text_by_pages_body cfg w file_path s).1 = Raise e.
Proof.
  intros Hvalid Hfail. unfold extract_text_by_pages_body.
  rewrite bind_run, (validate_pdf_file_passes cfg w _ size) by done.
  unfold open_reader, reader_is_encrypted, reader_pages, logger, perform, lift.
  destruct Hfail as [Hopen | reader Hopen Henc Hpages
                     | reader before page after raw Hopen Henc Hpages Hraw He].
  - by rewrite !bind_run, Hopen.
  - rewrite !bind_run, Hopen. simpl. by rewrite Henc, !bind_run, Hpages.
  - rewrite !bind_run, Hopen. simpl. rewrite Henc, !bind_run, Hpages. simpl.
    rewrite !bind_run.
    match goal with
    | |- context [pages_loop cfg ?n ?k ?ps ?acc ?st] =>
        destruct (run_outcome (pages_loop cfg n k ps acc) st _
                    (pages_loop_raises n e page after before raw k acc st Hraw He))
          as [s' ->]
    end.
    reflexivity.
Qed.

Lemma get_pdf_metadata_body_raises file_path size e s :
  passes_validation cfg w file_path size →
  metadata_reader_failure w file_path e →
  (get_pdf_metadata_body cfg w file_path s).1 = Raise e.
Proof.
  intros Hvalid Hfail. pose proof Hvalid as (Hstat & _ & _).
  unfold get_pdf_metadata_body.
  rewrite bind_run, (validate_pdf_file_passes cfg w _ size) by done.
  unfold open_reader, reader_is_encrypted, reader_pages, reader_metadata,
    os_path_getsize, logger, perform, lift.
  destruct Hfail as [Hopen | reader Hopen Hpages | reader ps Hopen Hpages Hinfo].
  - by rewrite !bind_run, Hopen.
  - rewrite !bind_run, Hopen. simpl. rewrite Hstat, !bind_run. simpl.
    by rewrite Hpages.
  - rewrite !bind_run, Hopen. simpl. rewrite Hstat, !bind_run. simpl.
    rewrite Hpages, !bind_run. simpl. by rewrite Hinfo.
Qed.

(** A body that raises, seen from any state: the actions it adds are calm. *)
Lemma calm_body_raises {A} (body : Py A) e s :
  emits calm body →
  (body s).1 = Raise e →
  ∃ t, body s = (Raise e, (s ++ t)%list) ∧ error_logs t = 0%nat.
Proof.
  intros [Hcalm Hrun] He. exists (body []).2. split; [|exact Hcalm].
  rewrite Hrun in He |- *. simpl in He. by rewrite He.
Qed.

(** What the clauses of each operation do with an exception of the body *)
Lemma extract_text_from_pdf_handles file_path e s s' :
  extract_text_from_pdf_body cfg w file_path s = (Raise e, s') →
  extract_text_from_pdf cfg w file_path s =
    if isinstance e FileNotFoundError
    then (Raise e, s' ++ [LoggerCall ERROR ("File not found: " +:+ exc_str e)])%list
    else if isinstance e ValueError
    then (Raise e, s' ++ [LoggerCall ERROR ("Validation error: " +:+ exc_str e)])%list
    else if isinstance e Exception
    then (Raise (failed "Failed to extract text: " e),
          s' ++ [LoggerCall ERROR ("Error extracting text from PDF: " +:+ exc_str e)])%list
    else (Raise e, s').
Proof.
  intros Hbody. unfold extract_text_from_pdf, try_except. rewrite Hbody. simpl.
  destruct (isinstance e FileNotFoundError); [reflexivity|].
  destruct (isinstance e ValueError); [reflexivity|].
  destruct (isinstance e Exception); reflexivity.
Qed.

Lemma extract_text_by_pages_handles file_path e s s' :
  extract_text_by_pages_body cfg w file_path s = (Raise e, s') →
  extract_text_by_pages cfg w file_path s =
    if isinstance e FileNotFoundError || isinstance e ValueError
    then (Raise e, s' ++ [LoggerCall ERROR ("Error: " +:+ exc_str e)])%list
    else if isinstance e Exception
    then (Raise (failed "Failed to extract text by pages: " e),
          s' ++ [LoggerCall ERROR ("Error extracting text by pages: " +:+ exc_str e)])%list
    else (Raise e, s').
Proof.
  intros Hbody. unfold extract_text_by_pages, try_except. rewrite Hbody. simpl.
  destruct (isinstance e FileNotFoundError); [reflexivity|].
  destruct (isinstance e ValueError); [reflexivity|].
  destruct (isinstance e Exception); reflexivity.
Qed.

Lemma get_pdf_metadata_handles file_path e s s' :
  get_pdf_metadata_body cfg w file_path s = (Raise e, s') →
  get_pdf_metadata cfg w file_path s =
    if isinstance e FileNotFoundError || isinstance e ValueError
    then (Raise e, s' ++ [LoggerCall ERROR ("Error: " +:+ exc_str e)])%list
    else if isinstance e Exception
    then (Raise (failed "Failed to extract metadata: " e),
          s' ++ [LoggerCall ERROR ("Error extracting metadata: " +:+ exc_str e)])%list
    else (Raise e, s').
Proof.
  intros Hbody. unfold get_pdf_metadata, try_except. rewrite Hbody. simpl.
  destruct (isinstance e FileNotFoundError); [reflexivity|].
  destruct (isinstance e ValueError); [reflexivity|].
  destruct (isinstance e Exception); reflexivity.
Qed.

End failures.

(** ** The sample files *)

Lemma config_lowercase_extensions : Spec.lowercase_extensions config.
Proof. intros e He. apply list_elem_of_singleton in He as ->. reflexivity. Qed.

Lemma sample_report_passes opened :
  passes_validation config (Sample.world opened) Sample.report 131072.
Proof.
  repeat split.
  - apply (bool_decide_unpack _). vm_compute. reflexivity.
  - vm_compute. discriminate.
Qed.

Lemma sample_plain_valid info :
  valid_plain_pdf config (Sample.world (Return (Sample.plain info)))
    Sample.report Sample.raw_texts.
Proof.
  exists 131072%N, (Sample.plain info), (pages_of Sample.raw_texts).
  split; [apply sample_report_passes|]. repeat split.
Qed.

(** * The claims *)

(** C1. The validator's contract. With the configured extensions written in
    lower case (as in [config.py]), [validate_pdf_file] returns exactly when
    the path exists, its extension equals a configured one up to case and
    its size in megabytes is at most the configured maximum; it raises
    [FileNotFoundError] when the path does not exist, whatever the
    extension, and [ValueError] when the path exists and the extension is
    not supported or the size exceeds the maximum. *)
Theorem validate_contract cfg w file_path s :
  Spec.lowercase_extensions cfg →
  ((∃ b, (validate_pdf_file cfg w file_path s).1 = Return b) ↔
     ∃ size, stat w file_path = Some size
             ∧ Spec.supported_extension cfg (OsPath.splitext file_path).2
             ∧ Spec.size_allowed cfg size)
  ∧ (stat w file_path = None →
       ∃ e, (validate_pdf_file cfg w file_path s).1 = Raise e ∧ Spec.NotFound e)
  ∧ (∀ size, stat w file_path = Some size →
       ¬ Spec.supported_extension cfg (OsPath.splitext file_path).2
       ∨ ¬ Spec.size_allowed cfg size →
       ∃ e, (validate_pdf_file cfg w file_path s).1 = Raise e ∧ Spec.InvalidInput e).
Proof.
  intros Hlow. split; [split|split].
  - intros [b Hb].
    destruct (validate_pdf_file cfg w file_path s) as [o s'] eqn:Hrun.
    simpl in Hb. subst o.
    apply validate_pdf_file_returns in Hrun as (size & Hstat & Hext & Hsize).
    exists size. by rewrite <- supported_extension_test.
  - intros (size & Hstat & Hext & Hsize). exists true.
    rewrite (validate_pdf_file_passes cfg w _ size); [done|].
    repeat split; try done. by apply supported_extension_test.
  - intros Hstat. rewrite validate_pdf_file_missing by done. by eexists.
  - intros size Hstat Hbad.
    destruct (decide (PyStr.lower (OsPath.splitext file_path).2
                        ∈ SUPPORTED_EXTENSIONS cfg)) as [Hext|Hext].
    + destruct Hbad as [Hbad|Hbad].
      * destruct Hbad. by apply supported_extension_test.
      * rewrite (validate_pdf_file_size cfg w _ size) by done. by eexists.
    + rewrite (validate_pdf_file_extension cfg w _ size) by done. by eexists.
Qed.

Lemma validate_contract_witness :
  Spec.lowercase_extensions config
  ∧ ((∃ b, (validate_pdf_file config (Sample.world (Return (Sample.plain None)))
              "docs/report.PDF" []).1 = Return b) ↔
       ∃ size, Sample.files "docs/report.PDF" = Some size
               ∧ Spec.supported_extension config (OsPath.splitext "docs/report.PDF").2
               ∧ Spec.size_allowed config size).
Proof.
  split; [exact config_lowercase_extensions|].
  apply (validate_contract config (Sample.world (Return (Sample.plain None)))
           "docs/report.PDF" [] config_lowercase_extensions).
Defined.

(** Only the extension of the path is lower-cased: an extension configured
    in upper case matches no path at all. *)
Example upper_case_extension_never_matches :
  (validate_pdf_file Sample.upper_config (Sample.world (Return (Sample.plain None)))
     "docs/report.PDF" []).1
  = Raise (mkExc ValueError "Unsupported file type: .pdf. Expected PDF file.").
Proof. vm_compute. reflexivity. Qed.

(** C9. Whenever [validate_pdf_file] returns, it returns [True]. *)
Theorem validate_returns_True cfg w file_path s b s' :
  validate_pdf_file cfg w file_path s = (Return b, s') → b = true.
Proof.
  intros Hrun.
  destruct (validate_pdf_file_returns cfg w _ _ _ _ Hrun) as [size Hvalid].
  rewrite (validate_pdf_file_passes cfg w _ size) in Hrun by done.
  by injection Hrun as <- _.
Qed.

Lemma validate_returns_True_witness :
  validate_pdf_file config (Sample.world (Return (Sample.plain None)))
    "docs/report.PDF" []
  = (Return true, [validation_passed "docs/report.PDF"])
  ∧ true = true.
Proof.
  split; [vm_compute; reflexivity|].
  apply (validate_returns_True config (Sample.world (Return (Sample.plain None)))
           "docs/report.PDF" [] true [validation_passed "docs/report.PDF"]).
  vm_compute. reflexivity.
Defined.

(** Each operation only appends to the actions of the process and ends the
    same way whatever was done before. *)
Lemma operations_only_append cfg w file_path s1 s2 :
  ((extract_text_from_pdf cfg w file_path s1).1
     = (extract_text_from_pdf cfg w file_path s2).1
   ∧ (extract_text_from_pdf cfg w file_path
        (extract_text_from_pdf cfg w file_path s1).2).1
     = (extract_text_from_pdf cfg w file_path s1).1
   ∧ ∃ t, (extract_text_from_pdf cfg w file_path s1).2 = (s1 ++ t)%list)
  ∧ ((extract_text_by_pages cfg w file_path s1).1
       = (extract_text_by_pages cfg w file_path s2).1
     ∧ (extract_text_by_pages cfg w file_path
          (extract_text_by_pages cfg w file_path s1).2).1
       = (extract_text_by_pages cfg w file_path s1).1
     ∧ ∃ t, (extract_text_by_pages cfg w file_path s1).2 = (s1 ++ t)%list)
  ∧ ((get_pdf_metadata cfg w file_path s1).1
       = (get_pdf_metadata cfg w file_path s2).1
     ∧ (get_pdf_metadata cfg w file_path
          (get_pdf_metadata cfg w file_path s1).2).1
       = (get_pdf_metadata cfg w file_path s1).1
     ∧ ∃ t, (get_pdf_metadata cfg w file_path s1).2 = (s1 ++ t)%list).
Proof.
  assert (Hframe : ∀ A (m : Py A), emits any_actions m →
            (m s1).1 = (m s2).1 ∧ (m (m s1).2).1 = (m s1).1
            ∧ ∃ t, (m s1).2 = (s1 ++ t)%list).
  { intros A m [_ Hm]. rewrite (Hm s1), (Hm s2). simpl.
    rewrite (Hm (s1 ++ (m []).2)%list). eauto. }
  split; [|split]; apply Hframe.
  - apply extract_text_from_pdf_frames.
  - apply extract_text_by_pages_frames.
  - apply get_pdf_metadata_frames.
Qed.

Lemma records_from_text cfg raw : ∀ page_num,
  text <$> records_from cfg page_num raw = process_text cfg <$> raw.
Proof. induction raw as [|t raw IH]; intros k; simpl; [done | by rewrite IH]. Qed.

Lemma records_from_page_number cfg raw : ∀ page_num,
  page_number <$> records_from cfg page_num raw = seq page_num (length raw).
Proof. induction raw as [|t raw IH]; intros k; simpl; [done | by rewrite IH]. Qed.

Lemma records_from_length cfg raw : ∀ page_num,
  length (records_from cfg page_num raw) = length raw.
Proof. induction raw as [|t raw IH]; intros k; simpl; [done | by rewrite IH]. Qed.

Lemma separator_eq cfg :
  separator cfg = if PRESERVE_LINE_BREAKS cfg then double_newline else " ".
Proof. reflexivity. Qed.

Lemma with_document_information_other cfg info md k :
  k ∉ METADATA_FIELDS cfg → with_document_information cfg info md !! k = md !! k.
Proof.
  intros Hk. unfold with_document_information.
  destruct (truthy info); [by apply foldl_set_field_other | done].
Qed.

(** C2. For a valid PDF that is not encrypted, joining the [text] fields of
    the records of [extract_text_by_pages] with the configured separator
    (two newlines when line breaks are preserved, a blank otherwise) gives
    the string [extract_text_from_pdf] returns; both apply the same text
    processing to the raw text of each page. *)
Theorem pages_join_is_full_text cfg w file_path raw s1 s2 :
  valid_plain_pdf cfg w file_path raw →
  ∃ pages_data combined_text,
    (extract_text_by_pages cfg w file_path s1).1 = Return pages_data
    ∧ (extract_text_from_pdf cfg w file_path s2).1 = Return combined_text
    ∧ text <$> pages_data = process_text cfg <$> raw
    ∧ PyStr.join (if PRESERVE_LINE_BREAKS cfg then double_newline else " ")
        (text <$> pages_data) = combined_text.
Proof.
  intros Hvalid. eexists _, _. split; [|split; [|split]].
  - by apply extract_text_by_pages_returns.
  - by apply extract_text_from_pdf_returns.
  - apply records_from_text.
  - by rewrite records_from_text, separator_eq.
Qed.

Lemma pages_join_is_full_text_witness :
  valid_plain_pdf config (Sample.world (Return (Sample.plain None)))
    Sample.report Sample.raw_texts
  ∧ ∃ pages_data combined_text,
      (extract_text_by_pages config (Sample.world (Return (Sample.plain None)))
         Sample.report []).1 = Return pages_data
      ∧ (extract_text_from_pdf config (Sample.world (Return (Sample.plain None)))
           Sample.report []).1 = Return combined_text
      ∧ text <$> pages_data = process_text config <$> Sample.raw_texts
      ∧ PyStr.join double_newline (text <$> pages_data) = combined_text.
Proof.
  split; [apply sample_plain_valid|].
  apply (pages_join_is_full_text config (Sample.world (Return (Sample.plain None)))
           Sample.report Sample.raw_texts [] []).
  apply sample_plain_valid.
Defined.

(** C3. For a valid PDF that is not encrypted, [extract_text_by_pages]
    returns as many records as the [page_count] entry of [get_pdf_metadata]
    says, and their [page_number] fields are 1, 2, ..., [page_count] in
    order. ([page_count] is not the name of a configured metadata field.) *)
Theorem pages_match_page_count cfg w file_path raw info s1 s2 :
  valid_plain_pdf cfg w file_path raw →
  has_info w file_path info →
  "page_count" ∉ METADATA_FIELDS cfg →
  ∃ pages_data md (page_count : nat),
    (extract_text_by_pages cfg w file_path s1).1 = Return pages_data
    ∧ (get_pdf_metadata cfg w file_path s2).1 = Return md
    ∧ md !! "page_count" = Some (VInt (Z.of_nat page_count))
    ∧ length pages_data = page_count
    ∧ page_number <$> pages_data = seq 1 page_count.
Proof.
  intros Hvalid (reader' & Hopen' & Hinfo) Hfield.
  pose proof Hvalid as (size & reader & ps & Hpass & Hopen & Henc & Hpages & Hraw).
  assert (reader' = reader) as -> by congruence.
  eexists _, _, (length raw). split; [|split; [|split; [|split]]].
  - by apply extract_text_by_pages_returns.
  - apply (get_pdf_metadata_returns cfg w file_path size (length raw) false info).
    exists reader, ps. split; [exact Hpass|]. split; [exact Hopen|].
    split; [exact Hpages|]. split; [symmetry; by apply page_texts_length|].
    by split.
  - rewrite with_document_information_other by done.
    unfold file_information. by rewrite lookup_insert_ne, lookup_insert_eq.
  - apply records_from_length.
  - apply records_from_page_number.
Qed.

Lemma pages_match_page_count_witness :
  valid_plain_pdf config (Sample.world (Return (Sample.plain (Some Sample.document_info))))
    Sample.report Sample.raw_texts
  ∧ has_info (Sample.world (Return (Sample.plain (Some Sample.document_info))))
      Sample.report (Some Sample.document_info)
  ∧ ("page_count" ∉ METADATA_FIELDS config)
  ∧ ∃ pages_data md (page_count : nat),
      (extract_text_by_pages config
         (Sample.world (Return (Sample.plain (Some Sample.document_info))))
         Sample.report []).1 = Return pages_data
      ∧ (get_pdf_metadata config
           (Sample.world (Return (Sample.plain (Some Sample.document_info))))
           Sample.report []).1 = Return md
      ∧ md !! "page_count" = Some (VInt (Z.of_nat page_count))
      ∧ length pages_data = page_count
      ∧ page_number <$> pages_data = seq 1 page_count.
Proof.
  assert (Hinfo : has_info (Sample.world (Return (Sample.plain (Some Sample.document_info))))
                    Sample.report (Some Sample.document_info)).
  { by exists (Sample.plain (Some Sample.document_info)). }
  assert (Hfield : "page_count" ∉ METADATA_FIELDS config).
  { apply (bool_decide_unpack _). vm_compute. reflexivity. }
  split; [apply sample_plain_valid|]. split; [exact Hinfo|]. split; [exact Hfield|].
  apply (pages_match_page_count config
           (Sample.world (Return (Sample.plain (Some Sample.document_info))))
           Sample.report Sample.raw_texts (Some Sample.document_info) [] []
           (sample_plain_valid _) Hinfo Hfield).
Defined.

(** C6. For a valid PDF that is not encrypted, with whitespace
    normalization enabled, [extract_text_from_pdf] returns the texts of the
    pages, each with its runs of whitespace collapsed to single blanks and
    trimmed at both ends, joined by two newlines when line breaks are
    preserved and by one blank otherwise; a document with no page gives the
    empty string. *)
Theorem full_text_normalized cfg w file_path raw s :
  valid_plain_pdf cfg w file_path raw →
  REMOVE_EXTRA_WHITESPACE cfg = true →
  (extract_text_from_pdf cfg w file_path s).1 =
    Return (PyStr.join (if PRESERVE_LINE_BREAKS cfg then double_newline else " ")
              (Spec.normalize_whitespace <$> raw))
  ∧ (raw = [] → (extract_text_from_pdf cfg w file_path s).1 = Return "").
Proof.
  intros Hvalid Hws.
  assert (Hrun : (extract_text_from_pdf cfg w file_path s).1 =
            Return (PyStr.join (if PRESERVE_LINE_BREAKS cfg then double_newline else " ")
                      (Spec.normalize_whitespace <$> raw))).
  { rewrite (extract_text_from_pdf_returns cfg w file_path raw) by done.
    rewrite separator_eq. do 2 f_equal. apply list_fmap_ext. intros _ t _.
    unfold process_text. rewrite Hws. apply join_split_normalizes. }
  split; [exact Hrun|]. intros ->. exact Hrun.
Qed.

Lemma full_text_normalized_witness :
  valid_plain_pdf config (Sample.world (Return (Sample.plain None)))
    Sample.report Sample.raw_texts
  ∧ REMOVE_EXTRA_WHITESPACE config = true
  ∧ (extract_text_from_pdf config (Sample.world (Return (Sample.plain None)))
       Sample.report []).1 =
      Return (PyStr.join double_newline (Spec.normalize_whitespace <$> Sample.raw_texts)).
Proof.
  split; [apply sample_plain_valid|]. split; [reflexivity|].
  apply (full_text_normalized config (Sample.world (Return (Sample.plain None)))
           Sample.report Sample.raw_texts [] (sample_plain_valid None) eq_refl).
Defined.

(** ** Encrypted documents *)

Section encrypted.

Context (cfg : Config) (w : World).

Lemma extract_text_from_pdf_encrypted file_path size reader s :
  passes_validation cfg w file_path size →
  PdfReader w file_path = Return reader →
  is_encrypted reader = true →
  ∃ t, extract_text_from_pdf cfg w file_path s = (Raise encrypted_error, (s ++ t)%list)
       ∧ reader_calls t = [Open file_path; IsEncrypted].
Proof.
  intros Hvalid Hopen Henc.
  unfold extract_text_from_pdf, try_except, extract_text_from_pdf_body.
  rewrite bind_run, (validate_pdf_file_passes cfg w _ size) by done.
  unfold open_reader, reader_is_encrypted, logger, perform, lift, raise.
  rewrite !bind_run, Hopen. simpl. rewrite Henc. simpl. rewrite bind_run.
  repeat (rewrite <- app_assoc; simpl). eexists. split; reflexivity.
Qed.

Lemma extract_text_by_pages_encrypted file_path size reader s :
  passes_validation cfg w file_path size →
  PdfReader w file_path = Return reader →
  is_encrypted reader = true →
  ∃ t, extract_text_by_pages cfg w file_path s = (Raise encrypted_error, (s ++ t)%list)
       ∧ reader_calls t = [Open file_path; IsEncrypted].
Proof.
  intros Hvalid Hopen Henc.
  unfold extract_text_by_pages, try_except, extract_text_by_pages_body.
  rewrite bind_run, (validate_pdf_file_passes cfg w _ size) by done.
  unfold open_reader, reader_is_encrypted, logger, perform, lift, raise.
  rewrite !bind_run, Hopen. simpl. rewrite Henc. simpl. rewrite bind_run.
  repeat (rewrite <- app_assoc; simpl). eexists. split; reflexivity.
Qed.

End encrypted.

Lemma sample_encrypted_valid :
  valid_pdf_info config (Sample.world (Return Sample.encrypted)) Sample.report
    131072 2 true (Some Sample.document_info).
Proof.
  exists Sample.encrypted, (default [] (match pages Sample.encrypted with
                                        | Return ps => Some ps | Raise _ => None end)).
  split; [apply sample_report_passes|]. repeat split.
Qed.

(** ** Configured metadata fields *)

(** C5, as the code has it. For a valid PDF and a configured metadata
    field: when the reader gives a document-info dictionary that is not
    empty, the record holds the field, with the document's value when the
    dictionary has the field's key and the marker [None] when it lacks it;
    when the reader gives no dictionary, or an empty one, the loop over the
    configured fields is skipped and the record does not hold the field. *)
Theorem configured_field_in_record cfg w file_path size page_count enc info s field :
  valid_pdf_info cfg w file_path size page_count enc info →
  field ∈ METADATA_FIELDS cfg →
  ∃ md, (get_pdf_metadata cfg w file_path s).1 = Return md
    ∧ (∀ d, info = Some d → d ≠ ∅ →
         md !! field = Some match d !! field_key field with
                            | Some v => VStr v
                            | None => VNone
                            end)
    ∧ (info = None ∨ info = Some ∅ → field ∉ basic_keys → md !! field = None).
Proof.
  intros Hinfo Hfield. eexists. split; [by apply get_pdf_metadata_returns|]. split.
  - intros d -> Hd. unfold with_document_information, truthy.
    rewrite bool_decide_eq_false_2 by done. simpl.
    by rewrite foldl_set_field_field.
  - intros Hnone Hbasic. unfold with_document_information.
    assert (truthy info = false) as ->.
    { destruct Hnone as [-> | ->]; [done|]. unfold truthy.
      by rewrite bool_decide_eq_true_2. }
    by apply file_information_lookup.
Qed.

Lemma sample_plain_info info :
  valid_pdf_info config (Sample.world (Return (Sample.plain info))) Sample.report
    131072 2 false info.
Proof.
  exists (Sample.plain info), (pages_of Sample.raw_texts).
  split; [apply sample_report_passes|]. repeat split.
Qed.

Lemma configured_field_in_record_witness :
  valid_pdf_info config (Sample.world (Return (Sample.plain (Some Sample.document_info))))
    Sample.report 131072 2 false (Some Sample.document_info)
  ∧ "author" ∈ METADATA_FIELDS config
  ∧ ∃ md, (get_pdf_metadata config
             (Sample.world (Return (Sample.plain (Some Sample.document_info))))
             Sample.report []).1 = Return md
      ∧ md !! "author" = Some VNone.
Proof.
  assert (Hfield : "author" ∈ METADATA_FIELDS config).
  { apply (bool_decide_unpack _). vm_compute. reflexivity. }
  split; [apply sample_plain_info|]. split; [exact Hfield|].
  destruct (configured_field_in_record config
              (Sample.world (Return (Sample.plain (Some Sample.document_info))))
              Sample.report 131072 2 false (Some Sample.document_info) [] "author"
              (sample_plain_info _) Hfield) as (md & Hrun & Hsome & _).
  exists md. split; [exact Hrun|].
  apply (Hsome Sample.document_info eq_refl).
  apply (bool_decide_unpack _). vm_compute. reflexivity.
Defined.

(** C5 fails as stated: a valid PDF without a document-info dictionary
    gives a record from which the configured field [title] is omitted. *)
Lemma missing_info_omits_title :
  valid_pdf_info config (Sample.world (Return (Sample.plain None))) Sample.report
    131072 2 false None
  ∧ "title" ∈ METADATA_FIELDS config
  ∧ ∃ md, (get_pdf_metadata config (Sample.world (Return (Sample.plain None)))
             Sample.report []).1 = Return md
      ∧ md !! "title" = None
      ∧ md !! "title" ≠ Some VNone.
Proof.
  split; [apply sample_plain_info|].
  split; [apply (bool_decide_unpack _); vm_compute; reflexivity|].
  eexists. split; [vm_compute; reflexivity|].
  split; [vm_compute; reflexivity | vm_compute; discriminate].
Qed.

(** ** Failures of the reader, through the clauses *)

Section handled.

Context (cfg : Config) (w : World).

(** Whatever the class of the exception, the operation raises; the generic
    clause wraps it after one [logger.error]; a [ValueError] is re-raised
    as it is. *)
Lemma extract_text_from_pdf_reader_failure file_path size e s :
  passes_validation cfg w file_path size →
  text_reader_failure w file_path e →
  ∃ e' t, extract_text_from_pdf cfg w file_path s = (Raise e', (s ++ t)%list)
    ∧ (reaches_generic_clause e →
         e' = failed "Failed to extract text: " e ∧ error_logs t = 1%nat)
    ∧ (isinstance e ValueError = true → e' = e).
Proof.
  intros Hvalid Hfail.
  destruct (calm_body_raises (extract_text_from_pdf_body cfg w file_path) e s)
    as (t & Hbody & Hcalm).
  { apply extract_text_from_pdf_body_calm. }
  { by apply (extract_text_from_pdf_body_raises cfg w file_path size). }
  rewrite (extract_text_from_pdf_handles cfg w _ _ _ _ Hbody).
  unfold reaches_generic_clause.
  destruct (isinstance e FileNotFoundError) eqn:Hfnf;
    [|destruct (isinstance e ValueError) eqn:Hval;
      [|destruct (isinstance e Exception) eqn:Hexc]];
    rewrite <- ?app_assoc; eexists _, _; (split; [reflexivity|]);
    (split; [intros (? & ? & ?); try discriminate | intros ?; try done]).
  split; [done|]. rewrite error_logs_app, Hcalm. reflexivity.
Qed.

Lemma extract_text_by_pages_reader_failure file_path size e s :
  passes_validation cfg w file_path size →
  text_reader_failure w file_path e →
  ∃ e' t, extract_text_by_pages cfg w file_path s = (Raise e', (s ++ t)%list)
    ∧ (reaches_generic_clause e →
         e' = failed "Failed to extract text by pages: " e ∧ error_logs t = 1%nat)
    ∧ (isinstance e ValueError = true → e' = e).
Proof.
  intros Hvalid Hfail.
  destruct (calm_body_raises (extract_text_by_pages_body cfg w file_path) e s)
    as (t & Hbody & Hcalm).
  { apply extract_text_by_pages_body_calm. }
  { by apply (extract_text_by_pages_body_raises cfg w file_path size). }
  rewrite (extract_text_by_pages_handles cfg w _ _ _ _ Hbody).
  unfold reaches_generic_clause.
  destruct (isinstance e FileNotFoundError) eqn:Hfnf;
    [|destruct (isinstance e ValueError) eqn:Hval;
      [|destruct (isinstance e Exception) eqn:Hexc]];
    simpl; rewrite <- ?app_assoc; eexists _, _; (split; [reflexivity|]);
    (split; [intros (? & ? & ?); try discriminate | intros ?; try done]).
  split; [done|]. rewrite error_logs_app, Hcalm. reflexivity.
Qed.

Lemma get_pdf_metadata_reader_failure file_path size e s :
  passes_validation cfg w file_path size →
  metadata_reader_failure w file_path e →
  ∃ e' t, get_pdf_metadata cfg w file_path s = (Raise e', (s ++ t)%list)
    ∧ (reaches_generic_clause e →
         e' = failed "Failed to extract metadata: " e ∧ error_logs t = 1%nat)
    ∧ (isinstance e ValueError = true → e' = e).
Proof.
  intros Hvalid Hfail.
  destruct (calm_body_raises (get_pdf_metadata_body cfg w file_path) e s)
    as (t & Hbody & Hcalm).
  { apply get_pdf_metadata_body_calm. }
  { by apply (get_pdf_metadata_body_raises cfg w file_path size). }
  rewrite (get_pdf_metadata_handles cfg w _ _ _ _ Hbody).
  unfold reaches_generic_clause.
  destruct (isinstance e FileNotFoundError) eqn:Hfnf;
    [|destruct (isinstance e ValueError) eqn:Hval;
      [|destruct (isinstance e Exception) eqn:Hexc]];
    simpl; rewrite <- ?app_assoc; eexists _, _; (split; [reflexivity|]);
    (split; [intros (? & ? & ?); try discriminate | intros ?; try done]).
  split; [done|]. rewrite error_logs_app, Hcalm. reflexivity.
Qed.

End handled.

(** C7, as the code has it. After validation has passed, a failure of the
    reader is never swallowed: each operation raises. When the failure is
    an [Exception] that is neither a [FileNotFoundError] nor a [ValueError],
    the operation logs it once and raises a plain [Exception] whose message
    is the context of the operation followed by the original message. *)
Theorem reader_failure_wrapped cfg w file_path size e s :
  passes_validation cfg w file_path size →
  (text_reader_failure w file_path e →
     (∃ e' t, extract_text_from_pdf cfg w file_path s = (Raise e', (s ++ t)%list)
        ∧ (reaches_generic_clause e →
             e' = mkExc Exception ("Failed to extract text: " +:+ exc_str e)
             ∧ error_logs t = 1%nat))
     ∧ (∃ e' t, extract_text_by_pages cfg w file_path s = (Raise e', (s ++ t)%list)
          ∧ (reaches_generic_clause e →
               e' = mkExc Exception ("Failed to extract text by pages: " +:+ exc_str e)
               ∧ error_logs t = 1%nat)))
  ∧ (metadata_reader_failure w file_path e →
       ∃ e' t, get_pdf_metadata cfg w file_path s = (Raise e', (s ++ t)%list)
         ∧ (reaches_generic_clause e →
              e' = mkExc Exception ("Failed to extract metadata: " +:+ exc_str e)
              ∧ error_logs t = 1%nat)).
Proof.
  intros Hvalid. split; [intros Hfail; split | intros Hfail].
  - destruct (extract_text_from_pdf_reader_failure cfg w file_path size e s)
      as (e' & t & Hrun & Hwrap & _); eauto.
  - destruct (extract_text_by_pages_reader_failure cfg w file_path size e s)
      as (e' & t & Hrun & Hwrap & _); eauto.
  - destruct (get_pdf_metadata_reader_failure cfg w file_path size e s)
      as (e' & t & Hrun & Hwrap & _); eauto.
Qed.

Lemma reader_failure_wrapped_witness :
  passes_validation config (Sample.world (Raise Sample.eof_marker)) Sample.report 131072
  ∧ text_reader_failure (Sample.world (Raise Sample.eof_marker)) Sample.report
      Sample.eof_marker
  ∧ reaches_generic_clause Sample.eof_marker
  ∧ ∃ t, extract_text_from_pdf config (Sample.world (Raise Sample.eof_marker))
           Sample.report []
         = (Raise (mkExc Exception "Failed to extract text: EOF marker not found"), t)
      ∧ error_logs t = 1%nat.
Proof.
  assert (Hfail : text_reader_failure (Sample.world (Raise Sample.eof_marker))
                    Sample.report Sample.eof_marker).
  { by apply open_fails. }
  assert (Hclass : reaches_generic_clause Sample.eof_marker).
  { repeat split; vm_compute; reflexivity. }
  split; [apply sample_report_passes|]. split; [exact Hfail|]. split; [exact Hclass|].
  destruct (reader_failure_wrapped config (Sample.world (Raise Sample.eof_marker))
              Sample.report 131072 Sample.eof_marker [] (sample_report_passes _))
    as [Htext _].
  destruct (Htext Hfail) as [(e' & t & Hrun & Hwrap) _].
  destruct (Hwrap Hclass) as [-> Hlogs].
  exists t. split; [exact Hrun | exact Hlogs].
Defined.

(** C7 fails as stated: the reader raises a [ValueError] on a file that
    passed validation, and [extract_text_from_pdf] raises that very
    [ValueError], not an [Exception] carrying the context. *)
Lemma reader_ValueError_not_wrapped :
  passes_validation config (Sample.world (Raise Sample.bad_xref)) Sample.report 131072
  ∧ text_reader_failure (Sample.world (Raise Sample.bad_xref)) Sample.report
      Sample.bad_xref
  ∧ (extract_text_from_pdf config (Sample.world (Raise Sample.bad_xref))
       Sample.report []).1 = Raise Sample.bad_xref
  ∧ ¬ Spec.ExtractionFailed Sample.bad_xref
  ∧ Sample.bad_xref ≠ mkExc Exception ("Failed to extract text: " +:+ exc_str Sample.bad_xref).
Proof.
  split; [apply sample_report_passes|]. split; [by apply open_fails|].
  split; [vm_compute; reflexivity|]. split; discriminate.
Qed.

(** C10. After validation has passed, a [ValueError] the reader raises
    (when opening the file, or while reading a document it does not report
    as encrypted) reaches the caller as it is from each of the three
    operations: the clause for [ValueError] comes before the generic one. *)
Theorem reader_ValueError_propagates cfg w file_path size e s :
  passes_validation cfg w file_path size →
  isinstance e ValueError = true →
  (text_reader_failure w file_path e →
     (extract_text_from_pdf cfg w file_path s).1 = Raise e
     ∧ (extract_text_by_pages cfg w file_path s).1 = Raise e)
  ∧ (metadata_reader_failure w file_path e →
       (get_pdf_metadata cfg w file_path s).1 = Raise e).
Proof.
  intros Hvalid Hclass. split; [intros Hfail; split | intros Hfail].
  - destruct (extract_text_from_pdf_reader_failure cfg w file_path size e s)
      as (e' & t & -> & _ & Hsame); [done..|]. simpl. by rewrite Hsame.
  - destruct (extract_text_by_pages_reader_failure cfg w file_path size e s)
      as (e' & t & -> & _ & Hsame); [done..|]. simpl. by rewrite Hsame.
  - destruct (get_pdf_metadata_reader_failure cfg w file_path size e s)
      as (e' & t & -> & _ & Hsame); [done..|]. simpl. by rewrite Hsame.
Qed.

Lemma reader_ValueError_propagates_witness :
  passes_validation config (Sample.world (Raise Sample.bad_xref)) Sample.report 131072
  ∧ isinstance Sample.bad_xref ValueError = true
  ∧ metadata_reader_failure (Sample.world (Raise Sample.bad_xref)) Sample.report
      Sample.bad_xref
  ∧ (get_pdf_metadata config (Sample.world (Raise Sample.bad_xref))
       Sample.report []).1 = Raise Sample.bad_xref.
Proof.
  assert (Hfail : metadata_reader_failure (Sample.world (Raise Sample.bad_xref))
                    Sample.report Sample.bad_xref).
  { by apply info_open_fails. }
  split; [apply sample_report_passes|]. split; [reflexivity|]. split; [exact Hfail|].
  apply (reader_ValueError_propagates config (Sample.world (Raise Sample.bad_xref))
           Sample.report 131072 Sample.bad_xref [] (sample_report_passes _) eq_refl).
  exact Hfail.
Defined.

(** * Further properties of the module *)

(** ** The validator: outcome and effects *)

Section validator_outcome.

Context (cfg : Config) (w : World).

(** The validator either passes, leaving one log entry, or raises a
    [FileNotFoundError] or a [ValueError], leaving nothing. *)
Lemma validate_pdf_file_outcome file_path s :
  (∃ size, passes_validation cfg w file_path size
           ∧ validate_pdf_file cfg w file_path s =
               (Return true, (s ++ [validation_passed file_path])%list))
  ∨ (∃ e, validate_pdf_file cfg w file_path s = (Raise e, s)
          ∧ (exc_class e = FileNotFoundError ∨ exc_class e = ValueError)).
Proof.
  destruct (stat w file_path) as [size|] eqn:Hstat.
  2: { right. eexists. split; [by apply validate_pdf_file_missing|]. by left. }
  destruct (decide (PyStr.lower (OsPath.splitext file_path).2 ∈ SUPPORTED_EXTENSIONS cfg))
    as [Hext|Hext].
  2: { right. eexists. split; [by apply (validate_pdf_file_extension cfg w _ size)|].
       by right. }
  destruct (Qle_bool (megabytes size) (inject_Z (MAX_FILE_SIZE_MB cfg))) eqn:Hle.
  - left. exists size.
    assert (Hpass : passes_validation cfg w file_path size).
    { repeat split; try done. by apply Qle_bool_iff. }
    split; [exact Hpass | by apply (validate_pdf_file_passes cfg w _ size)].
  - right. eexists. split.
    + apply (validate_pdf_file_size cfg w _ size); [done..|].
      intros Hok. apply Qle_bool_iff in Hok. congruence.
    + by right.
Qed.

End validator_outcome.

(** X1. The validator never touches the reader and never logs an error:
    when it returns it has appended the one entry "File validation passed",
    and when it raises it has appended nothing. *)
Theorem validate_effects cfg w file_path s :
  ∃ t, (validate_pdf_file cfg w file_path s).2 = (s ++ t)%list
    ∧ reader_calls t = []
    ∧ error_logs t = 0%nat
    ∧ (∀ b, (validate_pdf_file cfg w file_path s).1 = Return b →
         t = [LoggerCall INFO ("File validation passed: " +:+ file_path)])
    ∧ (∀ e, (validate_pdf_file cfg w file_path s).1 = Raise e → t = []).
Proof.
  destruct (validate_pdf_file_outcome cfg w file_path s)
    as [(size & _ & ->) | (e & -> & _)]; simpl.
  - eexists. split; [reflexivity|]. repeat split; try done.
  - exists []. rewrite app_nil_r. repeat split; try done.
Qed.

(** A failure of the validator reaches the caller of each operation as
    it is: the operation raises the validator's exception, the reader is
    never called, and the only action added is one [logger.error]. *)
Lemma validation_failure_run cfg w file_path e s s' :
  validate_pdf_file cfg w file_path s = (Raise e, s') →
  (∃ msg, extract_text_from_pdf cfg w file_path s =
            (Raise e, (s ++ [LoggerCall ERROR msg])%list))
  ∧ extract_text_by_pages cfg w file_path s =
      (Raise e, (s ++ [LoggerCall ERROR ("Error: " +:+ exc_str e)])%list)
  ∧ get_pdf_metadata cfg w file_path s =
      (Raise e, (s ++ [LoggerCall ERROR ("Error: " +:+ exc_str e)])%list).
Proof.
  intros Hrun.
  destruct (validate_pdf_file_outcome cfg w file_path s)
    as [(size & _ & Hpass) | (e0 & Hfail & Hclass)]; [congruence|].
  assert (e0 = e ∧ s' = s) as [-> ->] by (split; congruence).
  assert (Hfnf : isinstance e FileNotFoundError || isinstance e ValueError = true).
  { unfold isinstance. destruct Hclass as [-> | ->]; reflexivity. }
  split; [|split].
  - rewrite (extract_text_from_pdf_handles cfg w file_path e s s).
    + unfold isinstance in *. destruct Hclass as [-> | ->]; simpl; eauto.
    + unfold extract_text_from_pdf_body. by rewrite bind_run, Hfail.
  - rewrite (extract_text_by_pages_handles cfg w file_path e s s).
    + by rewrite Hfnf.
    + unfold extract_text_by_pages_body. by rewrite bind_run, Hfail.
  - rewrite (get_pdf_metadata_handles cfg w file_path e s s).
    + by rewrite Hfnf.
    + unfold get_pdf_metadata_body. by rewrite bind_run, Hfail.
Qed.

(** X2. A failure of the validator reaches the caller of each operation as
    it is: the operation raises the validator's exception, the reader is
    never called, and the only action added is one [logger.error]. *)
Theorem validation_failure_propagates cfg w file_path e s s' :
  validate_pdf_file cfg w file_path s = (Raise e, s') →
  (∃ msg, extract_text_from_pdf cfg w file_path s =
            (Raise e, (s ++ [LoggerCall ERROR msg])%list))
  ∧ extract_text_by_pages cfg w file_path s =
      (Raise e, (s ++ [LoggerCall ERROR ("Error: " +:+ exc_str e)])%list)
  ∧ get_pdf_metadata cfg w file_path s =
      (Raise e, (s ++ [LoggerCall ERROR ("Error: " +:+ exc_str e)])%list).
Proof. exact (validation_failure_run cfg w file_path e s s'). Qed.

Lemma validation_failure_propagates_witness :
  validate_pdf_file config (Sample.world (Return (Sample.plain None))) "notes.txt" []
  = (Raise (mkExc ValueError "Unsupported file type: .txt. Expected PDF file."), [])
  ∧ get_pdf_metadata config (Sample.world (Return (Sample.plain None))) "notes.txt" []
    = (Raise (mkExc ValueError "Unsupported file type: .txt. Expected PDF file."),
       [LoggerCall ERROR "Error: Unsupported file type: .txt. Expected PDF file."]).
Proof.
  split; [vm_compute; reflexivity|].
  apply (validation_failure_propagates config (Sample.world (Return (Sample.plain None)))
           "notes.txt" (mkExc ValueError "Unsupported file type: .txt. Expected PDF file.")
           [] []).
  vm_compute. reflexivity.
Defined.

(** ** All or nothing: when the operations return *)

Lemma pages_give_texts_or_fail ps :
  (∃ raw, page_texts ps raw)
  ∨ (∃ before page after raw e,
       ps = (before ++ page :: after)%list
       ∧ page_texts before raw
       ∧ extract_text page = Raise e).
Proof.
  induction ps as [|p ps IH].
  - left. by exists [].
  - destruct (extract_text p) as [t|e] eqn:Hp.
    + destruct IH as [[raw Hraw] | (before & page & after & raw & e & -> & Hraw & He)].
      * left. exists (t :: raw). unfold page_texts in *. rewrite !fmap_cons. by rewrite Hp, Hraw.
      * right. exists (p :: before), page, after, (t :: raw), e.
        split; [done|]. split; [|done].
        unfold page_texts in *. rewrite !fmap_cons. by rewrite Hp, Hraw.
    + right. by exists [], p, ps, [], e.
Qed.

(** What the reader does with a file when text is wanted: it reports the
    document as encrypted, or gives every page's text, or fails. *)
Lemma reader_gives_text_or_fails w file_path :
  (∃ reader, PdfReader w file_path = Return reader ∧ is_encrypted reader = true)
  ∨ (∃ reader ps raw,
       PdfReader w file_path = Return reader
       ∧ is_encrypted reader = false
       ∧ pages reader = Return ps
       ∧ page_texts ps raw)
  ∨ (∃ e, text_reader_failure w file_path e).
Proof.
  destruct (PdfReader w file_path) as [reader|e] eqn:Hopen.
  2: { right; right. exists e. by apply open_fails. }
  destruct (is_encrypted reader) eqn:Henc; [left; eauto|].
  destruct (pages reader) as [ps|e] eqn:Hpages.
  2: { right; right. exists e. by apply (pages_fail _ _ _ reader). }
  destruct (pages_give_texts_or_fail ps)
    as [[raw Hraw] | (before & page & after & raw & e & -> & Hraw & He)].
  - right; left. by exists reader, ps, raw.
  - right; right. exists e. by apply (page_fails _ _ _ reader before page after raw).
Qed.

(** No partial result from the text operations: each returns exactly
    when the file passes validation, is opened, is not reported encrypted
    and every one of its pages gives its text; the result is then built from
    all the pages. In every other case the operation raises. *)
Lemma text_operations_return_cases cfg w file_path s :
  (∀ combined_text,
     (extract_text_from_pdf cfg w file_path s).1 = Return combined_text ↔
     ∃ raw, valid_plain_pdf cfg w file_path raw
            ∧ combined_text = PyStr.join (separator cfg) (process_text cfg <$> raw))
  ∧ (∀ pages_data,
       (extract_text_by_pages cfg w file_path s).1 = Return pages_data ↔
       ∃ raw, valid_plain_pdf cfg w file_path raw
              ∧ pages_data = records_from cfg 1 raw).
Proof.
  assert (Hcases :
    (∃ raw, valid_plain_pdf cfg w file_path raw)
    ∨ ((∃ e, (extract_text_from_pdf cfg w file_path s).1 = Raise e)
       ∧ (∃ e, (extract_text_by_pages cfg w file_path s).1 = Raise e))).
  { destruct (validate_pdf_file_outcome cfg w file_path s)
      as [(size & Hpass & _) | (e & Hfail & _)].
    - destruct (reader_gives_text_or_fails w file_path)
        as [(reader & Hopen & Henc) | [(reader & ps & raw & Hopen & Henc & Hps & Hraw)
                                      | [e Hfail]]].
      + right. split.
        * destruct (extract_text_from_pdf_encrypted cfg w file_path size reader s)
            as (t & -> & _); eauto.
        * destruct (extract_text_by_pages_encrypted cfg w file_path size reader s)
            as (t & -> & _); eauto.
      + left. by exists raw, size, reader, ps.
      + right. split.
        * destruct (extract_text_from_pdf_reader_failure cfg w file_path size e s)
            as (e' & t & -> & _); eauto.
        * destruct (extract_text_by_pages_reader_failure cfg w file_path size e s)
            as (e' & t & -> & _); eauto.
    - right. destruct (validation_failure_run cfg w file_path e s s Hfail)
        as ([msg ->] & -> & _). eauto. }
  split; intros result; split.
  - intros Hrun. destruct Hcases as [[raw Hvalid] | [[e He] _]]; [|congruence].
    exists raw. split; [done|].
    rewrite (extract_text_from_pdf_returns cfg w file_path raw) in Hrun by done.
    congruence.
  - intros (raw & Hvalid & ->). by apply extract_text_from_pdf_returns.
  - intros Hrun. destruct Hcases as [[raw Hvalid] | [_ [e He]]]; [|congruence].
    exists raw. split; [done|].
    rewrite (extract_text_by_pages_returns cfg w file_path raw) in Hrun by done.
    congruence.
  - intros (raw & Hvalid & ->). by apply extract_text_by_pages_returns.
Qed.

(** X3. No partial result from the text operations: each returns exactly
    when the file passes validation, is opened, is not reported encrypted
    and every one of its pages gives its text; the result is then built from
    all the pages. In every other case the operation raises. *)
Theorem text_operations_return_iff cfg w file_path s :
  (∀ combined_text,
     (extract_text_from_pdf cfg w file_path s).1 = Return combined_text ↔
     ∃ raw, valid_plain_pdf cfg w file_path raw
            ∧ combined_text = PyStr.join (separator cfg) (process_text cfg <$> raw))
  ∧ (∀ pages_data,
       (extract_text_by_pages cfg w file_path s).1 = Return pages_data ↔
       ∃ raw, valid_plain_pdf cfg w file_path raw
              ∧ pages_data = records_from cfg 1 raw).
Proof. exact (text_operations_return_cases cfg w file_path s). Qed.

(** What the reader does with a file when metadata is wanted *)
Lemma reader_gives_info_or_fails w file_path :
  (∃ reader ps info,
     PdfReader w file_path = Return reader
     ∧ pages reader = Return ps
     ∧ metadata reader = Return info)
  ∨ (∃ e, metadata_reader_failure w file_path e).
Proof.
  destruct (PdfReader w file_path) as [reader|e] eqn:Hopen.
  2: { right. exists e. by apply info_open_fails. }
  destruct (pages reader) as [ps|e] eqn:Hpages.
  2: { right. exists e. by apply (info_pages_fail _ _ _ reader). }
  destruct (metadata reader) as [info|e] eqn:Hinfo.
  - left. by exists reader, ps, info.
  - right. exists e. by apply (info_metadata_fails _ _ _ reader ps).
Qed.

(** [get_pdf_metadata] returns exactly when the file passes validation
    and the reader opens it and gives its pages and its document
    information, encrypted or not; the record is then the five entries of
    the file followed by the configured fields. In every other case it
    raises. *)
Lemma get_pdf_metadata_return_cases cfg w file_path s md :
  (get_pdf_metadata cfg w file_path s).1 = Return md ↔
  ∃ size page_count encrypted info,
    valid_pdf_info cfg w file_path size page_count encrypted info
    ∧ md = with_document_information cfg info
             (file_information w file_path size page_count encrypted).
Proof.
  split.
  - intros Hrun.
    destruct (validate_pdf_file_outcome cfg w file_path s)
      as [(size & Hpass & _) | (e & Hfail & _)].
    + destruct (reader_gives_info_or_fails w file_path)
        as [(reader & ps & info & Hopen & Hps & Hinfo) | [e Hfail]].
      * assert (Hvalid : valid_pdf_info cfg w file_path size (length ps)
                           (is_encrypted reader) info).
        { by exists reader, ps. }
        exists size, (length ps), (is_encrypted reader), info. split; [done|].
        rewrite (get_pdf_metadata_returns cfg w file_path _ _ _ _ s Hvalid) in Hrun.
        congruence.
      * destruct (get_pdf_metadata_reader_failure cfg w file_path size e s)
          as (e' & t & Hraise & _); [done..|]. rewrite Hraise in Hrun. discriminate.
    + destruct (validation_failure_run cfg w file_path e s s Hfail)
        as (_ & _ & Hraise). rewrite Hraise in Hrun. discriminate.
  - intros (size & n & enc & info & Hvalid & ->). by apply get_pdf_metadata_returns.
Qed.

(** X4. [get_pdf_metadata] returns exactly when the file passes validation
    and the reader opens it and gives its pages and its document
    information, encrypted or not; the record is then the five entries of
    the file followed by the configured fields. In every other case it
    raises. *)
Theorem get_pdf_metadata_returns_iff cfg w file_path s md :
  (get_pdf_metadata cfg w file_path s).1 = Return md ↔
  ∃ size page_count encrypted info,
    valid_pdf_info cfg w file_path size page_count encrypted info
    ∧ md = with_document_information cfg info
             (file_information w file_path size page_count encrypted).
Proof. exact (get_pdf_metadata_return_cases cfg w file_path s md). Qed.

(** ** The text processing *)

Lemma split_from_no_space s :
  Forall Text.no_space (PyStr.split_from None s)
  ∧ Forall Text.no_space (PyStr.split_from (Some "") s).
Proof.
  induction s as [|c s [IH1 IH2]].
  - split; repeat constructor.
  - destruct (PyStr.isspace c) eqn:Hc.
    + rewrite !split_from_space by done. split; [done|]. by constructor.
    + rewrite !split_from_cons by done.
      assert (Hhead : ∀ first, Text.no_space first → Text.no_space (String c first)).
      { intros first Hfirst. unfold Text.no_space in *. simpl. by rewrite Hc. }
      destruct (PyStr.split_from (Some "") s) as [|first rest]; simpl.
      * split; repeat constructor; by apply Hhead.
      * inversion IH2; subst. split; constructor; try done; by apply Hhead.
Qed.

(** The words [split] gives are words. *)
Lemma split_words s : Forall Text.word (PyStr.split s).
Proof.
  pose proof (proj1 (split_words_nonempty s)) as Hne.
  pose proof (proj1 (split_from_no_space s)) as Hns.
  unfold PyStr.split. induction Hne as [|w ws Hw Hne IH]; [constructor|].
  inversion Hns; subst. constructor; [by split | by apply IH].
Qed.

Lemma split_from_append_word w : ∀ acc rest,
  Text.no_space w →
  PyStr.split_from (Some acc) (w +:+ rest) = PyStr.split_from (Some (acc +:+ w)) rest.
Proof.
  induction w as [|c w IH]; intros acc rest Hw.
  - by rewrite append_empty_r.
  - unfold Text.no_space in Hw. simpl in Hw. apply andb_prop in Hw as [Hc Hw].
    apply negb_true_iff in Hc. rewrite append_cons. simpl. rewrite Hc.
    rewrite IH by done. by rewrite append_assoc'.
Qed.

Lemma split_from_word_first w rest :
  Text.word w →
  PyStr.split_from None (w +:+ rest) = PyStr.split_from (Some w) rest.
Proof.
  intros [Hne Hw]. destruct w as [|c w]; [done|].
  unfold Text.no_space in Hw. simpl in Hw. apply andb_prop in Hw as [Hc Hw].
  apply negb_true_iff in Hc. rewrite append_cons. simpl. rewrite Hc.
  by rewrite split_from_append_word.
Qed.

(** Splitting what [' '.join] made of words gives the words back. *)
Lemma split_join_words words :
  Forall Text.word words → PyStr.split (PyStr.join " " words) = words.
Proof.
  unfold PyStr.split. induction 1 as [|w ws Hw Hws IH]; [done|].
  destruct ws as [|w' ws].
  - change (PyStr.join " " [w]) with w.
    rewrite <- (append_empty_r w) at 1. by rewrite split_from_word_first.
  - change (PyStr.join " " (w :: w' :: ws))
      with (w +:+ String " " (PyStr.join " " (w' :: ws))).
    rewrite split_from_word_first by done.
    rewrite split_from_space by done. by rewrite IH.
Qed.

Lemma visible_append s t : Text.visible (s +:+ t) = Text.visible s +:+ Text.visible t.
Proof.
  induction s as [|c s IH]; [done|]. rewrite append_cons. simpl.
  destruct (PyStr.isspace c); [done|]. by rewrite append_cons, IH.
Qed.

Lemma visible_word w : Text.no_space w → Text.visible w = w.
Proof.
  induction w as [|c w IH]; [done|]. unfold Text.no_space. simpl.
  intros [Hc Hw]%andb_prop. apply negb_true_iff in Hc. rewrite Hc. by rewrite IH.
Qed.

Lemma visible_split s :
  Text.visible s = String.concat "" (PyStr.split_from None s)
  ∧ Text.visible s = String.concat "" (PyStr.split_from (Some "") s).
Proof.
  induction s as [|c s [IH1 IH2]]; [done|].
  destruct (PyStr.isspace c) eqn:Hc.
  - rewrite !split_from_space by done. simpl. rewrite Hc. split; [done|].
    rewrite IH1. by destruct (PyStr.split_from None s).
  - rewrite !split_from_cons by done. simpl Text.visible. rewrite Hc, IH2.
    destruct (PyStr.split_from (Some "") s) as [|first rest]; simpl default.
    + done.
    + rewrite !append_empty_l. change (String.concat "") with (PyStr.join "").
      by rewrite join_cons_char.
Qed.

Lemma visible_join words :
  Forall Text.no_space words →
  Text.visible (PyStr.join " " words) = String.concat "" words.
Proof.
  induction 1 as [|w ws Hw Hws IH]; [done|].
  destruct ws as [|w' ws].
  - by apply visible_word.
  - change (PyStr.join " " (w :: w' :: ws))
      with (w +:+ String " " (PyStr.join " " (w' :: ws))).
    rewrite visible_append, visible_word by done.
    change (Text.visible (String " " ?x)) with (Text.visible x).
    rewrite IH. reflexivity.
Qed.

(** X5. With whitespace normalization on, the processed text of a page is a
    sequence of words (not empty, without whitespace) separated by single
    blanks, and it has the characters of the raw text that are not
    whitespace, in the same order. *)
Theorem process_text_normal_form cfg s :
  REMOVE_EXTRA_WHITESPACE cfg = true →
  (∃ words, process_text cfg s = PyStr.join " " words ∧ Forall Text.word words)
  ∧ Text.visible (process_text cfg s) = Text.visible s.
Proof.
  intros Hws. unfold process_text. rewrite Hws. split.
  - exists (PyStr.split s). split; [done | apply split_words].
  - rewrite visible_join.
    + symmetry. apply visible_split.
    + eapply Forall_impl; [apply split_words|]. by intros w [_ Hw].
Qed.

Lemma process_text_normal_form_witness :
  REMOVE_EXTRA_WHITESPACE config = true
  ∧ (∃ words, process_text config (String "009" " Annual   report ")
              = PyStr.join " " words ∧ Forall Text.word words)
  ∧ Text.visible (process_text config (String "009" " Annual   report "))
    = "Annualreport".
Proof.
  split; [reflexivity|].
  apply (process_text_normal_form config (String "009" " Annual   report ") eq_refl).
Defined.

(** The text processing is idempotent, whatever the configuration:
    processing a processed text changes nothing. *)
Lemma process_text_fixed cfg s :
  process_text cfg (process_text cfg s) = process_text cfg s.
Proof.
  unfold process_text. destruct (REMOVE_EXTRA_WHITESPACE cfg); [|done].
  by rewrite split_join_words by apply split_words.
Qed.

(** X6. The text processing is idempotent, whatever the configuration:
    processing a processed text changes nothing. *)
Theorem process_text_idempotent cfg s :
  process_text cfg (process_text cfg s) = process_text cfg s.
Proof. exact (process_text_fixed cfg s). Qed.

(** X7. Every record [extract_text_by_pages] returns is consistent:
    [char_count] is the length of [text], and [text] is already in processed
    form. *)
Theorem page_records_consistent cfg w file_path s pages_data s' :
  extract_text_by_pages cfg w file_path s = (Return pages_data, s') →
  Forall (fun page_data =>
            char_count page_data = PyStr.len (text page_data)
            ∧ process_text cfg (text page_data) = text page_data) pages_data.
Proof.
  intros Hrun.
  assert (Hfst : (extract_text_by_pages cfg w file_path s).1 = Return pages_data)
    by (by rewrite Hrun).
  apply (proj2 (text_operations_return_cases cfg w file_path s)) in Hfst
    as (raw & _ & ->).
  clear Hrun. generalize 1%nat.
  induction raw as [|t raw IH]; intros k; simpl; constructor.
  - simpl. split; [done | apply process_text_fixed].
  - apply IH.
Qed.

Lemma page_records_consistent_witness :
  extract_text_by_pages config (Sample.world (Return (Sample.plain None)))
    Sample.report []
  = (Return (records_from config 1 Sample.raw_texts),
     (extract_text_by_pages config (Sample.world (Return (Sample.plain None)))
        Sample.report []).2)
  ∧ Forall (fun page_data =>
              char_count page_data = PyStr.len (text page_data)
              ∧ process_text config (text page_data) = text page_data)
      (records_from config 1 Sample.raw_texts).
Proof.
  assert (Hrun : extract_text_by_pages config (Sample.world (Return (Sample.plain None)))
                   Sample.report []
                 = (Return (records_from config 1 Sample.raw_texts),
                    (extract_text_by_pages config
                       (Sample.world (Return (Sample.plain None))) Sample.report []).2)).
  { vm_compute. reflexivity. }
  split; [exact Hrun|].
  exact (page_records_consistent config (Sample.world (Return (Sample.plain None)))
           Sample.report [] _ _ Hrun).
Defined.

(** ** The key of a configured field *)

Lemma islower_facts c :
  PyStr.islower c = true →
  PyStr.lower_char c = c
  ∧ PyStr.iscased c = true
  ∧ Ascii.eqb c "_" = false
  ∧ Ascii.eqb (PyStr.upper_char c) "_" = false.
Proof.
  destruct c as [[] [] [] [] [] [] [] []]; vm_compute; intros H;
    try discriminate H; repeat split.
Qed.

Lemma replace_append old new s t :
  PyStr.replace old new (s +:+ t) = PyStr.replace old new s +:+ PyStr.replace old new t.
Proof.
  induction s as [|c s IH]; [done|]. rewrite append_cons. simpl.
  destruct (Ascii.eqb c old); by rewrite IH, ?append_assoc'.
Qed.

Lemma replace_lower_letters w :
  Text.lower_letters w → PyStr.replace "_" "" w = w.
Proof.
  induction w as [|c w IH]; [done|]. unfold Text.lower_letters. simpl.
  intros [Hc Hw]%andb_prop. destruct (islower_facts c Hc) as (_ & _ & -> & _).
  by rewrite IH.
Qed.

Lemma replace_capitalized w :
  Text.lower_letters w → PyStr.replace "_" "" (Text.capitalized w) = Text.capitalized w.
Proof.
  destruct w as [|c w]; [done|]. unfold Text.lower_letters. simpl.
  intros [Hc Hw]%andb_prop. destruct (islower_facts c Hc) as (_ & _ & _ & ->).
  by rewrite replace_lower_letters.
Qed.

(** [title] over a word of lower-case letters: the word is capitalized
    unless a cased character came before, and what follows comes after a
    cased character unless the word is empty. *)
Lemma title_from_lower_letters w : ∀ previous_is_cased rest,
  Text.lower_letters w →
  PyStr.title_from previous_is_cased (w +:+ rest) =
    (if previous_is_cased then w else Text.capitalized w)
    +:+ PyStr.title_from (match w with "" => previous_is_cased | _ => true end) rest.
Proof.
  induction w as [|c w IH]; intros b rest Hw.
  - by destruct b.
  - unfold Text.lower_letters in Hw. simpl in Hw. apply andb_prop in Hw as [Hc Hw].
    destruct (islower_facts c Hc) as (Hlow & Hcased & _).
    rewrite append_cons. simpl. rewrite Hcased, Hlow, (IH true rest Hw).
    assert (Hsame : PyStr.title_from match w with "" => true | _ => true end rest
                    = PyStr.title_from true rest) by (by destruct w).
    rewrite Hsame. by destruct b.
Qed.

Lemma title_from_underscore previous_is_cased s :
  PyStr.title_from previous_is_cased (String "_" s)
  = String "_" (PyStr.title_from false s).
Proof. by destruct previous_is_cased. Qed.

Lemma key_of_words words : ∀ previous_is_cased,
  Forall Text.lower_letters words →
  PyStr.replace "_" "" (PyStr.title_from previous_is_cased (PyStr.join "_" words)) =
    match words with
    | [] => ""
    | w :: ws => (if previous_is_cased then w else Text.capitalized w)
                 +:+ String.concat "" (Text.capitalized <$> ws)
    end.
Proof.
  induction words as [|w ws IH]; intros b Hwords; [done|].
  inversion Hwords as [|? ? Hw Hws]; subst.
  assert (Hfirst : PyStr.replace "_" "" (if b then w else Text.capitalized w)
                   = if b then w else Text.capitalized w).
  { destruct b; [by apply replace_lower_letters | by apply replace_capitalized]. }
  destruct ws as [|w' ws].
  - change (PyStr.join "_" [w]) with w. rewrite <- (append_empty_r w) at 1.
    rewrite title_from_lower_letters, replace_append, Hfirst by done.
    simpl. by destruct w.
  - change (PyStr.join "_" (w :: w' :: ws))
      with (w +:+ String "_" (PyStr.join "_" (w' :: ws))).
    rewrite title_from_lower_letters, replace_append, Hfirst by done.
    f_equal.
    rewrite title_from_underscore.
    change (PyStr.replace "_" "" (String "_" ?x)) with (PyStr.replace "_" "" x).
    rewrite (IH false) by done. rewrite fmap_cons.
    destruct ws; [by rewrite append_empty_r | done].
Qed.

(** X8. The key under which a configured field is looked up in the
    document information: for a field named by words of lower-case letters
    joined by underscores, the key is a slash followed by the words, each
    with its first letter in upper case, with nothing between them. *)
Theorem field_key_of_words words :
  Forall Text.lower_letters words →
  field_key (PyStr.join "_" words) = "/" +:+ String.concat "" (Text.capitalized <$> words).
Proof.
  intros Hwords. unfold field_key, PyStr.title. rewrite key_of_words by done.
  destruct words as [|w ws]; [done|]. rewrite fmap_cons.
  destruct ws; [by rewrite append_empty_r | done].
Qed.

Lemma field_key_of_words_witness :
  Forall Text.lower_letters ["modification"; "date"]
  ∧ field_key "modification_date" = "/ModificationDate".
Proof.
  assert (Hwords : Forall Text.lower_letters ["modification"; "date"]).
  { repeat constructor. }
  split; [exact Hwords|].
  exact (field_key_of_words ["modification"; "date"] Hwords).
Defined.

(** ** Paths and sizes the validator accepts *)

Lemma substring_all s : String.substring 0 (String.length s) s = s.
Proof. induction s as [|c s IH]; [done|]. simpl. by rewrite IH. Qed.

Lemma substring_cut s : ∀ n,
  String.substring 0 n s +:+ String.substring n (String.length s - n) s = s.
Proof.
  induction s as [|c s IH]; intros [|n]; try done.
  - simpl. by rewrite substring_all.
  - simpl. by rewrite append_cons, IH.
Qed.

(** [os.path.splitext] cuts the path in two. *)
Lemma splitext_join p : (OsPath.splitext p).1 +:+ (OsPath.splitext p).2 = p.
Proof.
  unfold OsPath.splitext. destruct (_ && _); simpl.
  - apply substring_cut.
  - apply append_empty_r.
Qed.

(** X9. A path the validator accepts ends with a configured extension, up
    to the case of its letters. *)
Theorem validated_path_extension cfg w file_path s b s' :
  validate_pdf_file cfg w file_path s = (Return b, s') →
  ∃ stem ext,
    file_path = stem +:+ ext
    ∧ PyStr.lower ext ∈ SUPPORTED_EXTENSIONS cfg.
Proof.
  intros Hrun. apply validate_pdf_file_returns in Hrun as (size & _ & Hext & _).
  exists (OsPath.splitext file_path).1, (OsPath.splitext file_path).2.
  split; [symmetry; apply splitext_join | exact Hext].
Qed.

Lemma validated_path_extension_witness :
  validate_pdf_file config (Sample.world (Return (Sample.plain None)))
    "docs/report.PDF" []
  = (Return true, [validation_passed "docs/report.PDF"])
  ∧ ∃ stem ext, "docs/report.PDF" = stem +:+ ext ∧ PyStr.lower ext ∈ [".pdf"].
Proof.
  assert (Hrun : validate_pdf_file config (Sample.world (Return (Sample.plain None)))
                   "docs/report.PDF" []
                 = (Return true, [validation_passed "docs/report.PDF"])).
  { vm_compute. reflexivity. }
  split; [exact Hrun|].
  exact (validated_path_extension config (Sample.world (Return (Sample.plain None)))
           "docs/report.PDF" [] true _ Hrun).
Defined.

Lemma size_allowed_bytes cfg size :
  Spec.size_allowed cfg size ↔ (Z.of_N size <= MAX_FILE_SIZE_MB cfg * 1048576)%Z.
Proof.
  unfold Spec.size_allowed, megabytes, Qle, Qdiv, Qmult, Qinv, inject_Z. simpl.
  lia.
Qed.

(** X10. The size limit in bytes: a path that exists and has a supported
    extension is accepted exactly when its size is at most
    [MAX_FILE_SIZE_MB * 1048576] bytes; a file of exactly that size passes
    and one byte more is refused with a [ValueError]. *)
Theorem validate_size_limit cfg w file_path size s :
  stat w file_path = Some size →
  PyStr.lower (OsPath.splitext file_path).2 ∈ SUPPORTED_EXTENSIONS cfg →
  ((Z.of_N size <= MAX_FILE_SIZE_MB cfg * 1048576)%Z →
     (validate_pdf_file cfg w file_path s).1 = Return true)
  ∧ ((MAX_FILE_SIZE_MB cfg * 1048576 < Z.of_N size)%Z →
       ∃ msg, (validate_pdf_file cfg w file_path s).1 = Raise (mkExc ValueError msg)).
Proof.
  intros Hstat Hext. split; intros Hsize.
  - rewrite (validate_pdf_file_passes cfg w _ size); [done|].
    repeat split; try done. by apply size_allowed_bytes.
  - rewrite (validate_pdf_file_size cfg w _ size); [by eexists | done..|].
    rewrite size_allowed_bytes. lia.
Qed.

Lemma validate_size_limit_witness :
  Sample.files "huge.pdf" = Some 52428801%N
  ∧ PyStr.lower (OsPath.splitext "huge.pdf").2 ∈ SUPPORTED_EXTENSIONS config
  ∧ (MAX_FILE_SIZE_MB config * 1048576 < Z.of_N 52428801)%Z
  ∧ ∃ msg, (validate_pdf_file config (Sample.world (Return (Sample.plain None)))
              "huge.pdf" []).1 = Raise (mkExc ValueError msg).
Proof.
  assert (Hext : PyStr.lower (OsPath.splitext "huge.pdf").2 ∈ SUPPORTED_EXTENSIONS config).
  { apply (bool_decide_unpack _). vm_compute. reflexivity. }
  assert (Hsize : (MAX_FILE_SIZE_MB config * 1048576 < Z.of_N 52428801)%Z).
  { vm_compute. reflexivity. }
  split; [reflexivity|]. split; [exact Hext|]. split; [exact Hsize|].
  apply (validate_size_limit config (Sample.world (Return (Sample.plain None)))
           "huge.pdf" 52428801 [] eq_refl Hext).
  exact Hsize.
Defined.

(** ** What is asked of the reader *)

Lemma reader_calls_app t1 t2 :
  reader_calls (t1 ++ t2) = (reader_calls t1 ++ reader_calls t2)%list.
Proof. apply omap_app. Qed.

Section reader_traces.

Context (cfg : Config) (w : World).

Lemma text_loop_calls num_pages ps : ∀ raw page_num all_text s,
  page_texts ps raw →
  ∃ t, text_loop cfg num_pages page_num ps all_text s =
         (Return (all_text ++ (process_text cfg <$> raw))%list, (s ++ t)%list)
       ∧ reader_calls t = ExtractText <$> seq page_num (length ps).
Proof.
  induction ps as [|page ps IH]; intros raw page_num all_text s Hraw.
  - destruct raw; [|discriminate]. exists []. simpl. by rewrite !app_nil_r.
  - apply page_texts_cons in Hraw as (t & raw' & -> & Ht & Hraw').
    simpl. unfold page_extract_text, logger, perform, lift.
    rewrite !bind_run, Ht. simpl.
    match goal with
    | |- context [text_loop cfg _ _ ps ?acc ?st] =>
        destruct (IH raw' (S page_num) acc st Hraw') as (t' & -> & Hcalls)
    end.
    eexists (_ :: _ :: t'). repeat (rewrite <- app_assoc; simpl).
    split; [reflexivity|]. simpl. by rewrite Hcalls.
Qed.

Lemma pages_loop_calls num_pages ps : ∀ raw page_num pages_data s,
  page_texts ps raw →
  ∃ t, pages_loop cfg num_pages page_num ps pages_data s =
         (Return (pages_data ++ records_from cfg page_num raw)%list, (s ++ t)%list)
       ∧ reader_calls t = ExtractText <$> seq page_num (length ps).
Proof.
  induction ps as [|page ps IH]; intros raw page_num pages_data s Hraw.
  - destruct raw; [|discriminate]. exists []. simpl. by rewrite !app_nil_r.
  - apply page_texts_cons in Hraw as (t & raw' & -> & Ht & Hraw').
    simpl. unfold page_extract_text, logger, perform, lift.
    rewrite !bind_run, Ht. simpl.
    match goal with
    | |- context [pages_loop cfg _ _ ps ?acc ?st] =>
        destruct (IH raw' (S page_num) acc st Hraw') as (t' & -> & Hcalls)
    end.
    eexists (_ :: _ :: t'). repeat (rewrite <- app_assoc; simpl).
    split; [reflexivity|]. simpl. by rewrite Hcalls.
Qed.

Lemma pages_loop_stops num_pages e page after before : ∀ raw page_num pages_data s,
  page_texts before raw →
  extract_text page = Raise e →
  ∃ t, pages_loop cfg num_pages page_num (before ++ page :: after) pages_data s =
         (Raise e, (s ++ t)%list)
       ∧ reader_calls t = ExtractText <$> seq page_num (S (length before)).
Proof.
  induction before as [|p before IH]; intros raw page_num pages_data s Hraw He.
  - simpl. unfold page_extract_text, logger, perform, lift.
    rewrite !bind_run, He. simpl. eexists [_; _].
    repeat (rewrite <- app_assoc; simpl). by split.
  - apply page_texts_cons in Hraw as (t & raw' & -> & Ht & Hraw').
    simpl. unfold page_extract_text, logger, perform, lift.
    rewrite !bind_run, Ht. simpl.
    match goal with
    | |- context [pages_loop cfg _ _ _ ?acc ?st] =>
        destruct (IH raw' (S page_num) acc st Hraw' He) as (t' & -> & Hcalls)
    end.
    eexists (_ :: _ :: t'). repeat (rewrite <- app_assoc; simpl).
    split; [reflexivity|]. simpl. by rewrite Hcalls.
Qed.

End reader_traces.

(** X11. On a valid PDF that is not encrypted, each text operation asks the
    reader to open the file, whether it is encrypted, for the pages (twice:
    to count them and to walk them), and then for the text of each page
    exactly once, in page order; the document information is not read. *)
Theorem text_operations_reader_calls cfg w file_path raw s :
  valid_plain_pdf cfg w file_path raw →
  (∃ t, (extract_text_from_pdf cfg w file_path s).2 = (s ++ t)%list
        ∧ reader_calls t =
            ([Open file_path; IsEncrypted; Pages; Pages]
            ++ (ExtractText <$> seq 1 (length raw)))%list)
  ∧ (∃ t, (extract_text_by_pages cfg w file_path s).2 = (s ++ t)%list
          ∧ reader_calls t =
              ([Open file_path; IsEncrypted; Pages; Pages]
              ++ (ExtractText <$> seq 1 (length raw)))%list).
Proof.
  intros (size & reader & ps & Hvalid & Hopen & Henc & Hpages & Hraw).
  rewrite (page_texts_length ps raw Hraw). split.
  - unfold extract_text_from_pdf, try_except, extract_text_from_pdf_body.
    rewrite bind_run, (validate_pdf_file_passes cfg w _ size) by done.
    unfold open_reader, reader_is_encrypted, reader_pages, logger, perform, lift.
    rewrite !bind_run, Hopen. simpl. rewrite Henc, !bind_run, Hpages. simpl.
    rewrite !bind_run.
    match goal with
    | |- context [text_loop cfg ?n ?k ps ?acc ?st] =>
        destruct (text_loop_calls cfg n ps raw k acc st Hraw) as (t & -> & Hcalls)
    end.
    simpl. repeat (rewrite <- app_assoc; simpl).
    eexists. split; [reflexivity|]. simpl.
    rewrite reader_calls_app, Hcalls. simpl. by rewrite app_nil_r.
  - unfold extract_text_by_pages, try_except, extract_text_by_pages_body.
    rewrite bind_run, (validate_pdf_file_passes cfg w _ size) by done.
    unfold open_reader, reader_is_encrypted, reader_pages, logger, perform, lift.
    rewrite !bind_run, Hopen. simpl. rewrite Henc, !bind_run, Hpages. simpl.
    rewrite !bind_run.
    match goal with
    | |- context [pages_loop cfg ?n ?k ps ?acc ?st] =>
        destruct (pages_loop_calls cfg n ps raw k acc st Hraw) as (t & -> & Hcalls)
    end.
    simpl. repeat (rewrite <- app_assoc; simpl).
    eexists. split; [reflexivity|]. simpl.
    rewrite reader_calls_app, Hcalls. simpl. by rewrite app_nil_r.
Qed.

Lemma text_operations_reader_calls_witness :
  valid_plain_pdf config (Sample.world (Return (Sample.plain None)))
    Sample.report Sample.raw_texts
  ∧ ∃ t, (extract_text_by_pages config (Sample.world (Return (Sample.plain None)))
            Sample.report []).2 = t
      ∧ reader_calls t =
          [Open Sample.report; IsEncrypted; Pages; Pages; ExtractText 1; ExtractText 2].
Proof.
  split; [apply sample_plain_valid|].
  apply (text_operations_reader_calls config (Sample.world (Return (Sample.plain None)))
           Sample.report Sample.raw_texts [] (sample_plain_valid None)).
Defined.

(** X12. When the text of a page cannot be extracted, [extract_text_by_pages]
    stops there: it raises, and the pages after the failing one are never
    asked for their text. *)
Theorem extract_text_by_pages_stops_at_failure
    cfg w file_path size reader before page after raw e s :
  passes_validation cfg w file_path size →
  PdfReader w file_path = Return reader →
  is_encrypted reader = false →
  pages reader = Return (before ++ page :: after)%list →
  page_texts before raw →
  extract_text page = Raise e →
  ∃ e' t, extract_text_by_pages cfg w file_path s = (Raise e', (s ++ t)%list)
    ∧ reader_calls t =
        ([Open file_path; IsEncrypted; Pages; Pages]
        ++ (ExtractText <$> seq 1 (S (length before))))%list.
Proof.
  intros Hvalid Hopen Henc Hpages Hraw He.
  assert (Hbody : ∃ t, extract_text_by_pages_body cfg w file_path s =
                         (Raise e, (s ++ t)%list)
                       ∧ reader_calls t =
                           ([Open file_path; IsEncrypted; Pages; Pages]
                           ++ (ExtractText <$> seq 1 (S (length before))))%list).
  { unfold extract_text_by_pages_body.
    rewrite bind_run, (validate_pdf_file_passes cfg w _ size) by done.
    unfold open_reader, reader_is_encrypted, reader_pages, logger, perform, lift.
    rewrite !bind_run, Hopen. simpl. rewrite Henc, !bind_run, Hpages. simpl.
    rewrite !bind_run.
    match goal with
    | |- context [pages_loop cfg ?n ?k _ ?acc ?st] =>
        destruct (pages_loop_stops cfg n e page after before raw k acc st Hraw He)
          as (t & -> & Hcalls)
    end.
    repeat (rewrite <- app_assoc; simpl).
    eexists. split; [reflexivity|]. simpl. by rewrite Hcalls. }
  destruct Hbody as (t & Hbody & Hcalls).
  rewrite (extract_text_by_pages_handles cfg w _ _ _ _ Hbody).
  destruct (_ || _); [|destruct (isinstance e Exception)];
    rewrite <- ?app_assoc; eexists _, _; (split; [reflexivity|]);
    rewrite ?reader_calls_app, Hcalls; simpl; by rewrite ?app_nil_r.
Qed.

Lemma extract_text_by_pages_stops_at_failure_witness :
  passes_validation config Damaged.world Sample.report 131072
  ∧ ∃ e' t, extract_text_by_pages config Damaged.world Sample.report [] = (Raise e', t)
      ∧ reader_calls t =
          [Open Sample.report; IsEncrypted; Pages; Pages; ExtractText 1; ExtractText 2].
Proof.
  split; [apply sample_report_passes|].
  apply (extract_text_by_pages_stops_at_failure config Damaged.world Sample.report
           131072 Damaged.reader [ {| extract_text := Return "Cover " |} ]
           {| extract_text := Raise Damaged.unreadable |}
           [ {| extract_text := Return "Appendix" |} ] ["Cover "] Damaged.unreadable []
           (sample_report_passes _) eq_refl eq_refl eq_refl eq_refl eq_refl).
Defined.

(** ** [get_pdf_metadata] and the reader *)

Lemma no_text_call_nil : no_text_call [].
Proof. intros n Hin. by apply elem_of_nil in Hin. Qed.

Lemma no_text_call_app t1 t2 :
  no_text_call t1 → no_text_call t2 → no_text_call (t1 ++ t2)%list.
Proof. intros H1 H2 n [Hin|Hin]%elem_of_app; [by apply (H1 n) | by apply (H2 n)]. Qed.

Ltac no_text_call_one :=
  let n := fresh in let Hin := fresh in
  intros n Hin; apply list_elem_of_singleton in Hin; discriminate Hin.

Ltac emits_no_text_call :=
  repeat first
    [ apply (emits_ret no_text_call no_text_call_nil)
    | apply (emits_raise no_text_call no_text_call_nil)
    | apply (emits_lift no_text_call no_text_call_nil)
    | apply (emits_perform no_text_call); no_text_call_one
    | apply (emits_bind no_text_call no_text_call_app); [|intros ?]
    | progress unfold logger, os_path_getsize, open_reader, reader_is_encrypted,
        reader_pages, reader_metadata, subscript
    | case_match ].

Lemma get_pdf_metadata_no_text_call cfg w file_path :
  emits no_text_call (get_pdf_metadata cfg w file_path).
Proof.
  apply (emits_try_except no_text_call no_text_call_app).
  - unfold get_pdf_metadata_body, validate_pdf_file. emits_no_text_call.
  - intros cl e Hcl. repeat (apply elem_of_cons in Hcl as [->|Hcl]); simpl;
      [emits_no_text_call.. | by apply elem_of_nil in Hcl].
Qed.

(** X13. [get_pdf_metadata] never asks for the text of a page, whatever the
    file and the reader do; on a valid PDF it asks the reader, in this
    order, to open the file, for the pages, whether the document is
    encrypted, and for the document information, each once. *)
Theorem get_pdf_metadata_reader_calls cfg w file_path s :
  ∃ t, (get_pdf_metadata cfg w file_path s).2 = (s ++ t)%list
    ∧ no_text_call t
    ∧ (∀ size page_count encrypted info,
         valid_pdf_info cfg w file_path size page_count encrypted info →
         reader_calls t = [Open file_path; Pages; IsEncrypted; Metadata]).
Proof.
  destruct (get_pdf_metadata_no_text_call cfg w file_path) as [Hno Hframe].
  exists (get_pdf_metadata cfg w file_path []).2.
  split; [by rewrite (Hframe s)|]. split; [exact Hno|].
  intros size n enc info (reader & ps & Hvalid & Hopen & Hpages & Hlen & Henc & Hinfo).
  pose proof Hvalid as (Hstat & _ & _).
  assert (Hcount : is_Some (with_document_information cfg info
                              (file_information w file_path size n enc) !! "page_count")).
  { unfold with_document_information. destruct (truthy info).
    - apply foldl_set_field_is_Some. unfold file_information.
      rewrite lookup_insert_ne, lookup_insert_eq by done. eauto.
    - unfold file_information.
      rewrite lookup_insert_ne, lookup_insert_eq by done. eauto. }
  unfold get_pdf_metadata, try_except, get_pdf_metadata_body.
  rewrite bind_run, (validate_pdf_file_passes cfg w _ size) by done.
  unfold open_reader, reader_is_encrypted, reader_pages, reader_metadata,
    os_path_getsize, logger, perform, lift.
  rewrite !bind_run, Hopen. simpl. rewrite Hstat, !bind_run. simpl.
  rewrite Hpages, !bind_run. simpl. rewrite Hinfo, !bind_run, Hlen, Henc.
  fold (file_information w file_path size n enc).
  fold (with_document_information cfg info (file_information w file_path size n enc)).
  unfold subscript. destruct Hcount as [v ->]. reflexivity.
Qed.

(** ** Errors as the caller sees them *)

Lemma isinstance_Exception e :
  isinstance e FileNotFoundError || isinstance e ValueError = true →
  isinstance e Exception = true.
Proof. destruct e as [[] msg]; vm_compute; intros H; done. Qed.

(** The run of an operation, from the run of its body: a returning body is
    the run; a raising body goes through the clauses. *)
Lemma try_except_returns {A} (body : Py A) clauses a s s' :
  body s = (Return a, s') → try_except body clauses s = (Return a, s').
Proof. intros Hbody. unfold try_except. by rewrite Hbody. Qed.

Section caller_view.

Context (cfg : Config) (w : World).

(** What an operation does, given that its body is calm and how its clauses
    treat an exception of the body ([context] is what the generic clause
    puts before the message). *)
Lemma operation_outcome {A} (body op : Py A) (context : string) s :
  emits calm body →
  (∀ a s', body s = (Return a, s') → op s = (Return a, s')) →
  (∀ e s', body s = (Raise e, s') →
     (op s = (Raise e, s') ∧ isinstance e Exception = false)
     ∨ (∃ msg, op s = (Raise e, (s' ++ [LoggerCall ERROR msg])%list)
               ∧ isinstance e FileNotFoundError || isinstance e ValueError = true)
     ∨ (∃ msg, op s = (Raise (failed context e), (s' ++ [LoggerCall ERROR msg])%list)
               ∧ isinstance e FileNotFoundError || isinstance e ValueError = false)) →
  ∃ t, op s = ((op s).1, (s ++ t)%list)
    ∧ error_logs t = expected_error_logs (op s).1
    ∧ (∀ e', (op s).1 = Raise e' →
         isinstance e' Exception = true →
         isinstance e' FileNotFoundError || isinstance e' ValueError = false →
         ∃ e, e' = failed context e).
Proof.
  intros [Hcalm Hframe] Hret Hraise.
  destruct (body []) as [[a|e] t0] eqn:Hnil; simpl in *.
  - rewrite (Hret a _ (Hframe s)). simpl. exists t0. repeat split; try done.
  - destruct (Hraise e _ (Hframe s))
      as [[-> Hbase] | [(msg & -> & Hcls) | (msg & -> & Hcls)]]; simpl.
    + exists t0. rewrite Hbase. repeat split; try done.
      intros e' [= <-] He'. congruence.
    + exists (t0 ++ [LoggerCall ERROR msg])%list. rewrite app_assoc.
      rewrite (isinstance_Exception e Hcls), error_logs_app, Hcalm.
      repeat split; try done. intros e' [= <-] _ He'. congruence.
    + exists (t0 ++ [LoggerCall ERROR msg])%list. rewrite app_assoc.
      rewrite error_logs_app, Hcalm. repeat split; try done.
      intros e' [= <-] _ _. by exists e.
Qed.

Lemma extract_text_from_pdf_outcome file_path s :
  ∃ t, extract_text_from_pdf cfg w file_path s =
         ((extract_text_from_pdf cfg w file_path s).1, (s ++ t)%list)
    ∧ error_logs t = expected_error_logs (extract_text_from_pdf cfg w file_path s).1
    ∧ (∀ e', (extract_text_from_pdf cfg w file_path s).1 = Raise e' →
         isinstance e' Exception = true →
         isinstance e' FileNotFoundError || isinstance e' ValueError = false →
         ∃ e, e' = failed "Failed to extract text: " e).
Proof.
  apply (operation_outcome (extract_text_from_pdf_body cfg w file_path)).
  - apply extract_text_from_pdf_body_calm.
  - intros a s'. apply try_except_returns.
  - intros e s' Hbody. rewrite (extract_text_from_pdf_handles cfg w _ _ _ _ Hbody).
    destruct (isinstance e FileNotFoundError) eqn:Hfnf;
      [|destruct (isinstance e ValueError) eqn:Hval;
        [|destruct (isinstance e Exception) eqn:Hexc]]; simpl; eauto 6.
Qed.

Lemma extract_text_by_pages_outcome file_path s :
  ∃ t, extract_text_by_pages cfg w file_path s =
         ((extract_text_by_pages cfg w file_path s).1, (s ++ t)%list)
    ∧ error_logs t = expected_error_logs (extract_text_by_pages cfg w file_path s).1
    ∧ (∀ e', (extract_text_by_pages cfg w file_path s).1 = Raise e' →
         isinstance e' Exception = true →
         isinstance e' FileNotFoundError || isinstance e' ValueError = false →
         ∃ e, e' = failed "Failed to extract text by pages: " e).
Proof.
  apply (operation_outcome (extract_text_by_pages_body cfg w file_path)).
  - apply extract_text_by_pages_body_calm.
  - intros a s'. apply try_except_returns.
  - intros e s' Hbody. rewrite (extract_text_by_pages_handles cfg w _ _ _ _ Hbody).
    destruct (isinstance e FileNotFoundError || isinstance e ValueError) eqn:Hcls;
      [|destruct (isinstance e Exception) eqn:Hexc]; simpl; eauto 6.
Qed.

Lemma get_pdf_metadata_outcome file_path s :
  ∃ t, get_pdf_metadata cfg w file_path s =
         ((get_pdf_metadata cfg w file_path s).1, (s ++ t)%list)
    ∧ error_logs t = expected_error_logs (get_pdf_metadata cfg w file_path s).1
    ∧ (∀ e', (get_pdf_metadata cfg w file_path s).1 = Raise e' →
         isinstance e' Exception = true →
         isinstance e' FileNotFoundError || isinstance e' ValueError = false →
         ∃ e, e' = failed "Failed to extract metadata: " e).
Proof.
  apply (operation_outcome (get_pdf_metadata_body cfg w file_path)).
  - apply get_pdf_metadata_body_calm.
  - intros a s'. apply try_except_returns.
  - intros e s' Hbody. rewrite (get_pdf_metadata_handles cfg w _ _ _ _ Hbody).
    destruct (isinstance e FileNotFoundError || isinstance e ValueError) eqn:Hcls;
      [|destruct (isinstance e Exception) eqn:Hexc]; simpl; eauto 6.
Qed.

End caller_view.

(** X14. One error logged per failure: an operation that returns has made
    no [logger.error] call, and one that raises an instance of [Exception]
    has made exactly one, whatever the file and the reader do. *)
Theorem one_error_log_per_failure cfg w file_path s :
  (∃ t, (extract_text_from_pdf cfg w file_path s).2 = (s ++ t)%list
        ∧ error_logs t = expected_error_logs (extract_text_from_pdf cfg w file_path s).1)
  ∧ (∃ t, (extract_text_by_pages cfg w file_path s).2 = (s ++ t)%list
          ∧ error_logs t = expected_error_logs (extract_text_by_pages cfg w file_path s).1)
  ∧ (∃ t, (get_pdf_metadata cfg w file_path s).2 = (s ++ t)%list
          ∧ error_logs t = expected_error_logs (get_pdf_metadata cfg w file_path s).1).
Proof.
  split; [|split].
  - destruct (extract_text_from_pdf_outcome cfg w file_path s) as (t & Hrun & Hlogs & _).
    exists t. split; [by rewrite Hrun | done].
  - destruct (extract_text_by_pages_outcome cfg w file_path s) as (t & Hrun & Hlogs & _).
    exists t. split; [by rewrite Hrun | done].
  - destruct (get_pdf_metadata_outcome cfg w file_path s) as (t & Hrun & Hlogs & _).
    exists t. split; [by rewrite Hrun | done].
Qed.

(** X15. The exceptions a caller can meet: an exception an operation raises
    that is an [Exception] but neither a [FileNotFoundError] nor a
    [ValueError] is always a plain [Exception] made by the generic clause,
    whose message starts with the context of the operation; no other class
    of the reader or the system (an [OSError], a [KeyError], a
    [PdfReadError]) reaches the caller as such. *)
Theorem raised_exception_kinds cfg w file_path s e' :
  isinstance e' Exception = true →
  isinstance e' FileNotFoundError || isinstance e' ValueError = false →
  ((extract_text_from_pdf cfg w file_path s).1 = Raise e' →
     ∃ e, e' = mkExc Exception ("Failed to extract text: " +:+ exc_str e))
  ∧ ((extract_text_by_pages cfg w file_path s).1 = Raise e' →
       ∃ e, e' = mkExc Exception ("Failed to extract text by pages: " +:+ exc_str e))
  ∧ ((get_pdf_metadata cfg w file_path s).1 = Raise e' →
       ∃ e, e' = mkExc Exception ("Failed to extract metadata: " +:+ exc_str e)).
Proof.
  intros Hexc Hcls. split; [|split]; intros Hrun.
  - destruct (extract_text_from_pdf_outcome cfg w file_path s) as (_ & _ & _ & Hkind).
    by apply Hkind.
  - destruct (extract_text_by_pages_outcome cfg w file_path s) as (_ & _ & _ & Hkind).
    by apply Hkind.
  - destruct (get_pdf_metadata_outcome cfg w file_path s) as (_ & _ & _ & Hkind).
    by apply Hkind.
Qed.

Lemma raised_exception_kinds_witness :
  isinstance (mkExc Exception "Failed to extract text by pages: '/Contents'") Exception = true
  ∧ (extract_text_by_pages config Damaged.world Sample.report []).1
    = Raise (mkExc Exception "Failed to extract text by pages: '/Contents'")
  ∧ ∃ e, mkExc Exception "Failed to extract text by pages: '/Contents'"
         = mkExc Exception ("Failed to extract text by pages: " +:+ exc_str e).
Proof.
  assert (Hrun : (extract_text_by_pages config Damaged.world Sample.report []).1
                 = Raise (mkExc Exception "Failed to extract text by pages: '/Contents'")).
  { vm_compute. reflexivity. }
  split; [reflexivity|]. split; [exact Hrun|].
  destruct (raised_exception_kinds config Damaged.world Sample.report []
              (mkExc Exception "Failed to extract text by pages: '/Contents'")
              eq_refl eq_refl) as (_ & Hpages & _).
  exact (Hpages Hrun).
Defined.

(** ** The keys of the metadata record *)

Lemma dom_set_field info (md : gmap string PyValue) field :
  dom (set_field info md field) = {[field]} ∪ dom md.
Proof. unfold set_field. destruct (info !! field_key field); apply dom_insert_L. Qed.

Lemma dom_foldl_set_field info fields : ∀ md : gmap string PyValue,
  dom (foldl (set_field info) md fields) = dom md ∪ list_to_set fields.
Proof.
  induction fields as [|f fields IH]; intros md; simpl.
  - by rewrite (right_id_L ∅ (∪)).
  - rewrite IH, dom_set_field, (comm_L (∪) {[f]} (dom md)).
    by rewrite <- (assoc_L (∪)).
Qed.

Lemma dom_file_information w file_path size n enc :
  dom (file_information w file_path size n enc) = list_to_set basic_keys.
Proof.
  unfold file_information, basic_keys. rewrite !dom_insert_L, dom_empty_L. simpl.
  apply set_eq. intros k. rewrite !elem_of_union, !elem_of_singleton, elem_of_empty.
  tauto.
Qed.

(** X16. The keys of the record [get_pdf_metadata] returns are the five
    keys of the file information together with either all the configured
    fields (when the reader gave a document-info dictionary that is not
    empty) or none of them; the record has no other key. *)
Theorem metadata_record_keys cfg w file_path s md :
  (get_pdf_metadata cfg w file_path s).1 = Return md →
  ∃ info, has_info w file_path info
    ∧ dom md =
        list_to_set basic_keys
        ∪ (if truthy info then list_to_set (METADATA_FIELDS cfg) else ∅).
Proof.
  intros Hrun. apply get_pdf_metadata_return_cases in Hrun
    as (size & n & enc & info & Hvalid & ->).
  exists info. split.
  - destruct Hvalid as (reader & ps & _ & Hopen & _ & _ & _ & Hinfo). by exists reader.
  - unfold with_document_information. destruct (truthy info).
    + by rewrite dom_foldl_set_field, dom_file_information.
    + by rewrite dom_file_information, (right_id_L ∅ (∪)).
Qed.

Lemma metadata_record_keys_witness :
  ∃ md, (get_pdf_metadata config (Sample.world (Return (Sample.plain None)))
           Sample.report []).1 = Return md
    ∧ ∃ info, has_info (Sample.world (Return (Sample.plain None))) Sample.report info
        ∧ dom md =
            list_to_set basic_keys
            ∪ (if truthy info then list_to_set (METADATA_FIELDS config) else ∅).
Proof.
  eexists. split; [apply (get_pdf_metadata_returns _ _ _ _ _ _ _ _ (sample_plain_info None))|].
  apply (metadata_record_keys config (Sample.world (Return (Sample.plain None)))
           Sample.report []).
  apply (get_pdf_metadata_returns _ _ _ _ _ _ _ _ (sample_plain_info None)).
Defined.

(** ** The extension of a path *)

Lemma length_append' s t :
  String.length (s +:+ t) = (String.length s + String.length t)%nat.
Proof. induction s as [|c s IH]; [done|]. rewrite append_cons. simpl. by rewrite IH. Qed.

Lemma rfind_from_append c s : ∀ i found t,
  PyStr.rfind_from i found c (s +:+ t) =
    PyStr.rfind_from (i + Z.of_nat (String.length s)) (PyStr.rfind_from i found c s) c t.
Proof.
  induction s as [|d s IH]; intros i found t.
  - simpl. by rewrite Z.add_0_r.
  - rewrite append_cons. simpl PyStr.rfind_from. rewrite IH. f_equal.
    simpl String.length. lia.
Qed.

Lemma rfind_from_lacks c s : ∀ i found,
  lacks c s → PyStr.rfind_from i found c s = found.
Proof.
  induction s as [|d s IH]; intros i found Hs; [done|].
  unfold lacks in Hs. simpl in Hs. apply andb_prop in Hs as [Hd Hs].
  apply negb_true_iff in Hd. simpl. rewrite Hd. by apply IH.
Qed.

Lemma rfind_from_bounds c s : ∀ i found,
  -1 <= found < i →
  -1 <= PyStr.rfind_from i found c s < i + Z.of_nat (String.length s).
Proof.
  induction s as [|d s IH]; intros i found Hfound; simpl PyStr.rfind_from.
  - simpl. lia.
  - destruct (Ascii.eqb d c).
    + specialize (IH (i + 1) i). simpl String.length. lia.
    + specialize (IH (i + 1) found). simpl String.length. lia.
Qed.

Lemma substring_append_l s : ∀ n m t,
  (n + m <= String.length s)%nat →
  String.substring n m (s +:+ t) = String.substring n m s.
Proof.
  induction s as [|c s IH]; intros n m t Hlen.
  - simpl in Hlen. assert (n = 0 ∧ m = 0)%nat as [-> ->] by lia. by destruct t.
  - rewrite append_cons. destruct n as [|n]; simpl.
    + destruct m as [|m]; [done|]. simpl in Hlen. rewrite IH by lia. done.
    + simpl in Hlen. apply IH. lia.
Qed.

Lemma substring_append_r s : ∀ t,
  String.substring (String.length s) (String.length t) (s +:+ t) = t.
Proof.
  induction s as [|c s IH]; intros t; [apply substring_all|].
  rewrite append_cons. simpl. apply IH.
Qed.

(** What [os.path.splitext] takes for the extension of a path
    [stem.ext], where [ext] has no dot and no slash: it is [.ext] when the
    last component of [stem] has a character other than a dot, and it is
    empty when that component is empty or made of dots only (a hidden file
    such as [.pdf] has no extension). *)
Lemma splitext_of_dotted_name stem ext :
  lacks "." ext →
  lacks "/" ext →
  OsPath.splitext (stem +:+ String "." ext) =
    if OsPath.has_non_dot (OsPath.basename stem)
    then (stem, String "." ext)
    else (stem +:+ String "." ext, "").
Proof.
  intros Hdot Hsep. unfold OsPath.splitext, OsPath.basename, PyStr.rfind.
  rewrite !rfind_from_append. simpl PyStr.rfind_from.
  rewrite (rfind_from_lacks "." ext), (rfind_from_lacks "/" ext) by done.
  rewrite Z.add_0_l.
  pose proof (rfind_from_bounds "/" stem 0 (-1) ltac:(lia)) as Hj.
  set (j := PyStr.rfind_from 0 (-1) "/" stem) in *.
  assert (Hlt : (j <? Z.of_nat (String.length stem)) = true) by (apply Z.ltb_lt; lia).
  rewrite Hlt. simpl andb.
  assert (Hslice : PyStr.slice (j + 1) (Z.of_nat (String.length stem))
                     (stem +:+ String "." ext) = PyStr.from (j + 1) stem).
  { unfold PyStr.slice, PyStr.from. rewrite Nat2Z.id. apply substring_append_l. lia. }
  rewrite Hslice. destruct (OsPath.has_non_dot _); [|done].
  unfold PyStr.upto, PyStr.from. rewrite Nat2Z.id, length_append'.
  f_equal.
  - rewrite substring_append_l by lia. apply substring_all.
  - replace (String.length stem + String.length (String "." ext) - String.length stem)%nat
      with (String.length (String "." ext)) by lia.
    apply substring_append_r.
Qed.

Example splitext_of_dotted_name_ex :
  lacks "." "PDF" ∧ lacks "/" "PDF"
  ∧ OsPath.splitext "docs/report.PDF" = ("docs/report", ".PDF")
  ∧ OsPath.splitext "docs/.PDF" = ("docs/.PDF", "").
Proof.
  split; [reflexivity|]. split; [reflexivity|]. split.
  - exact (splitext_of_dotted_name "docs/report" "PDF" eq_refl eq_refl).
  - exact (splitext_of_dotted_name "docs/" "PDF" eq_refl eq_refl).
Defined.

(** X17. The validator on a path [stem.ext] that exists ([ext] without dot
    or slash): when the last component of [stem] has a character other than
    a dot, the path is judged by [.ext] in lower case, and accepted if that
    is configured and the size allowed; when that component is empty or only
    dots (a hidden file such as [docs/.pdf]), the validator sees no
    extension and refuses the path, unless the empty extension is
    configured. *)
Theorem validate_dotted_name cfg w stem ext size s :
  lacks "." ext →
  lacks "/" ext →
  stat w (stem +:+ String "." ext) = Some size →
  (OsPath.has_non_dot (OsPath.basename stem) = true →
     PyStr.lower (String "." ext) ∈ SUPPORTED_EXTENSIONS cfg →
     Spec.size_allowed cfg size →
     (validate_pdf_file cfg w (stem +:+ String "." ext) s).1 = Return true)
  ∧ (OsPath.has_non_dot (OsPath.basename stem) = false →
       "" ∉ SUPPORTED_EXTENSIONS cfg →
       (validate_pdf_file cfg w (stem +:+ String "." ext) s).1 =
         Raise (mkExc ValueError "Unsupported file type: . Expected PDF file.")).
Proof.
  intros Hdot Hsep Hstat.
  pose proof (splitext_of_dotted_name stem ext Hdot Hsep) as Hsplit.
  split; intros Hname; rewrite Hname in Hsplit.
  - intros Hext Hsize.
    rewrite (validate_pdf_file_passes cfg w _ size); [done|].
    split; [done|]. split; [by rewrite Hsplit | done].
  - intros Hext.
    rewrite (validate_pdf_file_extension cfg w _ size); rewrite ?Hsplit; done.
Qed.

Lemma validate_dotted_name_witness :
  lacks "." "PDF" ∧ lacks "/" "PDF"
  ∧ Sample.files "docs/report.PDF" = Some 131072%N
  ∧ (validate_pdf_file config (Sample.world (Return (Sample.plain None)))
       "docs/report.PDF" []).1 = Return true.
Proof.
  split; [reflexivity|]. split; [reflexivity|]. split; [reflexivity|].
  destruct (validate_dotted_name config (Sample.world (Return (Sample.plain None)))
              "docs/report" "PDF" 131072 [] eq_refl eq_refl eq_refl) as [Hok _].
  apply Hok; [reflexivity | | ].
  - apply (bool_decide_unpack _). vm_compute. reflexivity.
  - vm_compute. discriminate.
Defined.

(** ** The callers *)

Lemma script_bind_run {A B} (m : Script.Script A) (k : A → Script.Script B) p :
  (m ≫= k) p =
    match m p with
    | (Return a, p') => k a p'
    | (Raise e, p') => (Raise e, p')
    end.
Proof. reflexivity. Qed.

(** The verdict of the error-handling test, from the outcome of the call. *)
Lemma test_error_handling_run cfg w p :
  (test_error_handling cfg w p).1 =
    match (extract_text_from_pdf cfg w "nonexistent.pdf" (Script.actions p)).1 with
    | Return _ => Return false
    | Raise e =>
        if isinstance e FileNotFoundError then Return true
        else if isinstance e Exception then Return false
        else Raise e
    end.
Proof.
  unfold test_error_handling, print_header, Script.try_except, Script.call, Script.print.
  rewrite !script_bind_run. simpl.
  destruct (extract_text_from_pdf cfg w "nonexistent.pdf" (Script.actions p))
    as [[txt|e] s']; simpl; [reflexivity|].
  destruct (isinstance e FileNotFoundError); [reflexivity|].
  destruct (isinstance e Exception); reflexivity.
Qed.

(** X18. The error-handling test of the repository: it returns [True]
    whenever no file named [nonexistent.pdf] exists, it returns [False] when
    a valid PDF that is not encrypted sits at that path, and the only
    exceptions it lets through are those that are not instances of
    [Exception]. *)
Theorem test_error_handling_verdict cfg w p :
  (stat w "nonexistent.pdf" = None →
     (test_error_handling cfg w p).1 = Return true)
  ∧ (∀ raw, valid_plain_pdf cfg w "nonexistent.pdf" raw →
       (test_error_handling cfg w p).1 = Return false)
  ∧ (∀ e, (test_error_handling cfg w p).1 = Raise e →
       isinstance e Exception = false).
Proof.
  rewrite test_error_handling_run. split; [|split].
  - intros Hstat.
    destruct (validation_failure_run cfg w "nonexistent.pdf" _
                (Script.actions p) _ (validate_pdf_file_missing cfg w _ _ Hstat))
      as ([msg ->] & _). reflexivity.
  - intros raw Hvalid.
    by rewrite (extract_text_from_pdf_returns cfg w _ raw).
  - intros e.
    destruct (extract_text_from_pdf cfg w "nonexistent.pdf" (Script.actions p)).1
      as [txt|e0]; [discriminate|].
    destruct (isinstance e0 FileNotFoundError); [discriminate|].
    destruct (isinstance e0 Exception) eqn:Hexc; [discriminate|].
    by intros [= <-].
Qed.

Lemma run_print {B} line (k : unit → Script.Script B) p :
  (Script.print line ≫= k) p =
    k tt {| Script.stdout := (Script.stdout p ++ [line])%list;
            Script.actions := Script.actions p |}.
Proof. reflexivity. Qed.

Lemma run_call {A B} (m : Py A) (k : A → Script.Script B) p :
  (Script.call m ≫= k) p =
    match (m (Script.actions p)).1 with
    | Return a => k a {| Script.stdout := Script.stdout p;
                         Script.actions := (m (Script.actions p)).2 |}
    | Raise e => (Raise e, {| Script.stdout := Script.stdout p;
                              Script.actions := (m (Script.actions p)).2 |})
    end.
Proof.
  rewrite script_bind_run. unfold Script.call.
  by destruct (m (Script.actions p)).1.
Qed.

Lemma subscript_run md key v s :
  md !! key = Some v → subscript md key s = (Return v, s).
Proof. intros Hkey. unfold subscript. by rewrite Hkey. Qed.

Lemma basic_key_is_Some cfg w file_path size n enc info k :
  k ∈ basic_keys →
  is_Some (with_document_information cfg info
             (file_information w file_path size n enc) !! k).
Proof.
  intros Hk. apply elem_of_dom. unfold with_document_information.
  destruct (truthy info).
  - rewrite dom_foldl_set_field, dom_file_information.
    apply elem_of_union_l. by apply elem_of_list_to_set.
  - rewrite dom_file_information. by apply elem_of_list_to_set.
Qed.

Lemma print_pages_returns pages : ∀ p,
  ∃ out, print_pages pages p =
           (Return tt, {| Script.stdout := out; Script.actions := Script.actions p |}).
Proof.
  induction pages as [|page rest IH]; intros p.
  - exists (Script.stdout p). by destruct p.
  - simpl print_pages. rewrite run_print.
    match goal with
    | |- context [print_pages rest ?q] => destruct (IH q) as [out ->]
    end.
    by exists out.
Qed.

Lemma valid_plain_has_info cfg w file_path raw info :
  valid_plain_pdf cfg w file_path raw →
  has_info w file_path info →
  ∃ size, valid_pdf_info cfg w file_path size (length raw) false info.
Proof.
  intros (size & reader & ps & Hpass & Hopen & Henc & Hpages & Hraw)
         (reader' & Hopen' & Hinfo).
  assert (reader' = reader) as -> by congruence.
  exists size, reader, ps. split; [exact Hpass|]. split; [exact Hopen|].
  split; [exact Hpages|]. split; [symmetry; by apply page_texts_length|].
  by split.
Qed.

(** The example script runs to its end exactly when its sample file is a
    valid PDF that is not encrypted, all of whose pages give their text and
    whose document information can be read. *)
Lemma main_completes cfg w p :
  (main cfg w p).1 = Return tt ↔
  ∃ raw info,
    valid_plain_pdf cfg w "data/sample_pdfs/sample1.pdf" raw
    ∧ has_info w "data/sample_pdfs/sample1.pdf" info.
Proof.
  unfold main. cbv zeta.
  set (pdf := "data/sample_pdfs/sample1.pdf").
  rewrite !run_print, run_call. cbn [Script.actions].
  destruct (get_pdf_metadata cfg w pdf (Script.actions p)) as [[md|e] s1] eqn:H1;
    cbn [fst snd].
  2: { split; [discriminate|]. intros (raw & info & Hvalid & Hinfo).
       destruct (valid_plain_has_info cfg w pdf raw info Hvalid Hinfo) as [size Hvi].
       pose proof (get_pdf_metadata_returns cfg w pdf _ _ _ _ (Script.actions p) Hvi) as Hr.
       rewrite H1 in Hr. discriminate. }
  assert (H1' : (get_pdf_metadata cfg w pdf (Script.actions p)).1 = Return md)
    by (by rewrite H1).
  apply get_pdf_metadata_return_cases in H1' as (size & n & enc & info & Hvi & ->).
  destruct (basic_key_is_Some cfg w pdf size n enc info "file_name") as [v1 Hv1];
    [apply (bool_decide_unpack _); vm_compute; reflexivity|].
  destruct (basic_key_is_Some cfg w pdf size n enc info "page_count") as [v2 Hv2];
    [apply (bool_decide_unpack _); vm_compute; reflexivity|].
  destruct (basic_key_is_Some cfg w pdf size n enc info "file_size_mb") as [v3 Hv3];
    [apply (bool_decide_unpack _); vm_compute; reflexivity|].
  rewrite run_call. cbn [Script.actions]. rewrite (subscript_run _ _ _ _ Hv1).
  cbn [fst snd]. rewrite run_print, run_call. cbn [Script.actions].
  rewrite (subscript_run _ _ _ _ Hv2). cbn [fst snd].
  rewrite run_print, run_call. cbn [Script.actions].
  rewrite (subscript_run _ _ _ _ Hv3). cbn [fst snd].
  rewrite !run_print, run_call. cbn [Script.actions].
  destruct (extract_text_from_pdf cfg w pdf s1) as [[full_text|e] s2] eqn:H2;
    cbn [fst snd].
  2: { split; [discriminate|]. intros (raw & info' & Hvalid & _).
       pose proof (extract_text_from_pdf_returns cfg w pdf raw s1 Hvalid) as Hr.
       rewrite H2 in Hr. discriminate. }
  assert (H2' : (extract_text_from_pdf cfg w pdf s1).1 = Return full_text)
    by (by rewrite H2).
  apply (proj1 (text_operations_return_cases cfg w pdf s1)) in H2' as (raw & Hvalid & _).
  rewrite !run_print, run_call. cbn [Script.actions].
  rewrite (extract_text_by_pages_returns cfg w pdf raw s2 Hvalid).
  rewrite script_bind_run.
  match goal with
  | |- context [print_pages ?pages ?q] =>
      destruct (print_pages_returns pages q) as [out ->]
  end.
  rewrite !run_print. unfold Script.print. cbn [fst].
  split; [|done]. intros _. exists raw, info. split; [done|].
  destruct Hvi as (reader & ps & _ & Hopen & _ & _ & _ & Hinfo). by exists reader.
Qed.

(** ** More on the processed text *)

Lemma concat_words_empty words :
  Forall Text.word words → String.concat "" words = "" → words = [].
Proof.
  intros Hwords Hempty. destruct words as [|w ws]; [done|].
  inversion Hwords as [|? ? [Hne _] _]; subst.
  destruct w as [|c w]; [done|].
  change (String.concat "") with (PyStr.join "") in Hempty.
  by rewrite join_cons_char in Hempty.
Qed.

Lemma visible_process_text s :
  Text.visible (PyStr.join " " (PyStr.split s)) = Text.visible s.
Proof.
  rewrite visible_join.
  - symmetry. apply visible_split.
  - eapply Forall_impl; [apply split_words|]. by intros w [_ Hw].
Qed.

(** X20. A page without visible text: with whitespace normalization on,
    the processed text of a page is empty exactly when the raw text has no
    character other than whitespace (in particular when it is empty). *)
Theorem blank_page_empty_text cfg s :
  REMOVE_EXTRA_WHITESPACE cfg = true →
  process_text cfg s = "" ↔ Text.visible s = "".
Proof.
  intros Hws. unfold process_text. rewrite Hws. split.
  - intros Hempty. by rewrite <- visible_process_text, Hempty.
  - intros Hblank.
    assert (Hnone : PyStr.split s = []).
    { apply concat_words_empty; [apply split_words|].
      unfold PyStr.split. by rewrite <- (proj1 (visible_split s)). }
    by rewrite Hnone.
Qed.

Lemma blank_page_empty_text_witness :
  REMOVE_EXTRA_WHITESPACE config = true
  ∧ Text.visible (String "010" (String "009" "  ")) = ""
  ∧ process_text config (String "010" (String "009" "  ")) = "".
Proof.
  split; [reflexivity|]. split; [reflexivity|].
  apply (blank_page_empty_text config (String "010" (String "009" "  ")) eq_refl).
  reflexivity.
Defined.

Lemma length_collapse_runs s : ∀ in_run,
  (String.length (Spec.collapse_runs in_run s) <= String.length s)%nat.
Proof.
  induction s as [|c s IH]; intros b; simpl; [done|].
  pose proof (IH true). pose proof (IH false).
  destruct (PyStr.isspace c); [destruct b|]; simpl; lia.
Qed.

Lemma length_trim_leading s :
  (String.length (Spec.trim_leading s) <= String.length s)%nat.
Proof.
  induction s as [|c s IH]; simpl; [done|].
  destruct (PyStr.isspace c); simpl; lia.
Qed.

Lemma length_trim_trailing s :
  (String.length (Spec.trim_trailing s) <= String.length s)%nat.
Proof.
  induction s as [|c s IH]; simpl; [done|]. revert IH.
  destruct (Spec.trim_trailing s); [destruct (PyStr.isspace c)|]; simpl; lia.
Qed.

(** X21. The text processing never lengthens a text: the processed text of
    a page, and so the [char_count] of its record, is at most as long as
    the raw text the reader gave. *)
Theorem process_text_never_longer cfg s :
  (PyStr.len (process_text cfg s) <= PyStr.len s)%nat.
Proof.
  unfold process_text, PyStr.len. destruct (REMOVE_EXTRA_WHITESPACE cfg); [|done].
  rewrite join_split_normalizes. unfold Spec.normalize_whitespace.
  pose proof (length_trim_trailing (Spec.trim_leading (Spec.collapse_runs false s))).
  pose proof (length_trim_leading (Spec.collapse_runs false s)).
  pose proof (length_collapse_runs s false). lia.
Qed.

(** ** The operations agree with each other *)

(** X22. Whenever [extract_text_by_pages] and [get_pdf_metadata] both
    return for a file (with [page_count] and [is_encrypted] not among the
    configured field names), the record says the document is not encrypted
    and its [page_count] is the number of page records. *)
Theorem metadata_agrees_with_pages cfg w file_path s1 s2 pages_data md :
  "page_count" ∉ METADATA_FIELDS cfg →
  "is_encrypted" ∉ METADATA_FIELDS cfg →
  (extract_text_by_pages cfg w file_path s1).1 = Return pages_data →
  (get_pdf_metadata cfg w file_path s2).1 = Return md →
  md !! "is_encrypted" = Some (VBool false)
  ∧ md !! "page_count" = Some (VInt (Z.of_nat (length pages_data))).
Proof.
  intros Hcount Henc Hpages Hmd.
  apply (proj2 (text_operations_return_cases cfg w file_path s1)) in Hpages
    as (raw & (size & reader & ps & _ & Hopen & Hplain & Hps & Hraw) & ->).
  apply get_pdf_metadata_return_cases in Hmd
    as (size' & n & enc & info & (reader' & ps' & _ & Hopen' & Hps' & Hlen & Henc' & _) & ->).
  assert (reader' = reader) as -> by congruence.
  assert (ps' = ps) as -> by congruence.
  rewrite records_from_length, <- Hlen, <- Henc', Hplain,
    (page_texts_length ps raw Hraw).
  rewrite !with_document_information_other by done. unfold file_information.
  split; [by rewrite lookup_insert_eq|].
  by rewrite lookup_insert_ne, lookup_insert_eq.
Qed.

Lemma metadata_agrees_with_pages_witness :
  ("page_count" ∉ METADATA_FIELDS config)
  ∧ ("is_encrypted" ∉ METADATA_FIELDS config)
  ∧ ∃ pages_data md,
      (extract_text_by_pages config
         (Sample.world (Return (Sample.plain (Some Sample.document_info))))
         Sample.report []).1 = Return pages_data
      ∧ (get_pdf_metadata config
           (Sample.world (Return (Sample.plain (Some Sample.document_info))))
           Sample.report []).1 = Return md
      ∧ md !! "is_encrypted" = Some (VBool false)
      ∧ md !! "page_count" = Some (VInt (Z.of_nat (length pages_data))).
Proof.
  assert (H1 : "page_count" ∉ METADATA_FIELDS config).
  { apply (bool_decide_unpack _). vm_compute. reflexivity. }
  assert (H2 : "is_encrypted" ∉ METADATA_FIELDS config).
  { apply (bool_decide_unpack _). vm_compute. reflexivity. }
  split; [exact H1|]. split; [exact H2|].
  eexists _, _.
  split; [apply (extract_text_by_pages_returns _ _ _ _ _ (sample_plain_valid _))|].
  split; [apply (get_pdf_metadata_returns _ _ _ _ _ _ _ _ (sample_plain_info _))|].
  apply (metadata_agrees_with_pages config
           (Sample.world (Return (Sample.plain (Some Sample.document_info))))
           Sample.report [] [] _ _ H1 H2).
  - apply (extract_text_by_pages_returns _ _ _ _ _ (sample_plain_valid _)).
  - apply (get_pdf_metadata_returns _ _ _ _ _ _ _ _ (sample_plain_info _)).
Defined.

(** ** Encrypted documents and the three operations *)

(** C4, as the code has it. For a valid PDF the reader reports as
    encrypted: [extract_text_from_pdf] and [extract_text_by_pages] raise the
    encrypted-document error after asking the reader only to open the file
    and whether it is encrypted, so no decryption and no text extraction is
    attempted; [get_pdf_metadata] makes no encryption check: it returns
    exactly when the reader still gives the pages and the document
    information, its record then says [is_encrypted] is [True], and it
    raises when the reader fails on either. *)
Theorem encrypted_pdf_operations cfg w file_path size reader s :
  passes_validation cfg w file_path size →
  PdfReader w file_path = Return reader →
  is_encrypted reader = true →
  "is_encrypted" ∉ METADATA_FIELDS cfg →
  (∃ e t, extract_text_from_pdf cfg w file_path s = (Raise e, (s ++ t)%list)
          ∧ Spec.EncryptedDocument e
          ∧ reader_calls t = [Open file_path; IsEncrypted])
  ∧ (∃ e t, extract_text_by_pages cfg w file_path s = (Raise e, (s ++ t)%list)
            ∧ Spec.EncryptedDocument e
            ∧ reader_calls t = [Open file_path; IsEncrypted])
  ∧ ((∃ md, (get_pdf_metadata cfg w file_path s).1 = Return md) ↔
     (∃ ps info, pages reader = Return ps ∧ metadata reader = Return info))
  ∧ (∀ md, (get_pdf_metadata cfg w file_path s).1 = Return md →
       md !! "is_encrypted" = Some (VBool true))
  ∧ (∀ e, metadata_reader_failure w file_path e →
       ∃ e', (get_pdf_metadata cfg w file_path s).1 = Raise e').
Proof.
  intros Hpass Hopen Henc Hfield.
  split; [|split; [|split; [|split]]].
  - destruct (extract_text_from_pdf_encrypted cfg w file_path size reader s)
      as (t & Hrun & Hcalls); try done.
    by exists encrypted_error, t.
  - destruct (extract_text_by_pages_encrypted cfg w file_path size reader s)
      as (t & Hrun & Hcalls); try done.
    by exists encrypted_error, t.
  - split.
    + intros [md Hmd]. apply get_pdf_metadata_return_cases in Hmd
        as (size' & n & enc & info & (reader' & ps & _ & Hopen' & Hps & _ & _ & Hinfo) & _).
      assert (reader' = reader) as -> by congruence. eauto.
    + intros (ps & info & Hps & Hinfo). eexists.
      apply (get_pdf_metadata_returns cfg w file_path size (length ps) true info).
      by exists reader, ps.
  - intros md Hmd. apply get_pdf_metadata_return_cases in Hmd
      as (size' & n & enc & info & (reader' & ps & _ & Hopen' & _ & _ & Henc' & _) & ->).
    assert (reader' = reader) as -> by congruence.
    rewrite with_document_information_other by done.
    unfold file_information. rewrite lookup_insert_eq. congruence.
  - intros e Hfail.
    destruct (get_pdf_metadata_reader_failure cfg w file_path size e s)
      as (e' & t & -> & _); eauto.
Qed.

Lemma encrypted_pdf_operations_witness :
  passes_validation config (Sample.world (Return Sample.encrypted)) Sample.report 131072
  ∧ is_encrypted Sample.encrypted = true
  ∧ ("is_encrypted" ∉ METADATA_FIELDS config)
  ∧ (∃ e t, extract_text_from_pdf config (Sample.world (Return Sample.encrypted))
              Sample.report [] = (Raise e, t)
            ∧ Spec.EncryptedDocument e
            ∧ reader_calls t = [Open Sample.report; IsEncrypted])
  ∧ ∃ md, (get_pdf_metadata config (Sample.world (Return Sample.encrypted))
             Sample.report []).1 = Return md
        ∧ md !! "is_encrypted" = Some (VBool true).
Proof.
  assert (Hfield : "is_encrypted" ∉ METADATA_FIELDS config).
  { apply (bool_decide_unpack _). vm_compute. reflexivity. }
  split; [apply sample_report_passes|]. split; [reflexivity|]. split; [exact Hfield|].
  destruct (encrypted_pdf_operations config (Sample.world (Return Sample.encrypted))
              Sample.report 131072 Sample.encrypted []
              (sample_report_passes _) eq_refl eq_refl Hfield)
    as (Htext & _ & Hreturns & Htrue & _).
  split; [exact Htext|].
  destruct (proj2 Hreturns) as [md Hmd]; [by eexists _, _|].
  exists md. split; [exact Hmd | exact (Htrue md Hmd)].
Defined.

(** C4 fails as stated: the file passes validation and the reader opens it
    and reports it as encrypted, but refuses to give its pages;
    [get_pdf_metadata] then raises instead of returning a record. *)
Lemma encrypted_metadata_may_fail :
  passes_validation config Locked.world Sample.report 131072
  ∧ PdfReader Locked.world Sample.report = Return Locked.reader
  ∧ is_encrypted Locked.reader = true
  ∧ (get_pdf_metadata config Locked.world Sample.report []).1
    = Raise (mkExc Exception "Failed to extract metadata: File has not been decrypted")
  ∧ ¬ ∃ md, (get_pdf_metadata config Locked.world Sample.report []).1 = Return md.
Proof.
  assert (Hrun : (get_pdf_metadata config Locked.world Sample.report []).1
                 = Raise (mkExc Exception
                            "Failed to extract metadata: File has not been decrypted")).
  { vm_compute. reflexivity. }
  split; [apply sample_report_passes|]. split; [reflexivity|]. split; [reflexivity|].
  split; [exact Hrun|]. intros [md Hmd]. rewrite Hrun in Hmd. discriminate.
Qed.

(** ** The example script, call by call *)

(** The run of [main]: it ends with the exception of the first of its three
    calls that raises, leaving the actions of that call, and it ends
    normally when none raises. *)
Lemma main_run cfg w p :
  ∃ out,
    main cfg w p =
      (match (main_metadata cfg w p).1 with
       | Raise e => Raise e
       | Return _ =>
           match (main_full_text cfg w p).1 with
           | Raise e => Raise e
           | Return _ =>
               match (main_pages cfg w p).1 with
               | Raise e => Raise e
               | Return _ => Return tt
               end
           end
       end,
       {| Script.stdout := out;
          Script.actions :=
            match (main_metadata cfg w p).1 with
            | Raise _ => (main_metadata cfg w p).2
            | Return _ =>
                match (main_full_text cfg w p).1 with
                | Raise _ => (main_full_text cfg w p).2
                | Return _ => (main_pages cfg w p).2
                end
            end |}).
Proof.
  unfold main_pages, main_full_text, main_metadata, main. cbv zeta.
  set (pdf := "data/sample_pdfs/sample1.pdf").
  rewrite !run_print, run_call. cbn [Script.actions].
  destruct (get_pdf_metadata cfg w pdf (Script.actions p)) as [[md|e] s1] eqn:H1;
    cbn [fst snd]; [|by eexists].
  assert (H1' : (get_pdf_metadata cfg w pdf (Script.actions p)).1 = Return md)
    by (by rewrite H1).
  apply get_pdf_metadata_return_cases in H1' as (size & n & enc & info & Hvi & ->).
  destruct (basic_key_is_Some cfg w pdf size n enc info "file_name") as [v1 Hv1];
    [apply (bool_decide_unpack _); vm_compute; reflexivity|].
  destruct (basic_key_is_Some cfg w pdf size n enc info "page_count") as [v2 Hv2];
    [apply (bool_decide_unpack _); vm_compute; reflexivity|].
  destruct (basic_key_is_Some cfg w pdf size n enc info "file_size_mb") as [v3 Hv3];
    [apply (bool_decide_unpack _); vm_compute; reflexivity|].
  rewrite run_call. cbn [Script.actions]. rewrite (subscript_run _ _ _ _ Hv1).
  cbn [fst snd]. rewrite run_print, run_call. cbn [Script.actions].
  rewrite (subscript_run _ _ _ _ Hv2). cbn [fst snd].
  rewrite run_print, run_call. cbn [Script.actions].
  rewrite (subscript_run _ _ _ _ Hv3). cbn [fst snd].
  rewrite !run_print, run_call. cbn [Script.actions].
  destruct (extract_text_from_pdf cfg w pdf s1) as [[full_text|e] s2] eqn:H2;
    cbn [fst snd]; [|by eexists].
  rewrite !run_print, run_call. cbn [Script.actions].
  destruct (extract_text_by_pages cfg w pdf s2) as [[pages_data|e] s3] eqn:H3;
    cbn [fst snd]; [|by eexists].
  rewrite script_bind_run.
  match goal with
  | |- context [print_pages ?pages ?q] =>
      destruct (print_pages_returns pages q) as [out ->]
  end.
  rewrite !run_print. unfold Script.print. cbn [Script.stdout Script.actions].
  by eexists.
Qed.

(** X19. The example script stops at the first failure. It runs to its end
    exactly when its sample file is a valid PDF that is not encrypted, all
    of whose pages give their text and whose document information can be
    read. Otherwise it raises the exception of the first of its three calls
    ([get_pdf_metadata], [extract_text_from_pdf], [extract_text_by_pages],
    each run after the one before) that raises, as that call raised it, and
    the calls after that one are not made. *)
Theorem main_stops_at_first_failure cfg w p :
  ((main cfg w p).1 = Return tt ↔
     ∃ raw info,
       valid_plain_pdf cfg w "data/sample_pdfs/sample1.pdf" raw
       ∧ has_info w "data/sample_pdfs/sample1.pdf" info)
  ∧ (∀ e, (main_metadata cfg w p).1 = Raise e →
       (main cfg w p).1 = Raise e
       ∧ Script.actions (main cfg w p).2 = (main_metadata cfg w p).2)
  ∧ (∀ md e, (main_metadata cfg w p).1 = Return md →
       (main_full_text cfg w p).1 = Raise e →
       (main cfg w p).1 = Raise e
       ∧ Script.actions (main cfg w p).2 = (main_full_text cfg w p).2)
  ∧ (∀ md full_text e, (main_metadata cfg w p).1 = Return md →
       (main_full_text cfg w p).1 = Return full_text →
       (main_pages cfg w p).1 = Raise e →
       (main cfg w p).1 = Raise e
       ∧ Script.actions (main cfg w p).2 = (main_pages cfg w p).2)
  ∧ (∀ md full_text pages_data, (main_metadata cfg w p).1 = Return md →
       (main_full_text cfg w p).1 = Return full_text →
       (main_pages cfg w p).1 = Return pages_data →
       (main cfg w p).1 = Return tt
       ∧ Script.actions (main cfg w p).2 = (main_pages cfg w p).2).
Proof.
  split; [apply main_completes|].
  destruct (main_run cfg w p) as [out ->]. cbn [fst snd Script.actions].
  split; [|split; [|split]].
  - by intros e ->.
  - by intros md e -> ->.
  - by intros md full_text e -> -> ->.
  - by intros md full_text pages_data -> -> ->.
Qed.
